(** * RPS AI Battle: pose classifier, round state machine and score ledger

    A shallow embedding of [src/App.jsx].  The source file holds two
    successive versions of the React component [App]; they are embedded as
    the modules [AppV1] (the first component, lines 1-241) and [AppV2] (the
    second one, lines 242-579).

    - JavaScript numbers that carry pixel coordinates are kept abstract: the
      classifier is written over any type [number] with a strict comparison, a
      subtraction and integer literals (class [JsNum]); the instances are
      exact integers ([Z]) and IEEE-754 binary64 ([float], what a JavaScript
      engine computes with).
    - The draw of the AI move is [Draw64.aiIdx], the floor of a binary64
      product; the reveal callback takes a rational draw [r] that stands for
      a third of that product ([Draw64.seed]).
    - A JavaScript expression that may throw evaluates to a [completion].
    - React state is the record [AppState]; a handler is the list of
      [Action]s it performs, in program order; the runtime (state setters,
      [setTimeout], the two countdown effects) is the interpreter [dispatch]. *)

From Stdlib Require Import ZArith QArith Qround Floats Uint63 Lia Lqa.
From stdpp Require Import base option list strings.

Local Open Scope string_scope.
Local Open Scope list_scope.

(** ** JavaScript numbers, as far as the classifier uses them *)

Class JsNum (number : Type) := {
  num_lt : number -> number -> bool;   (* [a < b] *)
  num_sub : number -> number -> number;   (* [a - b] *)
  num_lit : Z -> number             (* an integer literal *)
}.

(** [a > b] is [b < a] on numbers (both are false on NaN). *)
Definition num_gt {number : Type} `{JsNum number} (a b : number) : bool := num_lt b a.

#[export] Instance Z_JsNum : JsNum Z :=
  {| num_lt := Z.ltb; num_sub := Z.sub; num_lit := fun z => z |}.

Definition float_of_Z (z : Z) : float :=
  if (z <? 0)%Z then PrimFloat.opp (PrimFloat.of_uint63 (Uint63.of_Z (- z)))
  else PrimFloat.of_uint63 (Uint63.of_Z z).

#[export] Instance float_JsNum : JsNum float :=
  {| num_lt := PrimFloat.ltb; num_sub := PrimFloat.sub; num_lit := float_of_Z |}.

(** Subtracting the larger literal gives the lower bound: what the two
    thresholds 50 and 40 need of the arithmetic to be comparable. *)
Class ThresholdMonotone (number : Type) `{JsNum number} : Prop :=
  lt_sub_50_40 : forall a w : number,
    num_lt a (num_sub w (num_lit 50)) = true -> num_lt a (num_sub w (num_lit 40)) = true.

#[export] Instance Z_ThresholdMonotone : ThresholdMonotone Z.
Proof. intros a w. cbn. rewrite !Z.ltb_lt. lia. Qed.

(** ** Completions: a value, or a thrown TypeError *)

Inductive completion (A : Type) : Type :=
| Normal (a : A)
| TypeError.
Arguments Normal {A} a.
Arguments TypeError {A}.

#[export] Instance completion_ret : MRet completion := fun A a => Normal a.
#[export] Instance completion_bind : MBind completion := fun A B f m =>
  match m with
  | Normal a => f a
  | TypeError => TypeError
  end.

Fixpoint mapC {A B : Type} (f : A -> completion B) (l : list A) : completion (list B) :=
  match l with
  | [] => Normal []
  | a :: l' => b ← f a; bs ← mapC f l'; Normal (b :: bs)
  end.

(** ** Landmarks *)

Record Keypoint (number : Type) : Type := { kp_x : number; kp_y : number }.
Arguments kp_x {number} k.
Arguments kp_y {number} k.
Arguments Build_Keypoint {number} kp_x kp_y.

(** [keypoints[i].y]: reading [.y] of [undefined] throws. *)
Definition prop_y {number : Type} (k : option (Keypoint number)) : completion number :=
  match k with
  | Some p => Normal (kp_y p)
  | None => TypeError
  end.

(** [hands[0]]: one detected hand. *)
Record Hand (number : Type) : Type := { keypoints : list (Keypoint number) }.
Arguments keypoints {number} h.
Arguments Build_Hand {number} keypoints.

(** The move labels of the second component, line 247. *)
Definition MOVES : list string := ["Rock ✊"; "Paper 🖐️"; "Scissors ✌️"].

(** ** The first component (lines 1-241) *)

Module AppV1.
Section Classifier.
Context {number : Type} `{JsNum number}.

(** The move labels of the first component, line 6: the same three words as
    in [MOVES], each followed by its pictograph in another encoding; they are
    kept as the file has them. *)
Definition moves : list string := ["Rock âœŠ"; "Paper ðŸ–ï¸"; "Scissors âœŒï¸"].

(** Lines 110-126. *)
Definition classifyGesture (keypoints : list (Keypoint number)) : completion (option string) :=
  wristY ← prop_y (keypoints !! 0%nat);
  let tips := [keypoints !! 4%nat; keypoints !! 8%nat; keypoints !! 12%nat;
               keypoints !! 16%nat; keypoints !! 20%nat] in
  flags ← mapC (fun tip => tipY ← prop_y tip;
                           Normal (num_lt tipY (num_sub wristY (num_lit 50)))) tips;
  let extendedCount := length (filter (fun b : bool => b = true) flags) in
  if (extendedCount =? 0)%nat then Normal (Some "Rock âœŠ")
  else if (4 <=? extendedCount)%nat then Normal (Some "Paper ðŸ–ï¸")
  else if (extendedCount =? 2)%nat then
    y12 ← prop_y (keypoints !! 12%nat);
    y8 ← prop_y (keypoints !! 8%nat);
    if num_gt y12 (num_sub y8 (num_lit 20)) then Normal (Some "Scissors âœŒï¸")
    else Normal None
  else Normal None.
End Classifier.
End AppV1.

(** ** The second component (lines 242-579) *)

Module AppV2.
Section Classifier.
Context {number : Type} `{JsNum number}.

(** Lines 375-395.  The argument is [None] when it is [null] or [undefined]. *)
Definition classifyGesture (keypoints : option (list (Keypoint number)))
  : completion (option string) :=
  match keypoints with
  | None => Normal None
  | Some keypoints =>
    if (length keypoints <? 21)%nat then Normal None
    else
      wristY ← prop_y (keypoints !! 0%nat);
      y8 ← prop_y (keypoints !! 8%nat);
      let indexTip := num_lt y8 (num_sub wristY (num_lit 40)) in
      y12 ← prop_y (keypoints !! 12%nat);
      let middleTip := num_lt y12 (num_sub wristY (num_lit 40)) in
      y16 ← prop_y (keypoints !! 16%nat);
      let ringTip := num_lt y16 (num_sub wristY (num_lit 40)) in
      y20 ← prop_y (keypoints !! 20%nat);
      let pinkyTip := num_lt y20 (num_sub wristY (num_lit 40)) in
      let extendedFingers :=
        ((if indexTip then 1 else 0) + (if middleTip then 1 else 0) +
         (if ringTip then 1 else 0) + (if pinkyTip then 1 else 0))%nat in
      if (extendedFingers =? 0)%nat then Normal (Some "Rock ✊")
      else if (3 <=? extendedFingers)%nat then Normal (Some "Paper 🖐️")
      else if indexTip && middleTip && negb ringTip && negb pinkyTip
        then Normal (Some "Scissors ✌️")
      else Normal None
  end.
End Classifier.
End AppV2.

(** ** The classifier of the specification (section 4.1), in the spec's words *)

Module Spec.
Inductive Verdict : Type := Rock | Paper | Scissors | Unclear | NoHand.

Section Classifier.
Context {number : Type} `{JsNum number}.
(** The threshold is a parameter. *)
Variable T : number.

(** A fingertip is extended when its y-coordinate is less than [wristY - T]. *)
Definition extended (pose : list (Keypoint number)) (i : nat) : bool :=
  match pose !! i, pose !! 0%nat with
  | Some tip, Some wrist => num_lt (kp_y tip) (num_sub (kp_y wrist) T)
  | _, _ => false
  end.

Definition extendedCount (pose : list (Keypoint number)) : nat :=
  length (filter (fun i => extended pose i = true) [8; 12; 16; 20]%nat).

(** The decision table on a 21-landmark pose, first matching rule wins. *)
Definition decide_pose (pose : list (Keypoint number)) : Verdict :=
  if (extendedCount pose =? 0)%nat then Rock
  else if (3 <=? extendedCount pose)%nat then Paper
  else if extended pose 8 && extended pose 12
          && negb (extended pose 16) && negb (extended pose 20) then Scissors
  else Unclear.

Definition classify (pose : option (list (Keypoint number))) : Verdict :=
  match pose with
  | None => NoHand
  | Some p => if decide (length p = 21%nat) then decide_pose p else NoHand
  end.
End Classifier.

(** The beats relation of section 4.2, on the move labels: Rock beats
    Scissors, Scissors beats Paper, Paper beats Rock. *)
Definition beats (p a : string) : Prop :=
  (p, a) ∈ [("Rock ✊", "Scissors ✌️"); ("Scissors ✌️", "Paper 🖐️"); ("Paper 🖐️", "Rock ✊")].

#[global] Instance beats_dec (p a : string) : Decision (beats p a).
Proof. unfold beats. apply _. Defined.

(** The number of rounds of [played] (player move, AI move) the player
    won, and the number the AI won. *)
Definition wins (played : list (string * string)) : nat :=
  length (filter (fun m => beats m.1 m.2) played).
Definition losses (played : list (string * string)) : nat :=
  length (filter (fun m => beats m.2 m.1) played).

(** What the component's classifier returns for a verdict: a move label, or
    [null] when there is no move. *)
Definition gesture_of (v : Verdict) : option string :=
  match v with
  | Rock => Some "Rock ✊"
  | Paper => Some "Paper 🖐️"
  | Scissors => Some "Scissors ✌️"
  | Unclear | NoHand => None
  end.
End Spec.

(** A pose in which every landmark has the same coordinates. *)
Definition flat_pose {number : Type} (n : nat) (v : number) : list (Keypoint number) :=
  replicate n (Build_Keypoint v v).

(** ** React state of the second component (lines 252-258) *)

Record AppState : Type := {
  detector : bool;            (* [detector !== null] *)
  countdown : option Z;       (* [null], or 3, 2, 1, 0 *)
  playerMove : string;
  aiMove : string;
  result : string;
  playerScore : nat;
  aiScore : nat
}.

Definition initialState : AppState :=
  {| detector := false; countdown := None; playerMove := "?"; aiMove := "?";
     result := "Click PLAY to start!"; playerScore := 0; aiScore := 0 |}.

(** The functions handed to [setTimeout]. *)
Inductive Callback : Type :=
| CountdownTick (c : Z)       (* line 307: [() => setCountdown(countdown - 1)], closed over [countdown = c] *)
| ClearCountdown              (* lines 325, 332, 372: [() => setCountdown(null)] *)
| Reveal (gesture : string).  (* lines 340-369, closed over [gesture] *)

(** What a handler does, one entry per call, in program order. *)
Inductive Action : Type :=
| SetDetector                        (* [setDetector(det)] *)
| SetCountdown (c : option Z)
| SetPlayerMove (m : string)
| SetAiMove (m : string)
| SetResult (m : string)
| SetPlayerScore (n : nat)           (* [setPlayerScore(0)] *)
| SetAiScore (n : nat)
| BumpPlayerScore                    (* [setPlayerScore((prev) => prev + 1)] *)
| BumpAiScore                        (* [setAiScore((prev) => prev + 1)] *)
| SetTimeout (cb : Callback) (delay : nat)
| ClearTimeout (id : option nat)      (* [clearTimeout(timer)] *)
| EstimateHands                      (* [await detector.estimateHands(...)] in [capturePose] *)
| MathRandom (r : Q)                 (* [Math.random()] returned [r] *)
| Confetti.

(** The state setters. *)
Definition setState (a : Action) (s : AppState) : AppState :=
  match a with
  | SetDetector =>
      {| detector := true; countdown := countdown s; playerMove := playerMove s;
         aiMove := aiMove s; result := result s;
         playerScore := playerScore s; aiScore := aiScore s |}
  | SetCountdown c =>
      {| detector := detector s; countdown := c; playerMove := playerMove s;
         aiMove := aiMove s; result := result s;
         playerScore := playerScore s; aiScore := aiScore s |}
  | SetPlayerMove m =>
      {| detector := detector s; countdown := countdown s; playerMove := m;
         aiMove := aiMove s; result := result s;
         playerScore := playerScore s; aiScore := aiScore s |}
  | SetAiMove m =>
      {| detector := detector s; countdown := countdown s; playerMove := playerMove s;
         aiMove := m; result := result s;
         playerScore := playerScore s; aiScore := aiScore s |}
  | SetResult m =>
      {| detector := detector s; countdown := countdown s; playerMove := playerMove s;
         aiMove := aiMove s; result := m;
         playerScore := playerScore s; aiScore := aiScore s |}
  | SetPlayerScore n =>
      {| detector := detector s; countdown := countdown s; playerMove := playerMove s;
         aiMove := aiMove s; result := result s;
         playerScore := n; aiScore := aiScore s |}
  | SetAiScore n =>
      {| detector := detector s; countdown := countdown s; playerMove := playerMove s;
         aiMove := aiMove s; result := result s;
         playerScore := playerScore s; aiScore := n |}
  | BumpPlayerScore =>
      {| detector := detector s; countdown := countdown s; playerMove := playerMove s;
         aiMove := aiMove s; result := result s;
         playerScore := playerScore s + 1; aiScore := aiScore s |}
  | BumpAiScore =>
      {| detector := detector s; countdown := countdown s; playerMove := playerMove s;
         aiMove := aiMove s; result := result s;
         playerScore := playerScore s; aiScore := aiScore s + 1 |}
  | SetTimeout _ _ | ClearTimeout _ | EstimateHands | MathRandom _ | Confetti => s
  end.

Definition setStates (acts : list Action) (s : AppState) : AppState :=
  foldl (fun s a => setState a s) s acts.

(** ** Handlers of the second component *)

Module Handlers.

(** [playRound], lines 468-474. *)
Definition playRound (s : AppState) : list Action :=
  if bool_decide (countdown s <> None) || negb (detector s) then []
  else [SetPlayerMove "?"; SetAiMove "?"; SetResult "Get ready..."; SetCountdown (Some 3%Z)].

(** [resetScores], lines 476-483. *)
Definition resetScores : list Action :=
  [SetPlayerScore 0; SetAiScore 0; SetCountdown None;
   SetPlayerMove "?"; SetAiMove "?"; SetResult "Scores reset! Play again."].

(** [capturePose] up to its [await], lines 320-321. *)
Definition capturePose_begin : list Action :=
  [SetResult "Analyzing your move..."; EstimateHands].

(** [capturePose] from the point where [estimateHands] resolved with
    [hands], lines 323-372.  A [TypeError] in [classifyGesture] would
    reject the promise before any further call. *)
Definition capturePose_resume {number : Type} `{JsNum number}
    (hands : list (Hand number)) : list Action :=
  match hands with
  | [] => [SetResult "No hand detected! Try again."; SetTimeout ClearCountdown 1500]
  | hand :: _ =>
    match AppV2.classifyGesture (Some (keypoints hand)) with
    | TypeError => []
    | Normal None =>
        [SetResult "Unclear gesture! Hold steady next time."; SetTimeout ClearCountdown 1500]
    | Normal (Some gesture) =>
        [SetPlayerMove gesture; SetResult "AI is choosing...";
         SetTimeout (Reveal gesture) 1200; SetTimeout ClearCountdown 4000]
    end
  end.

(** [Math.floor(Math.random() * 3)], line 341, on the draw [r], multiplied
    exactly.  The code multiplies in binary64: when [Math.random()] returned
    [x], the draw [r] stands for a third of the binary64 product
    ([Draw64.seed x]), whose floor this then is. *)
Definition aiIdx (r : Q) : Z := Qfloor (r * 3).

(** [MOVES[aiIdx]], line 342.  [Math.random()] returns a number in [0,1),
    so the index is 0, 1 or 2; for any other index the array read is
    [undefined], rendered here by its string conversion. *)
Definition aiChoice (r : Q) : string :=
  default "undefined"
    (if (aiIdx r <? 0)%Z then None else MOVES !! Z.to_nat (aiIdx r)).

(** The branch taken at lines 346-367. *)
Inductive Outcome : Type := Tie | Win | Lose.

#[global] Instance Outcome_eq_dec : EqDecision Outcome.
Proof. solve_decision. Defined.

(** [playerWins], lines 349-352. *)
Definition playerWins (gesture aiChoice : string) : bool :=
  (String.eqb gesture "Rock ✊" && String.eqb aiChoice "Scissors ✌️")
  || (String.eqb gesture "Paper 🖐️" && String.eqb aiChoice "Rock ✊")
  || (String.eqb gesture "Scissors ✌️" && String.eqb aiChoice "Paper 🖐️").

Definition roundOutcome (gesture aiChoice : string) : Outcome :=
  if String.eqb gesture aiChoice then Tie
  else if playerWins gesture aiChoice then Win
  else Lose.

(** [winnerText] as assigned in the three branches. *)
Definition winnerText (o : Outcome) : string :=
  match o with
  | Tie => "It's a TIE! 🤝"
  | Win => "YOU WIN! 🎉"
  | Lose => "AI WINS! 😈"
  end.

(** The calls made inside the three branches, before [setResult]. *)
Definition branchActions (o : Outcome) : list Action :=
  match o with
  | Tie => []
  | Win => [BumpPlayerScore; Confetti]
  | Lose => [BumpAiScore]
  end.

(** The reveal callback from line 343 on, for the drawn [aiChoice]. *)
Definition revealWith (gesture aiChoice : string) : list Action :=
  [SetAiMove aiChoice]
  ++ branchActions (roundOutcome gesture aiChoice)
  ++ [SetResult (winnerText (roundOutcome gesture aiChoice))].

(** The reveal callback, lines 340-369; [r] is what [Math.random()] returns. *)
Definition reveal (gesture : string) (r : Q) : list Action :=
  MathRandom r :: revealWith gesture (aiChoice r).

(** One finalized round: the reveal callback of a round whose captured move
    is [round.1], run with the draw [round.2]; and a sequence of them. *)
Definition finalizeRound (s : AppState) (round : string * Q) : AppState :=
  setStates (reveal round.1 round.2) s.
Definition finalizeRounds (rounds : list (string * Q)) (s : AppState) : AppState :=
  foldl finalizeRound s rounds.
(** A round that can be finalized: the captured move is a move label and the
    draw is a value [Math.random()] can return. *)
Definition valid_round (round : string * Q) : Prop :=
  round.1 ∈ MOVES /\ (0 <= round.2 < 1)%Q.
Definition played (rounds : list (string * Q)) : list (string * string) :=
  map (fun round => (round.1, aiChoice round.2)) rounds.

(** The body of a timer callback. *)
Definition runCallback (cb : Callback) (r : Q) : list Action :=
  match cb with
  | CountdownTick c => [SetCountdown (Some (c - 1)%Z)]
  | ClearCountdown => [SetCountdown None]
  | Reveal gesture => reveal gesture r
  end.

End Handlers.

(** ** The runtime: timers, pending detections, effects *)

Record Timer : Type := { timer_id : nat; due : nat; callback : Callback }.

Record Sys : Type := {
  ui : AppState;
  clock : nat;                    (* milliseconds *)
  nextTimerId : nat;
  timers : list Timer;            (* pending timers, oldest first *)
  countdownTimer : option nat;    (* [timer] of the last run of the countdown effect, line 305 *)
  awaiting : nat;                 (* calls of [capturePose] suspended at their [await] *)
  log : list Action               (* every call made so far, oldest first *)
}.

Definition initialSys : Sys :=
  {| ui := initialState; clock := 0; nextTimerId := 0; timers := [];
     countdownTimer := None; awaiting := 0; log := [] |}.

Module Runtime.
Import Handlers.

(** One call: state setters change [ui]; [setTimeout] registers a timer
    due [delay] ms from now; [clearTimeout] drops the timer of that id. *)
Definition perform (a : Action) (s : Sys) : Sys :=
  let timers' :=
    match a with
    | SetTimeout cb delay =>
        timers s ++ [{| timer_id := nextTimerId s; due := clock s + delay; callback := cb |}]
    | ClearTimeout id => filter (fun t => Some (timer_id t) <> id) (timers s)
    | _ => timers s
    end in
  {| ui := setState a (ui s);
     clock := clock s;
     nextTimerId := match a with SetTimeout _ _ => S (nextTimerId s) | _ => nextTimerId s end;
     timers := timers';
     countdownTimer := countdownTimer s;
     awaiting := match a with EstimateHands => S (awaiting s) | _ => awaiting s end;
     log := log s ++ [a] |}.

Definition performAll (acts : list Action) (s : Sys) : Sys :=
  foldl (fun s a => perform a s) s acts.

Definition setCountdownTimer (id : option nat) (s : Sys) : Sys :=
  {| ui := ui s; clock := clock s; nextTimerId := nextTimerId s; timers := timers s;
     countdownTimer := id; awaiting := awaiting s; log := log s |}.

(** The countdown effect, lines 304-310: the cleanup of its previous run,
    then its body. *)
Definition countdownEffect (s : Sys) : Sys :=
  let s1 := perform (ClearTimeout (countdownTimer s)) s in
  match countdown (ui s1) with
  | Some c =>
      if (0 <? c)%Z
      then setCountdownTimer (Some (nextTimerId s1)) (perform (SetTimeout (CountdownTick c) 1000) s1)
      else setCountdownTimer None s1
  | None => setCountdownTimer None s1
  end.

(** The capture effect, lines 313-317 (the video element stays mounted). *)
Definition captureEffect (s : Sys) : Sys :=
  match countdown (ui s) with
  | Some 0%Z => if detector (ui s) then performAll capturePose_begin s else s
  | _ => s
  end.

(** After a handler returned, React runs the effects whose dependencies
    changed since the previous render, in the order they are declared. *)
Definition commit (before : AppState) (s : Sys) : Sys :=
  let countdownChanged := bool_decide (countdown before <> countdown (ui s)) in
  let detectorChanged := bool_decide (detector before <> detector (ui s)) in
  let s1 := if countdownChanged then countdownEffect s else s in
  if countdownChanged || detectorChanged then captureEffect s1 else s1.

Definition dispatch (acts : list Action) (s : Sys) : Sys :=
  commit (ui s) (performAll acts s).

(** The pending timer that fires next: the earliest due, the oldest among equals. *)
Fixpoint earliest (ts : list Timer) : option Timer :=
  match ts with
  | [] => None
  | t :: ts' =>
      match earliest ts' with
      | Some u => if (due u <? due t)%nat then Some u else Some t
      | None => Some t
      end
  end.

Definition fire (t : Timer) (s : Sys) : Sys :=
  {| ui := ui s; clock := clock s `max` due t; nextTimerId := nextTimerId s;
     timers := filter (fun u => timer_id u <> timer_id t) (timers s);
     countdownTimer := countdownTimer s; awaiting := awaiting s; log := log s |}.

Definition resolveOne (s : Sys) : Sys :=
  {| ui := ui s; clock := clock s; nextTimerId := nextTimerId s; timers := timers s;
     countdownTimer := countdownTimer s; awaiting := pred (awaiting s); log := log s |}.

Definition elapse (d : nat) (s : Sys) : Sys :=
  {| ui := ui s; clock := clock s + d; nextTimerId := nextTimerId s; timers := timers s;
     countdownTimer := countdownTimer s; awaiting := awaiting s; log := log s |}.

Section Events.
Context {number : Type} `{JsNum number}.

(** What happens to the page.  An awaited detection resolves in
    [HandsEstimated]; one that rejects is [rejectHands], further down. *)
Inductive Event : Type :=
| DetectorLoaded                           (* line 294 *)
| ModelLoadFailed                          (* line 297 *)
| CameraDenied                             (* line 272 *)
| ClickPlay                                (* [onClick={playRound}] *)
| ClickReset                               (* [onClick={resetScores}] *)
| HandsEstimated (hands : list (Hand number))  (* a suspended [capturePose] resumes *)
| TimerFires (r : Q)                       (* the next timer fires; [r] is the value of
                                              [Math.random()] should its callback ask *)
| Elapse (d : nat).                        (* [d] ms pass *)

Definition step (e : Event) (s : Sys) : Sys :=
  match e with
  | DetectorLoaded => dispatch [SetDetector] s
  | ModelLoadFailed => dispatch [SetResult "AI model failed to load!"] s
  | CameraDenied => dispatch [SetResult "Camera access required!"] s
  | ClickPlay => dispatch (playRound (ui s)) s
  | ClickReset => dispatch resetScores s
  | HandsEstimated hands =>
      match awaiting s with
      | O => s
      | S _ => dispatch (capturePose_resume hands) (resolveOne s)
      end
  | TimerFires r =>
      match earliest (timers s) with
      | None => s
      | Some t => dispatch (runCallback (callback t) r) (fire t s)
      end
  | Elapse d => elapse d s
  end.

Definition run (evs : list Event) (s : Sys) : Sys :=
  foldl (fun s e => step e s) s evs.

Definition reachable (s : Sys) : Prop := exists evs, s = run evs initialSys.
End Events.
End Runtime.

(** ** Predicates on states and logs used by the properties below *)

(** Before the detector is loaded nothing is in flight. *)
Definition quiet (s : Sys) : Prop :=
  detector (ui s) = true
  \/ (countdown (ui s) = None /\ timers s = [] /\ awaiting s = 0%nat).

(** A capture that yields no move: no hand, or a first hand for which the
    classifier returns [null]; and the message shown for it. *)
Definition no_move {number : Type} `{JsNum number} (hands : list (Hand number)) : Prop :=
  hands = []
  \/ exists hand rest, hands = hand :: rest
       /\ AppV2.classifyGesture (Some (keypoints hand)) = Normal None.

Definition no_move_message {number : Type} (hands : list (Hand number)) : string :=
  match hands with
  | [] => "No hand detected! Try again."
  | _ :: _ => "Unclear gesture! Hold steady next time."
  end.

Definition is_draw (a : Action) : Prop :=
  match a with MathRandom _ => True | _ => False end.

Abbreviation draw_free := (Forall (fun a => ~ is_draw a)).




(** ** Sample inputs *)

(** Concrete poses over integer pixel coordinates: the wrist and every other
    landmark at y = 100, except the listed fingertips at y = 10. *)
Definition rock_pose : list (Keypoint Z) := flat_pose 21 100%Z.
Definition scissors_pose : list (Keypoint Z) :=
  <[8%nat := Build_Keypoint 0%Z 10%Z]> (<[12%nat := Build_Keypoint 0%Z 10%Z]> rock_pose).
Definition thumb_only_pose : list (Keypoint Z) :=
  <[4%nat := Build_Keypoint 0%Z 10%Z]> rock_pose.
Definition long_pose : list (Keypoint Z) := flat_pose 22 100%Z.
Definition paper_pose : list (Keypoint Z) :=
  <[20%nat := Build_Keypoint 0%Z 10%Z]> (<[16%nat := Build_Keypoint 0%Z 10%Z]> scissors_pose).

(** The same hand in binary64 coordinates: wrist at y = 300.5, index and
    middle tips 40.25 above it, every other landmark level with the wrist. *)
Definition scissors_pose_float : list (Keypoint float) :=
  <[8%nat := Build_Keypoint 12.5%float 260.25%float]>
    (<[12%nat := Build_Keypoint 20.75%float 260.25%float]> (flat_pose 21 300.5%float)).

(** One round from PLAY to the return to Idle in which the detector answers
    at once: three countdown ticks, the detector's answer with no time
    passed since the capture asked, then the two timers registered by the
    capture ([r] is the draw, used if the first of them is a reveal).
    [timed_round_script] lets the detector take its time and the timers
    fire late. *)
Definition round_script {number : Type} `{JsNum number}
    (hands : list (Hand number)) (r : Q) : list Runtime.Event :=
  [Runtime.ClickPlay; Runtime.TimerFires 0; Runtime.TimerFires 0; Runtime.TimerFires 0;
   Runtime.HandsEstimated hands; Runtime.TimerFires r; Runtime.TimerFires 0].

Definition ready : Sys := Runtime.run (number := Z) [Runtime.DetectorLoaded] initialSys.

(** A round whose fist was captured and whose reveal is pending. *)
Definition revealing : Sys :=
  Runtime.run (number := Z)
    [Runtime.ClickPlay; Runtime.TimerFires 0; Runtime.TimerFires 0; Runtime.TimerFires 0;
     Runtime.HandsEstimated [Build_Hand rock_pose]] ready.

(** Sample states of the machine: a round counting down (2 on the display),
    and a round whose capture is waiting for the detector's answer. *)
Definition counting_down : Sys :=
  Runtime.run (number := Z)
    [Runtime.DetectorLoaded; Runtime.ClickPlay; Runtime.TimerFires 0] initialSys.
Definition capturing : Sys :=
  Runtime.run (number := Z)
    [Runtime.DetectorLoaded; Runtime.ClickPlay; Runtime.TimerFires 0;
     Runtime.TimerFires 0; Runtime.TimerFires 0] initialSys.

(** ** Invariants of the countdown and of the timer table *)

(** The values [countdown] takes. *)
Definition countdown_values : list (option Z) :=
  [None; Some 0%Z; Some 1%Z; Some 2%Z; Some 3%Z].

Definition is_tick (t : Timer) : Prop :=
  match callback t with CountdownTick _ => True | _ => False end.

#[global] Instance is_tick_dec (t : Timer) : Decision (is_tick t).
Proof. unfold is_tick. destruct (callback t); apply _. Defined.

(** Every pending countdown tick is the one the countdown effect registered
    last, for the value on display, which is positive. *)
Definition ticking (s : Sys) : Prop :=
  countdown (ui s) ∈ countdown_values
  /\ forall t c, t ∈ timers s -> callback t = CountdownTick c ->
       countdownTimer s = Some (timer_id t) /\ countdown (ui s) = Some c /\ (0 < c)%Z.

(** Timer ids are handed out once. *)
Definition fresh_ids (s : Sys) : Prop :=
  NoDup (timer_id <$> timers s)
  /\ forall t, t ∈ timers s -> (timer_id t < nextTimerId s)%nat.

(** Idle, with no countdown tick pending. *)
Definition stopped (s : Sys) : Prop :=
  countdown (ui s) = None /\ forall t, t ∈ timers s -> ~ is_tick t.

(** ** What the second component renders (lines 485-569) *)

Module View.

(** [isReady], line 485. *)
Definition isReady (s : AppState) : bool :=
  detector s && bool_decide (countdown s = None).

(** The PLAY button, lines 556-562: [disabled={!isReady}] and its label. *)
Definition playDisabled (s : AppState) : bool := negb (isReady s).
Definition playLabel (s : AppState) : string :=
  if isReady s then "PLAY ROUND" else "LOADING AI...".

(** The countdown overlay, lines 512-518: absent when [countdown] is [null],
    else the number when it is positive, else "GO!". *)
Inductive Overlay : Type := Hidden | Digit (c : Z) | Go.

Definition overlay (s : AppState) : Overlay :=
  match countdown s with
  | None => Hidden
  | Some c => if (0 <? c)%Z then Digit c else Go
  end.

End View.

(** ** Results shown, as read off the log *)

(** [shows msg a]: the call [a] is [setResult(msg)]. *)
Definition shows (msg : string) (a : Action) : bool :=
  match a with
  | SetResult m => String.eqb m msg
  | _ => false
  end.

(** How many times [msg] was set as the result in [l]. *)
Definition shown (msg : string) (l : list Action) : nat :=
  length (filter (fun a => shows msg a = true) l).

(** The calls the two countdown effects make (lines 304-317, 320-321). *)
Definition effect_call (a : Action) : Prop :=
  match a with
  | ClearTimeout _ | SetTimeout (CountdownTick _) _ | EstimateHands => True
  | SetResult m => m = "Analyzing your move..."
  | _ => False
  end.

(** A handler whose calls move the counters as its result messages say. *)
Definition scores_as_shown (acts : list Action) : Prop :=
  forall a : AppState,
    playerScore (setStates acts a) = (playerScore a + shown "YOU WIN! 🎉" acts)%nat
    /\ aiScore (setStates acts a) = (aiScore a + shown "AI WINS! 😈" acts)%nat.

(** Idle with the detector loaded and nothing pending: where a round starts. *)
Definition at_rest (s : Sys) : Prop :=
  detector (ui s) = true /\ countdown (ui s) = None
  /\ timers s = [] /\ awaiting s = 0%nat.

(** The captured move and the draw of each round played. *)
Definition rounds_of {number : Type} (plays : list (Hand number * string * Q))
  : list (string * Q) :=
  map (fun p => (p.1.2, p.2)) plays.

(** ** The overlay loop, [detectAndDraw] (lines 53-106 and 404-461) *)

(** Calls on the canvas context, and the request for the next frame. *)
Inductive CanvasOp (number : Type) : Type :=
| ClearRect (x y w h : Z)
| SetStrokeStyle (c : string)
| SetLineWidth (w : Z)
| SetLineCap (c : string)
| SetShadowBlur (b : Z)
| SetShadowColor (c : string)
| SetFillStyle (c : string)
| CreateRadialGradient (x0 y0 : number) (r0 : Z) (x1 y1 : number) (r1 : Z)
| AddColorStop (offset : Z) (c : string)
| SetFillStyleGradient                 (* [ctx.fillStyle = gradient] *)
| BeginPath
| MoveTo (x y : number)
| LineTo (x y : number)
| Stroke
| Arc (x y : number) (radius : Z)      (* a full circle: from 0 to [2 * Math.PI] *)
| Fill
| RequestAnimationFrame.
Arguments ClearRect {number} x y w h.
Arguments SetStrokeStyle {number} c.
Arguments SetLineWidth {number} w.
Arguments SetLineCap {number} c.
Arguments SetShadowBlur {number} b.
Arguments SetShadowColor {number} c.
Arguments SetFillStyle {number} c.
Arguments CreateRadialGradient {number} x0 y0 r0 x1 y1 r1.
Arguments AddColorStop {number} offset c.
Arguments SetFillStyleGradient {number}.
Arguments BeginPath {number}.
Arguments MoveTo {number} x y.
Arguments LineTo {number} x y.
Arguments Stroke {number}.
Arguments Arc {number} x y radius.
Arguments Fill {number}.
Arguments RequestAnimationFrame {number}.

(** A computation that makes calls one after the other and may throw: the
    calls made, in order, up to the throw if there is one. *)
Definition traced (Op A : Type) : Type := (list Op * completion A)%type.

#[export] Instance traced_ret (Op : Type) : MRet (traced Op) :=
  fun A a => ([], Normal a).
#[export] Instance traced_bind (Op : Type) : MBind (traced Op) := fun A B f m =>
  match m with
  | (l, Normal a) => let '(l', r) := f a in (l ++ l', r)
  | (l, TypeError) => (l, TypeError)
  end.

Definition call {Op : Type} (op : Op) : traced Op unit := ([op], Normal tt).
Definition eval {Op A : Type} (c : completion A) : traced Op A := ([], c).

(** [array.forEach(f)]. *)
Fixpoint forEach {Op A : Type} (f : A -> traced Op unit) (l : list A) : traced Op unit :=
  match l with
  | [] => mret tt
  | a :: l' => _ ← f a; forEach f l'
  end.

(** [keypoints[i].x]: reading [.x] of [undefined] throws. *)
Definition prop_x {number : Type} (k : option (Keypoint number)) : completion number :=
  match k with
  | Some p => Normal (kp_x p)
  | None => TypeError
  end.

(** The hand skeleton, lines 61-83 and 412-434 (the same 21 pairs). *)
Definition connections : list (nat * nat) :=
  [(0, 1); (1, 2); (2, 3); (3, 4); (0, 5); (5, 6); (6, 7); (7, 8); (5, 9); (9, 10);
   (10, 11); (11, 12); (9, 13); (13, 14); (14, 15); (15, 16); (13, 17); (17, 18);
   (18, 19); (19, 20); (0, 17)]%nat.

Section Overlay.
Context {number : Type}.

(** The callback of [connections.forEach], lines 86-91 and 440-445. *)
Definition drawConnection (keypoints : list (Keypoint number)) (c : nat * nat)
  : traced (CanvasOp number) unit :=
  _ ← call BeginPath;
  xi ← eval (prop_x (keypoints !! c.1));
  yi ← eval (prop_y (keypoints !! c.1));
  _ ← call (MoveTo xi yi);
  xj ← eval (prop_x (keypoints !! c.2));
  yj ← eval (prop_y (keypoints !! c.2));
  _ ← call (LineTo xj yj);
  call Stroke.

(** The callback of [keypoints.forEach] in the first component, lines 94-101. *)
Definition drawPointV1 (p : Keypoint number) : traced (CanvasOp number) unit :=
  _ ← call BeginPath;
  _ ← call (Arc (kp_x p) (kp_y p) 8);
  _ ← call (SetFillStyle "#00ffff");
  _ ← call (SetShadowBlur 20);
  _ ← call (SetShadowColor "#00ffff");
  call Fill.

(** The callback of [keypoints.forEach] in the second component, lines 449-457. *)
Definition drawPointV2 (p : Keypoint number) : traced (CanvasOp number) unit :=
  _ ← call (CreateRadialGradient (kp_x p) (kp_y p) 0 (kp_x p) (kp_y p) 12);
  _ ← call (AddColorStop 0 "#00ffff");
  _ ← call (AddColorStop 1 "transparent");
  _ ← call SetFillStyleGradient;
  _ ← call BeginPath;
  _ ← call (Arc (kp_x p) (kp_y p) 12);
  call Fill.

(** [detectAndDraw] of the first component from the point where
    [estimateHands] resolved with [hands], lines 55-105; the canvas is 640
    by 480 (lines 187-188). *)
Definition detectAndDrawV1 (hands : list (Hand number)) : traced (CanvasOp number) unit :=
  _ ← call (ClearRect 0 0 640 480);
  _ ← match hands with
      | [] => mret tt
      | hand :: _ =>
          _ ← call (SetStrokeStyle "#00ffff");
          _ ← call (SetLineWidth 4);
          _ ← forEach (drawConnection (keypoints hand)) connections;
          _ ← forEach drawPointV1 (keypoints hand);
          call (SetShadowBlur 0)
      end;
  call RequestAnimationFrame.

(** [detectAndDraw] of the second component, lines 405-460 (canvas size:
    lines 508-509). *)
Definition detectAndDrawV2 (hands : list (Hand number)) : traced (CanvasOp number) unit :=
  _ ← call (ClearRect 0 0 640 480);
  _ ← match hands with
      | [] => mret tt
      | hand :: _ =>
          _ ← call (SetStrokeStyle "#00ffff");
          _ ← call (SetLineWidth 5);
          _ ← call (SetLineCap "round");
          _ ← call (SetShadowBlur 15);
          _ ← call (SetShadowColor "#00ffff");
          _ ← forEach (drawConnection (keypoints hand)) connections;
          _ ← call (SetShadowBlur 0);
          forEach drawPointV2 (keypoints hand)
      end;
  call RequestAnimationFrame.

(** How many of the calls in [l] are [op]-like. *)
Definition is_stroke (op : CanvasOp number) : bool :=
  match op with Stroke => true | _ => false end.
Definition is_fill (op : CanvasOp number) : bool :=
  match op with Fill => true | _ => false end.
Definition is_frame_request (op : CanvasOp number) : bool :=
  match op with RequestAnimationFrame => true | _ => false end.
Definition count_ops (P : CanvasOp number -> bool) (l : list (CanvasOp number)) : nat :=
  length (filter (fun op => P op = true) l).
End Overlay.

(** ** The round of the first component (lines 11-17, 128-166, 226) *)

(** Calls that make no throw. *)
Definition calls {Op : Type} (l : list Op) : traced Op unit := (l, Normal tt).

(** [s.includes(sub)]. *)
Definition includes (s sub : string) : bool :=
  match String.index 0 sub s with Some _ => true | None => false end.

Module RoundV1.

(** Lines 11-17. *)
Record State : Type := {
  detector : bool;            (* [detector !== null] *)
  playerMove : string;
  aiMove : option string;     (* [None] when it is [undefined] *)
  result : string;
  playerScore : nat;
  aiScore : nat;
  isPlaying : bool
}.

Definition initialState : State :=
  {| detector := false; playerMove := "?"; aiMove := Some "?";
     result := "Show your hand & play!"; playerScore := 0; aiScore := 0; isPlaying := false |}.

Inductive Call : Type :=
| SetDetector                        (* line 43 *)
| SetIsPlaying (b : bool)
| EstimateHands                      (* [await detector.estimateHands(...)], line 131 *)
| SetResult (m : string)
| SetPlayerMove (m : string)
| SetAiMove (m : option string)
| BumpPlayerScore                    (* [setPlayerScore((prev) => prev + 1)] *)
| BumpAiScore
| MathRandom (r : Q)                 (* [Math.random()] returned [r] *)
| Confetti
| SetTimeout (delay : nat).          (* line 165, the callback is [() => setIsPlaying(false)] *)

(** The state setters. *)
Definition setState (c : Call) (s : State) : State :=
  match c with
  | SetDetector =>
      {| detector := true; playerMove := playerMove s; aiMove := aiMove s; result := result s;
         playerScore := playerScore s; aiScore := aiScore s; isPlaying := isPlaying s |}
  | SetIsPlaying b =>
      {| detector := detector s; playerMove := playerMove s; aiMove := aiMove s;
         result := result s; playerScore := playerScore s; aiScore := aiScore s;
         isPlaying := b |}
  | SetResult m =>
      {| detector := detector s; playerMove := playerMove s; aiMove := aiMove s;
         result := m; playerScore := playerScore s; aiScore := aiScore s;
         isPlaying := isPlaying s |}
  | SetPlayerMove m =>
      {| detector := detector s; playerMove := m; aiMove := aiMove s;
         result := result s; playerScore := playerScore s; aiScore := aiScore s;
         isPlaying := isPlaying s |}
  | SetAiMove m =>
      {| detector := detector s; playerMove := playerMove s; aiMove := m;
         result := result s; playerScore := playerScore s; aiScore := aiScore s;
         isPlaying := isPlaying s |}
  | BumpPlayerScore =>
      {| detector := detector s; playerMove := playerMove s; aiMove := aiMove s;
         result := result s; playerScore := playerScore s + 1; aiScore := aiScore s;
         isPlaying := isPlaying s |}
  | BumpAiScore =>
      {| detector := detector s; playerMove := playerMove s; aiMove := aiMove s;
         result := result s; playerScore := playerScore s; aiScore := aiScore s + 1;
         isPlaying := isPlaying s |}
  | EstimateHands | MathRandom _ | Confetti | SetTimeout _ => s
  end.

(** [moves[Math.floor(Math.random() * 3)]], line 146: [undefined] when the
    index is not 0, 1 or 2. *)
Definition aiChoice (r : Q) : option string :=
  if (Handlers.aiIdx r <? 0)%Z then None else AppV1.moves !! Z.to_nat (Handlers.aiIdx r).

(** [aiChoice.includes(sub)]: a method call on [undefined] throws. *)
Definition includes_of (s : option string) (sub : string) : completion bool :=
  match s with
  | Some s => Normal (includes s sub)
  | None => TypeError
  end.

(** [a && b] and [a || b]: [b] is evaluated only when [a] does not decide. *)
Definition andC (a b : completion bool) : completion bool :=
  x ← a; if x : bool then b else Normal false.
Definition orC (a b : completion bool) : completion bool :=
  x ← a; if x : bool then Normal true else b.

(** The test of lines 153-155. *)
Definition playerWins (gesture : string) (aiChoice : option string) : completion bool :=
  orC (orC (andC (Normal (includes gesture "Rock")) (includes_of aiChoice "Scissors"))
           (andC (Normal (includes gesture "Paper")) (includes_of aiChoice "Rock")))
      (andC (Normal (includes gesture "Scissors")) (includes_of aiChoice "Paper")).

(** The branch taken at lines 150-163. *)
Definition roundOutcome (gesture : string) (aiChoice : option string)
  : completion Handlers.Outcome :=
  if bool_decide (Some gesture = aiChoice) then Normal Handlers.Tie
  else wins ← playerWins gesture aiChoice;
       Normal (if wins : bool then Handlers.Win else Handlers.Lose).

(** The message of lines 151, 157 and 161. *)
Definition resultText (o : Handlers.Outcome) : string :=
  match o with
  | Handlers.Tie => "Tie! ðŸ¤"
  | Handlers.Win => "YOU WIN! ðŸŽ‰"
  | Handlers.Lose => "AI Wins ðŸ˜Ž"
  end.

(** The calls made inside the three branches. *)
Definition branchCalls (o : Handlers.Outcome) : list Call :=
  match o with
  | Handlers.Tie => [SetResult (resultText Handlers.Tie)]
  | Handlers.Win => [SetResult (resultText Handlers.Win); BumpPlayerScore; Confetti]
  | Handlers.Lose => [SetResult (resultText Handlers.Lose); BumpAiScore]
  end.

(** [playRound] up to its [await], lines 129-131. *)
Definition playRound_begin (s : State) : list Call :=
  if negb (detector s) then [] else [SetIsPlaying true; EstimateHands].

(** [playRound] from the point where [estimateHands] resolved with [hands],
    lines 133-165; [r] is what [Math.random()] returns. *)
Definition playRound_resume {number : Type} `{JsNum number}
    (hands : list (Hand number)) (r : Q) : traced Call unit :=
  match hands with
  | [] => calls [SetResult "No hand detected! ðŸ‘€"; SetIsPlaying false]
  | hand :: _ =>
      gesture ← eval (AppV1.classifyGesture (keypoints hand));
      match gesture with
      | None => calls [SetResult "Unclear gesture â€“ try a clear pose!"; SetIsPlaying false]
      | Some gesture =>
          _ ← call (MathRandom r);
          _ ← calls [SetPlayerMove gesture; SetAiMove (aiChoice r)];
          o ← eval (roundOutcome gesture (aiChoice r));
          _ ← calls (branchCalls o);
          call (SetTimeout 2000)
      end
  end.

(** The page: the state, the time, the due times of the pending
    [setIsPlaying(false)] timers, the calls of [playRound] suspended at
    their [await], and every call made so far. *)
Record Sys : Type := {
  ui : State;
  clock : nat;
  timers : list nat;
  awaiting : nat;
  log : list Call
}.

Definition initialSys : Sys :=
  {| ui := initialState; clock := 0; timers := []; awaiting := 0; log := [] |}.

Definition perform (c : Call) (s : Sys) : Sys :=
  {| ui := setState c (ui s);
     clock := clock s;
     timers := match c with SetTimeout delay => timers s ++ [clock s + delay] | _ => timers s end;
     awaiting := match c with EstimateHands => S (awaiting s) | _ => awaiting s end;
     log := log s ++ [c] |}.

Definition performAll (cs : list Call) (s : Sys) : Sys :=
  foldl (fun s c => perform c s) s cs.

(** The pending timer that fires next, and the timers left once it fired. *)
Fixpoint earliest (ts : list nat) : option nat :=
  match ts with
  | [] => None
  | t :: ts' =>
      match earliest ts' with
      | Some u => if (u <? t)%nat then Some u else Some t
      | None => Some t
      end
  end.

Fixpoint without (d : nat) (ts : list nat) : list nat :=
  match ts with
  | [] => []
  | t :: ts' => if (t =? d)%nat then ts' else t :: without d ts'
  end.

Section Events.
Context {number : Type} `{JsNum number}.

Inductive Event : Type :=
| DetectorLoaded                                    (* line 43 *)
| ClickPlay                                         (* [onClick={playRound}], line 225 *)
| HandsEstimated (hands : list (Hand number)) (r : Q)  (* a suspended [playRound] resumes *)
| TimerFires                                        (* the next timer fires *)
| Elapse (d : nat).                                 (* [d] ms pass *)

(** The button is [disabled={isPlaying || !detector}], line 226: a disabled
    button gives no click.  A throw in [playRound] rejects its promise; the
    calls made before it stand. *)
Definition step (e : Event) (s : Sys) : Sys :=
  match e with
  | DetectorLoaded => perform SetDetector s
  | ClickPlay =>
      if isPlaying (ui s) || negb (detector (ui s)) then s
      else performAll (playRound_begin (ui s)) s
  | HandsEstimated hands r =>
      match awaiting s with
      | O => s
      | S n =>
          performAll (playRound_resume hands r).1
            {| ui := ui s; clock := clock s; timers := timers s; awaiting := n; log := log s |}
      end
  | TimerFires =>
      match earliest (timers s) with
      | None => s
      | Some d =>
          perform (SetIsPlaying false)
            {| ui := ui s; clock := clock s `max` d; timers := without d (timers s);
               awaiting := awaiting s; log := log s |}
      end
  | Elapse d =>
      {| ui := ui s; clock := clock s + d; timers := timers s;
         awaiting := awaiting s; log := log s |}
  end.

Definition run (evs : list Event) (s : Sys) : Sys :=
  foldl (fun s e => step e s) s evs.

Definition reachable (s : Sys) : Prop := exists evs, s = run evs initialSys.
End Events.

(** The button can be clicked. *)
Definition enabled (s : Sys) : bool := negb (isPlaying (ui s) || negb (detector (ui s))).

(** A round is under way with nothing left that would end it. *)
Definition stuck (s : Sys) : Prop :=
  isPlaying (ui s) = true /\ awaiting s = 0%nat /\ timers s = [].

(** At most one round is under way, and the button is disabled meanwhile. *)
Definition one_round (s : Sys) : Prop :=
  (awaiting s + length (timers s) <= 1)%nat
  /\ ((awaiting s + length (timers s))%nat = 1%nat -> isPlaying (ui s) = true)
  /\ (isPlaying (ui s) = true -> detector (ui s) = true).

End RoundV1.

(** Pages of the first component: the detector is loaded; then the button
    was clicked and the detector has not answered yet. *)
Definition readyV1 : RoundV1.Sys :=
  RoundV1.run (number := Z) [RoundV1.DetectorLoaded] RoundV1.initialSys.
Definition waitingV1 : RoundV1.Sys :=
  RoundV1.run (number := Z) [RoundV1.DetectorLoaded; RoundV1.ClickPlay] RoundV1.initialSys.

(** The labels of one move in the two components. *)
Definition same_move (m1 m2 : string) : Prop :=
  exists i : nat, AppV1.moves !! i = Some m1 /\ MOVES !! i = Some m2.

(** A pose with every landmark moved sideways to [x = 0]. *)
Definition flatten_x (pose : list (Keypoint Z)) : list (Keypoint Z) :=
  (fun k => Build_Keypoint 0%Z (kp_y k)) <$> pose.

(** A pose moved by [dx] and [dy] in the frame, in exact arithmetic
    ([translate64] is the same in binary64). *)
Definition translate (dx dy : Z) (pose : list (Keypoint Z)) : list (Keypoint Z) :=
  (fun k => Build_Keypoint (kp_x k + dx)%Z (kp_y k + dy)%Z) <$> pose.

(** ** Rest and progress of the second component *)

(** Whenever a round is on, something is pending that moves it on: the tick
    of the value on display, or at "GO!" the detector's answer or the timer
    that ends the round. *)
Definition moving (s : Sys) : Prop :=
  match countdown (ui s) with
  | None => True
  | Some c =>
      if (0 <? c)%Z then exists t, t ∈ timers s /\ callback t = CountdownTick c
      else (0 < awaiting s)%nat \/ exists t, t ∈ timers s /\ callback t = ClearCountdown
  end.

(** Events that need no user: a timer fires, the detector answers. *)
Definition passive {number : Type} (e : Runtime.Event (number := number)) : Prop :=
  match e with
  | Runtime.TimerFires _ | Runtime.HandsEstimated _ => True
  | _ => False
  end.

(** A bound on the passive events a page can still take. *)
Definition remaining (s : Sys) : nat :=
  3 * awaiting s + length (timers s)
  + 4 * match countdown (ui s) with Some c => Z.to_nat c | None => 0 end.

(** Calls that touch neither the timers nor the detector's queue. *)
Definition plain (a : Action) : Prop :=
  match a with SetTimeout _ _ | ClearTimeout _ | EstimateHands => False | _ => True end.

(** ** Before the detector is loaded *)

(** The messages the page can show while the detector is not loaded. *)
Definition unloaded_results : list string :=
  ["Click PLAY to start!"; "AI model failed to load!"; "Camera access required!";
   "Scores reset! Play again."].

(** The page while the detector is not loaded. *)
Definition cold (s : Sys) : Prop :=
  detector (ui s) = false ->
  countdown (ui s) = None /\ timers s = [] /\ awaiting s = 0%nat
  /\ playerMove (ui s) = "?" /\ aiMove (ui s) = "?"
  /\ playerScore (ui s) = 0%nat /\ aiScore (ui s) = 0%nat
  /\ result (ui s) ∈ unloaded_results.

(** The id kept by the countdown effect is that of a tick, if of any timer. *)
Definition tick_id (s : Sys) : Prop :=
  forall id, countdownTimer s = Some id ->
    (id < nextTimerId s)%nat
    /\ forall t, t ∈ timers s -> timer_id t = id -> is_tick t.

(** ** The draw in binary64 (line 341) *)

Module Draw64.

(** The value of a binary64 number that is finite. *)
Definition SF2Q (f : spec_float) : option Q :=
  match f with
  | S754_zero _ => Some 0%Q
  | S754_finite s m e =>
      let z := if s then Z.neg m else Z.pos m in
      Some (match e with
            | Z0 => z # 1
            | Zpos p => (z * 2 ^ Zpos p) # 1
            | Zneg p => z # (2 ^ p)
            end)%Q
  | S754_infinity _ | S754_nan => None
  end.
Definition value (x : float) : option Q := SF2Q (Prim2SF x).

(** [Math.floor(Math.random() * 3)], line 341, where [Math.random()]
    returned the binary64 number [x]: the product is the binary64 one. *)
Definition aiIdx (x : float) : option Z := Qfloor <$> value (x * 3)%float.

(** [MOVES[aiIdx]], line 342: [None] when it is [undefined]. *)
Definition aiChoice (x : float) : option string :=
  i ← aiIdx x; if (i <? 0)%Z then None else MOVES !! Z.to_nat i.


End Draw64.


(** ** Timed rounds, a rejected detection, poses in binary64 *)

(** The time that passes before each event of a round after the click: a
    timer fires when that time has passed, and not before it is due; the
    detector answers [wait_answer] ms after the capture asked. *)
Record Timing : Type := {
  wait_tick3 : nat;
  wait_tick2 : nat;
  wait_tick1 : nat;
  wait_answer : nat;
  wait_reveal : nat;
  wait_idle : nat
}.

(** Every timer fires when it is due, the detector answers after [d] ms. *)
Definition punctual (d : nat) : Timing :=
  {| wait_tick3 := 0; wait_tick2 := 0; wait_tick1 := 0; wait_answer := d;
     wait_reveal := 0; wait_idle := 0 |}.

(** One round: PLAY, three countdown ticks, the detector's answer, then the
    two timers the capture registered, each after its wait. *)
Definition timed_round_script {number : Type} `{JsNum number}
    (w : Timing) (hands : list (Hand number)) (r : Q) : list Runtime.Event :=
  [Runtime.ClickPlay;
   Runtime.Elapse (wait_tick3 w); Runtime.TimerFires 0;
   Runtime.Elapse (wait_tick2 w); Runtime.TimerFires 0;
   Runtime.Elapse (wait_tick1 w); Runtime.TimerFires 0;
   Runtime.Elapse (wait_answer w); Runtime.HandsEstimated hands;
   Runtime.Elapse (wait_reveal w); Runtime.TimerFires r;
   Runtime.Elapse (wait_idle w); Runtime.TimerFires 0].

(** The time such a round takes: each tick 1000 ms after the one before or
    later, the answer, then the return to Idle 4000 ms after the answer, or
    later when the reveal (due 1200 ms after the answer) and the wait after
    it end later. *)
Definition round_time (w : Timing) : nat :=
  (wait_tick3 w `max` 1000) + (wait_tick2 w `max` 1000) + (wait_tick1 w `max` 1000)
  + wait_answer w + (((wait_reveal w `max` 1200) + wait_idle w) `max` 4000).

(** Rounds played one after the other, each to its end: per round the hand
    the detector answers with, the label the classifier gives it, the draw,
    and the waits. *)
Definition timed_match_script {number : Type} `{JsNum number}
    (plays : list (Hand number * string * Q * Timing)) : list Runtime.Event :=
  flat_map (fun p => timed_round_script p.2 [p.1.1.1] p.1.2) plays.

(** Two rounds: a fist against a drawn Scissors, every timer on time and the
    answer after 180 ms; then index and middle up against a drawn Rock, with
    late ticks, the answer after 35 ms and the reveal 5000 ms after it. *)
Definition timed_sample_plays : list (Hand Z * string * Q * Timing) :=
  [(Build_Hand rock_pose, "Rock ✊", 5 # 6, punctual 180);
   (Build_Hand scissors_pose, "Scissors ✌️", 1 # 10,
    {| wait_tick3 := 1004; wait_tick2 := 0; wait_tick1 := 1010; wait_answer := 35;
       wait_reveal := 5000; wait_idle := 2 |})].

(** The awaited [estimateHands] rejects: [capturePose] has no [try], so the
    suspended call ends there, having made no further call (lines 319-373). *)
Definition rejectHands (s : Sys) : Sys :=
  match awaiting s with
  | O => s
  | S _ => Runtime.resolveOne s
  end.

(** A pose moved by [dx] and [dy] in binary64, as JavaScript adds numbers. *)
Definition translate64 (dx dy : float) (pose : list (Keypoint float)) : list (Keypoint float) :=
  (fun k => Build_Keypoint (kp_x k + dx)%float (kp_y k + dy)%float) <$> pose.

(** Index and middle tips one rounding step above the line 40 (and 50) below
    a wrist at y = 100, every other landmark level with the wrist. *)
Definition grazing_pose (line : float) : list (Keypoint float) :=
  <[8%nat := Build_Keypoint 0%float (PrimFloat.next_down line)]>
    (<[12%nat := Build_Keypoint 0%float (PrimFloat.next_down line)]> (flat_pose 21 100%float)).

(** The page with "GO!" on display and nothing left that would take it on. *)
Definition hung (s : Sys) : Prop :=
  detector (ui s) = true /\ countdown (ui s) = Some 0%Z
  /\ timers s = [] /\ awaiting s = 0%nat.

(** * Properties of the classifier *)

(** Membership in a list that is written out. *)
Ltac in_list := repeat first [apply list_elem_of_here | apply list_elem_of_further].

Section ClassifierFacts.
Context {number : Type} `{JsNum number}.

Lemma lookup_in_pose (pose : list (Keypoint number)) (i : nat) :
  (21 <= length pose)%nat -> (i < 21)%nat -> exists k, pose !! i = Some k.
Proof.
  intros Hlen Hi. destruct (pose !! i) as [k|] eqn:E; [eauto|].
  apply lookup_ge_None in E. lia.
Qed.

(** On a pose of at least 21 landmarks the component's classifier is the
    decision table with threshold 40. *)
Lemma classifyGesture_table (pose : list (Keypoint number)) :
  (21 <= length pose)%nat ->
  AppV2.classifyGesture (Some pose)
  = Normal (Spec.gesture_of (Spec.decide_pose (num_lit 40) pose)).
Proof.
  intros Hlen.
  destruct (lookup_in_pose pose 0 Hlen) as [k0 E0]; [lia|].
  destruct (lookup_in_pose pose 8 Hlen) as [k8 E8]; [lia|].
  destruct (lookup_in_pose pose 12 Hlen) as [k12 E12]; [lia|].
  destruct (lookup_in_pose pose 16 Hlen) as [k16 E16]; [lia|].
  destruct (lookup_in_pose pose 20 Hlen) as [k20 E20]; [lia|].
  unfold AppV2.classifyGesture, Spec.decide_pose, Spec.extendedCount, Spec.extended.
  replace (length pose <? 21)%nat with false by (symmetry; apply Nat.ltb_ge; lia).
  rewrite !filter_cons, filter_nil.
  rewrite E0, E8, E12, E16, E20. cbn [prop_y mbind completion_bind].
  destruct (num_lt (kp_y k8) _), (num_lt (kp_y k12) _),
           (num_lt (kp_y k16) _), (num_lt (kp_y k20) _); reflexivity.
Qed.

(** The classifier never throws. *)
Lemma classifyGesture_total (pose : option (list (Keypoint number))) :
  exists g, AppV2.classifyGesture pose = Normal g.
Proof.
  destruct pose as [p|]; [|by exists None].
  destruct (decide (21 <= length p)%nat) as [Hlen|Hlen].
  - rewrite classifyGesture_table by done. eauto.
  - exists None. unfold AppV2.classifyGesture.
    replace (length p <? 21)%nat with true by (symmetry; apply Nat.ltb_lt; lia). done.
Qed.

(** Whatever it returns is one of the three move labels. *)
Lemma classifyGesture_move (pose : option (list (Keypoint number))) (g : string) :
  AppV2.classifyGesture pose = Normal (Some g) -> g ∈ MOVES.
Proof.
  destruct pose as [p|]; [|discriminate].
  destruct (decide (21 <= length p)%nat) as [Hlen|Hlen].
  - rewrite classifyGesture_table by done.
    destruct (Spec.decide_pose _ p); cbn; intros [= <-]; unfold MOVES; in_list.
  - unfold AppV2.classifyGesture.
    replace (length p <? 21)%nat with true by (symmetry; apply Nat.ltb_lt; lia). done.
Qed.

(** The decision table reads landmarks 0, 8, 12, 16 and 20 only. *)
Lemma decide_pose_ext (T : number) (p q : list (Keypoint number)) :
  (forall i, i ∈ [0; 8; 12; 16; 20]%nat -> p !! i = q !! i) ->
  Spec.decide_pose T p = Spec.decide_pose T q.
Proof.
  intros Heq. unfold Spec.decide_pose, Spec.extendedCount, Spec.extended.
  rewrite !filter_cons, !filter_nil.
  rewrite !(Heq 0%nat), !(Heq 8%nat), !(Heq 12%nat), !(Heq 16%nat), !(Heq 20%nat)
    by in_list.
  reflexivity.
Qed.

(** On a pose of 21 landmarks the specification's classifier is its table. *)
Lemma classify_21 (T : number) (pose : list (Keypoint number)) :
  length pose = 21%nat -> Spec.classify T (Some pose) = Spec.decide_pose T pose.
Proof.
  intros Hlen. unfold Spec.classify.
  destruct (decide (length pose = 21%nat)); [reflexivity | contradiction].
Qed.
End ClassifierFacts.

(** C1. On every pose of 21 landmarks the classifier returns the result of
    the specification's decision table, taken first match first, with the
    threshold T = 40: Rock when no fingertip among 8, 12, 16, 20 is extended,
    else Paper when at least three are, else Scissors when exactly 8 and 12
    are, else no move (Unclear). *)
Theorem classifyGesture_matches_decision_table
    {number : Type} `{JsNum number} (pose : list (Keypoint number)) :
  length pose = 21%nat ->
  AppV2.classifyGesture (Some pose)
  = Normal (Spec.gesture_of (Spec.classify (num_lit 40) (Some pose))).
Proof.
  intros Hlen. rewrite classifyGesture_table by lia. by rewrite classify_21.
Qed.

Lemma classifyGesture_matches_decision_table_witness :
  length scissors_pose = 21%nat
  /\ AppV2.classifyGesture (Some scissors_pose)
     = Normal (Spec.gesture_of (Spec.classify (num_lit 40) (Some scissors_pose))).
Proof.
  split; [reflexivity|].
  apply (classifyGesture_matches_decision_table scissors_pose). reflexivity.
Defined.

(** C2, as the claim states it, fails on a pose of 22 landmarks: it is
    classified (here as Rock), where an absent pose gives [null]. *)
Lemma long_pose_is_classified :
  length long_pose <> 21%nat
  /\ AppV2.classifyGesture (Some long_pose) = Normal (Some "Rock ✊")
  /\ AppV2.classifyGesture (@None (list (Keypoint Z))) = Normal None
  /\ Spec.classify (num_lit 40) (Some long_pose) = Spec.NoHand.
Proof. repeat split; try reflexivity. discriminate. Qed.

(** C2 (amended). An absent pose and every pose of fewer than 21 landmarks
    give [null], the classifier's result for an absent pose (and for an
    unclear gesture: the round then shows the unclear-gesture message, while
    an empty detection shows the no-hand message), and no exception is
    raised on any input; a pose of 21 landmarks or more is classified by the
    decision table on its first 21 landmarks. *)
Theorem classifyGesture_landmark_count
    {number : Type} `{JsNum number} (pose : list (Keypoint number)) :
  AppV2.classifyGesture (@None (list (Keypoint number))) = Normal None
  /\ ((length pose < 21)%nat -> AppV2.classifyGesture (Some pose) = Normal None)
  /\ ((21 <= length pose)%nat ->
      AppV2.classifyGesture (Some pose) = AppV2.classifyGesture (Some (take 21 pose))
      /\ AppV2.classifyGesture (Some pose)
         = Normal (Spec.gesture_of (Spec.classify (num_lit 40) (Some (take 21 pose)))))
  /\ (exists g, AppV2.classifyGesture (Some pose) = Normal g)
  /\ ((length pose < 21)%nat -> forall rest : list (Hand number),
      Handlers.capturePose_resume (Build_Hand pose :: rest)
      = [SetResult "Unclear gesture! Hold steady next time."; SetTimeout ClearCountdown 1500])
  /\ Handlers.capturePose_resume (@nil (Hand number))
     = [SetResult "No hand detected! Try again."; SetTimeout ClearCountdown 1500].
Proof.
  assert (Hshort : (length pose < 21)%nat -> AppV2.classifyGesture (Some pose) = Normal None).
  { intros Hlt. unfold AppV2.classifyGesture.
    replace (length pose <? 21)%nat with true by (symmetry; apply Nat.ltb_lt; lia).
    reflexivity. }
  split; [reflexivity|]. split; [exact Hshort|]. split; [|split; [|split; [|reflexivity]]];
    [| apply classifyGesture_total
     | intros Hlt rest; cbn [Handlers.capturePose_resume keypoints];
       by rewrite (Hshort Hlt)].
  - intros Hge.
    assert (Htake : length (take 21 pose) = 21%nat) by (rewrite length_take; lia).
    rewrite (classify_21 _ _ Htake), <- (classifyGesture_table (take 21 pose)) by lia.
    assert (AppV2.classifyGesture (Some pose) = AppV2.classifyGesture (Some (take 21 pose)))
      as Heq; [|by split].
    rewrite !classifyGesture_table by lia. f_equal. f_equal.
    apply decide_pose_ext. intros i Hi. rewrite lookup_take_lt; [reflexivity|].
    repeat (apply elem_of_cons in Hi as [->|Hi]; [lia|]). by apply elem_of_nil in Hi.
Qed.

Lemma classifyGesture_landmark_count_witness :
  AppV2.classifyGesture (Some (take 5 rock_pose)) = Normal None
  /\ AppV2.classifyGesture (Some long_pose) = AppV2.classifyGesture (Some (take 21 long_pose)).
Proof.
  split.
  - refine (proj1 (proj2 (classifyGesture_landmark_count (take 5 rock_pose))) _).
    vm_compute. lia.
  - refine (proj1 (proj1 (proj2 (proj2 (classifyGesture_landmark_count long_pose))) _)).
    vm_compute. lia.
Defined.

(** C7. When landmarks 8 and 12 are extended and 16 and 20 are not, a pose of
    21 landmarks is Scissors, and so is every pose that differs from it in
    landmark 4 (the thumb tip) only. *)
Theorem scissors_whatever_the_thumb
    {number : Type} `{JsNum number} (pose pose' : list (Keypoint number)) :
  length pose = 21%nat -> length pose' = 21%nat ->
  (forall i : nat, i <> 4%nat -> pose !! i = pose' !! i) ->
  Spec.extended (num_lit 40) pose 8 = true ->
  Spec.extended (num_lit 40) pose 12 = true ->
  Spec.extended (num_lit 40) pose 16 = false ->
  Spec.extended (num_lit 40) pose 20 = false ->
  AppV2.classifyGesture (Some pose) = Normal (Some "Scissors ✌️")
  /\ AppV2.classifyGesture (Some pose') = AppV2.classifyGesture (Some pose).
Proof.
  intros Hlen Hlen' Hsame E8 E12 E16 E20.
  assert (Hp : AppV2.classifyGesture (Some pose) = Normal (Some "Scissors ✌️")).
  { rewrite classifyGesture_table by lia.
    unfold Spec.decide_pose, Spec.extendedCount.
    rewrite !filter_cons, filter_nil, E8, E12, E16, E20. reflexivity. }
  split; [exact Hp|].
  rewrite !classifyGesture_table by lia. f_equal. f_equal.
  apply decide_pose_ext. intros i Hi. symmetry. apply Hsame.
  repeat (apply elem_of_cons in Hi as [->|Hi]; [lia|]). by apply elem_of_nil in Hi.
Qed.

Lemma scissors_whatever_the_thumb_witness :
  AppV2.classifyGesture (Some scissors_pose) = Normal (Some "Scissors ✌️")
  /\ AppV2.classifyGesture (Some (<[4%nat := Build_Keypoint 7%Z (-500)%Z]> scissors_pose))
     = AppV2.classifyGesture (Some scissors_pose).
Proof.
  apply (scissors_whatever_the_thumb scissors_pose
           (<[4%nat := Build_Keypoint 7%Z (-500)%Z]> scissors_pose));
    try reflexivity.
  intros i Hi. symmetry. apply list_lookup_insert_ne. congruence.
Defined.

(** C10, as the claim states it, fails on a pose in which the thumb tip alone
    is above the wrist: the first classifier counts the thumb and returns
    [null], the second one ignores it and returns Rock. *)
Lemma classifiers_differ_on_thumb_only :
  length thumb_only_pose = 21%nat
  /\ AppV1.classifyGesture thumb_only_pose = Normal None
  /\ AppV2.classifyGesture (Some thumb_only_pose) = Normal (Some "Rock ✊").
Proof. repeat split. Qed.

Section TwoClassifiers.
Context {number : Type} `{ThresholdMonotone number}.

Lemma not_lt_40_50 (a w : number) :
  num_lt a (num_sub w (num_lit 40)) = false -> num_lt a (num_sub w (num_lit 50)) = false.
Proof.
  intros H40. destruct (num_lt a (num_sub w (num_lit 50))) eqn:H50; [|reflexivity].
  apply lt_sub_50_40 in H50. congruence.
Qed.

(** C10 (amended). The two classifiers agree, each with its own label for
    the move, on the poses of 21 landmarks that are clear at both
    thresholds: Rock when none of the five
    fingertips is extended at threshold 40; Paper when all five are
    extended at threshold 50; Scissors when the index and middle tips are
    extended at threshold 50, the thumb, ring and pinky tips are not
    extended at threshold 40, and the middle tip satisfies
    [y12 > y8 - 20]. *)
Theorem classifiers_agree_on_clear_poses
    (k0 k4 k8 k12 k16 k20 : Keypoint number) (pose : list (Keypoint number)) :
  length pose = 21%nat ->
  pose !! 0%nat = Some k0 -> pose !! 4%nat = Some k4 -> pose !! 8%nat = Some k8 ->
  pose !! 12%nat = Some k12 -> pose !! 16%nat = Some k16 -> pose !! 20%nat = Some k20 ->
  let ext (T : Z) (k : Keypoint number) :=
    num_lt (kp_y k) (num_sub (kp_y k0) (num_lit T)) in
  (ext 40%Z k4 = false /\ ext 40%Z k8 = false /\ ext 40%Z k12 = false
   /\ ext 40%Z k16 = false /\ ext 40%Z k20 = false ->
   AppV1.classifyGesture pose = Normal (Some "Rock âœŠ")
   /\ AppV2.classifyGesture (Some pose) = Normal (Some "Rock ✊"))
  /\ (ext 50%Z k4 = true /\ ext 50%Z k8 = true /\ ext 50%Z k12 = true
      /\ ext 50%Z k16 = true /\ ext 50%Z k20 = true ->
      AppV1.classifyGesture pose = Normal (Some "Paper ðŸ–ï¸")
      /\ AppV2.classifyGesture (Some pose) = Normal (Some "Paper 🖐️"))
  /\ (ext 50%Z k8 = true /\ ext 50%Z k12 = true /\ ext 40%Z k4 = false
      /\ ext 40%Z k16 = false /\ ext 40%Z k20 = false
      /\ num_gt (kp_y k12) (num_sub (kp_y k8) (num_lit 20)) = true ->
      AppV1.classifyGesture pose = Normal (Some "Scissors âœŒï¸")
      /\ AppV2.classifyGesture (Some pose) = Normal (Some "Scissors ✌️")).
Proof.
  intros Hlen E0 E4 E8 E12 E16 E20 ext.
  assert (V1 : forall b4 b8 b12 b16 b20 : bool,
    ext 50%Z k4 = b4 -> ext 50%Z k8 = b8 -> ext 50%Z k12 = b12 ->
    ext 50%Z k16 = b16 -> ext 50%Z k20 = b20 ->
    AppV1.classifyGesture pose =
      let extendedCount := length (filter (fun b : bool => b = true) [b4; b8; b12; b16; b20]) in
      if (extendedCount =? 0)%nat then Normal (Some "Rock âœŠ")
      else if (4 <=? extendedCount)%nat then Normal (Some "Paper ðŸ–ï¸")
      else if (extendedCount =? 2)%nat then
        if num_gt (kp_y k12) (num_sub (kp_y k8) (num_lit 20))
        then Normal (Some "Scissors âœŒï¸") else Normal None
      else Normal None).
  { intros b4 b8 b12 b16 b20 <- <- <- <- <-.
    unfold AppV1.classifyGesture. rewrite E0, E4, E8, E12, E16, E20. reflexivity. }
  assert (V2 : forall b8 b12 b16 b20 : bool,
    ext 40%Z k8 = b8 -> ext 40%Z k12 = b12 -> ext 40%Z k16 = b16 -> ext 40%Z k20 = b20 ->
    AppV2.classifyGesture (Some pose) =
      Normal (Spec.gesture_of
        (let n := ((if b8 then 1 else 0) + (if b12 then 1 else 0)
                   + (if b16 then 1 else 0) + (if b20 then 1 else 0))%nat in
         if (n =? 0)%nat then Spec.Rock
         else if (3 <=? n)%nat then Spec.Paper
         else if b8 && b12 && negb b16 && negb b20 then Spec.Scissors
         else Spec.Unclear))).
  { intros b8 b12 b16 b20 <- <- <- <-.
    unfold AppV2.classifyGesture.
    replace (length pose <? 21)%nat with false by (symmetry; apply Nat.ltb_ge; lia).
    rewrite E0, E8, E12, E16, E20. cbn [prop_y mbind completion_bind]. unfold ext.
    destruct (num_lt (kp_y k8) _), (num_lt (kp_y k12) _),
             (num_lt (kp_y k16) _), (num_lt (kp_y k20) _); reflexivity. }
  unfold ext in *. clear ext.
  split; [|split].
  - intros (H4 & H8 & H12 & H16 & H20). split.
    + rewrite (V1 false false false false false); [reflexivity|..];
        by apply not_lt_40_50.
    + by rewrite (V2 false false false false).
  - intros (H4 & H8 & H12 & H16 & H20). split.
    + by rewrite (V1 true true true true true).
    + rewrite (V2 true true true true); [reflexivity|..]; by apply lt_sub_50_40.
  - intros (H8 & H12 & H4 & H16 & H20 & Hgt). split.
    + rewrite (V1 false true true false false);
        [cbn; by rewrite Hgt|..]; first [done | by apply not_lt_40_50].
    + rewrite (V2 true true false false);
        [reflexivity|..]; first [done | by apply lt_sub_50_40].
Qed.
End TwoClassifiers.

Lemma classifiers_agree_on_clear_poses_witness :
  AppV1.classifyGesture scissors_pose = Normal (Some "Scissors âœŒï¸")
  /\ AppV2.classifyGesture (Some scissors_pose) = Normal (Some "Scissors ✌️").
Proof.
  refine (proj2 (proj2 (classifiers_agree_on_clear_poses
    (Build_Keypoint 100 100) (Build_Keypoint 100 100) (Build_Keypoint 0 10)
    (Build_Keypoint 0 10) (Build_Keypoint 100 100) (Build_Keypoint 100 100)
    scissors_pose _ _ _ _ _ _ _)) _)%Z; try reflexivity.
  repeat split.
Defined.

(** * Properties of the round outcome and of the score ledger *)

Section Outcome.
Import Handlers.

Lemma move_cases (m : string) :
  m ∈ MOVES -> m = "Rock ✊" \/ m = "Paper 🖐️" \/ m = "Scissors ✌️".
Proof.
  unfold MOVES. rewrite !elem_of_cons, elem_of_nil. tauto.
Qed.

(** The branch taken by the reveal callback, against the beats relation. *)
Lemma roundOutcome_spec (p a : string) :
  p ∈ MOVES -> a ∈ MOVES ->
  bool_decide (p = a) = bool_decide (roundOutcome p a = Tie)
  /\ bool_decide (Spec.beats p a) = bool_decide (roundOutcome p a = Win)
  /\ bool_decide (Spec.beats a p) = bool_decide (roundOutcome p a = Lose).
Proof.
  intros Hp Ha.
  destruct (move_cases p Hp) as [-> | [-> | ->]];
    destruct (move_cases a Ha) as [-> | [-> | ->]];
    vm_compute; auto.
Qed.

Lemma decide_iff (P Q : Prop) `{Decision P, Decision Q} :
  bool_decide P = bool_decide Q -> (P <-> Q).
Proof.
  intros Heq. rewrite <- (bool_decide_eq_true P), <- (bool_decide_eq_true Q), Heq.
  reflexivity.
Qed.

Lemma roundOutcome_win (p a : string) :
  p ∈ MOVES -> a ∈ MOVES -> (Spec.beats p a <-> roundOutcome p a = Win).
Proof.
  intros Hp Ha. exact (decide_iff _ _ (proj1 (proj2 (roundOutcome_spec p a Hp Ha)))).
Qed.

Lemma roundOutcome_lose (p a : string) :
  p ∈ MOVES -> a ∈ MOVES -> (Spec.beats a p <-> roundOutcome p a = Lose).
Proof.
  intros Hp Ha. exact (decide_iff _ _ (proj2 (proj2 (roundOutcome_spec p a Hp Ha)))).
Qed.

Lemma roundOutcome_tie (p a : string) :
  p ∈ MOVES -> a ∈ MOVES -> (p = a <-> roundOutcome p a = Tie).
Proof.
  intros Hp Ha. exact (decide_iff _ _ (proj1 (roundOutcome_spec p a Hp Ha))).
Qed.
End Outcome.

(** C3. On the move labels the outcome computed by the reveal callback is
    total and exclusive: equal moves tie; Rock beats Scissors, Scissors beats
    Paper, Paper beats Rock; the player wins exactly when the player's move
    beats the AI's, loses exactly when the AI's beats the player's, and for
    every pair exactly one of tie, win and loss holds; the calls of the
    reveal are those of the branch: the tie message alone, the player's point
    with the win message, or the AI's point with the loss message. *)
Theorem outcome_total_and_exclusive (p a : string) :
  p ∈ MOVES -> a ∈ MOVES ->
  (p = a <-> Handlers.roundOutcome p a = Handlers.Tie)
  /\ (Spec.beats p a <-> Handlers.roundOutcome p a = Handlers.Win)
  /\ (Spec.beats a p <-> Handlers.roundOutcome p a = Handlers.Lose)
  /\ (p = a /\ ~ Spec.beats p a /\ ~ Spec.beats a p
      \/ p <> a /\ Spec.beats p a /\ ~ Spec.beats a p
      \/ p <> a /\ ~ Spec.beats p a /\ Spec.beats a p)
  /\ Handlers.roundOutcome "Rock ✊" "Scissors ✌️" = Handlers.Win
  /\ Handlers.roundOutcome "Scissors ✌️" "Paper 🖐️" = Handlers.Win
  /\ Handlers.roundOutcome "Paper 🖐️" "Rock ✊" = Handlers.Win
  /\ (p = a -> Handlers.revealWith p a = [SetAiMove a; SetResult "It's a TIE! 🤝"])
  /\ (Spec.beats p a ->
      Handlers.revealWith p a
      = [SetAiMove a; BumpPlayerScore; Confetti; SetResult "YOU WIN! 🎉"])
  /\ (Spec.beats a p ->
      Handlers.revealWith p a = [SetAiMove a; BumpAiScore; SetResult "AI WINS! 😈"]).
Proof.
  intros Hp Ha.
  pose proof (roundOutcome_tie p a Hp Ha) as Ht.
  pose proof (roundOutcome_win p a Hp Ha) as Hw.
  pose proof (roundOutcome_lose p a Hp Ha) as Hl.
  assert (Hcalls : (p = a -> Handlers.revealWith p a = [SetAiMove a; SetResult "It's a TIE! 🤝"])
    /\ (Spec.beats p a -> Handlers.revealWith p a
         = [SetAiMove a; BumpPlayerScore; Confetti; SetResult "YOU WIN! 🎉"])
    /\ (Spec.beats a p -> Handlers.revealWith p a
         = [SetAiMove a; BumpAiScore; SetResult "AI WINS! 😈"])).
  { unfold Handlers.revealWith. split; [|split]; intros Hc.
    - apply Ht in Hc. by rewrite Hc.
    - apply Hw in Hc. by rewrite Hc.
    - apply Hl in Hc. by rewrite Hc. }
  destruct Hcalls as (Hc1 & Hc2 & Hc3).
  repeat split; try apply Ht; try apply Hw; try apply Hl;
    try exact Hc1; try exact Hc2; try exact Hc3.
  destruct (Handlers.roundOutcome p a) eqn:E.
  - left. rewrite Ht, Hw, Hl. repeat split; congruence.
  - right; left. rewrite Ht, Hw, Hl. repeat split; congruence.
  - right; right. rewrite Ht, Hw, Hl. repeat split; congruence.
Qed.

Lemma outcome_total_and_exclusive_witness :
  Spec.beats "Paper 🖐️" "Rock ✊" <-> Handlers.roundOutcome "Paper 🖐️" "Rock ✊" = Handlers.Win.
Proof.
  refine (proj1 (proj2 (outcome_total_and_exclusive "Paper 🖐️" "Rock ✊" _ _)));
    unfold MOVES; in_list.
Defined.

(** * The draw of the AI move *)

Section Draw.
Import Handlers.
Local Open Scope Q_scope.

Lemma Qfloor_iff (x : Q) (k : Z) :
  Qfloor x = k <-> inject_Z k <= x < inject_Z (k + 1).
Proof.
  split.
  - intros <-. split; [apply Qfloor_le | apply Qlt_floor].
  - intros [Hlo Hhi].
    pose proof (Qfloor_resp_le _ _ Hlo) as H1. rewrite Qfloor_Z in H1.
    assert (inject_Z (Qfloor x) < inject_Z (k + 1)) as H2.
    { eapply Qle_lt_trans; [apply Qfloor_le | exact Hhi]. }
    rewrite <- Zlt_Qlt in H2. lia.
Qed.

Lemma aiIdx_range (r : Q) : 0 <= r < 1 -> (0 <= aiIdx r < 3)%Z.
Proof.
  intros [Hlo Hhi].
  destruct (proj1 (Qfloor_iff (r * 3) (aiIdx r)) eq_refl) as [H1 H2].
  assert (inject_Z (aiIdx r) < inject_Z 3) as H3 by (change (inject_Z 3) with 3; lra).
  assert (inject_Z 0 < inject_Z (aiIdx r + 1)) as H4.
  { change (inject_Z 0) with 0. lra. }
  rewrite <- Zlt_Qlt in H3, H4. lia.
Qed.

Lemma aiChoice_of_idx (r : Q) :
  0 <= r < 1 ->
  aiIdx r = 0%Z /\ aiChoice r = "Rock ✊"
  \/ aiIdx r = 1%Z /\ aiChoice r = "Paper 🖐️"
  \/ aiIdx r = 2%Z /\ aiChoice r = "Scissors ✌️".
Proof.
  intros Hr. pose proof (aiIdx_range r Hr) as Hk. unfold aiChoice.
  assert (aiIdx r = 0 \/ aiIdx r = 1 \/ aiIdx r = 2)%Z as [E | [E | E]] by lia;
    rewrite E; cbn; auto.
Qed.

Lemma aiChoice_move (r : Q) : 0 <= r < 1 -> aiChoice r ∈ MOVES.
Proof.
  intros Hr.
  destruct (aiChoice_of_idx r Hr) as [[_ ->] | [[_ ->] | [_ ->]]]; unfold MOVES; in_list.
Qed.

End Draw.

(** * The score ledger *)

Section Ledger.
Import Handlers.

(** What one reveal does to the two counters, by the branch it takes. *)
Lemma finalizeRound_scores (s : AppState) (round : string * Q) :
  match roundOutcome round.1 (aiChoice round.2) with
  | Win => playerScore (finalizeRound s round) = playerScore s + 1
           /\ aiScore (finalizeRound s round) = aiScore s
  | Lose => playerScore (finalizeRound s round) = playerScore s
            /\ aiScore (finalizeRound s round) = aiScore s + 1
  | Tie => playerScore (finalizeRound s round) = playerScore s
           /\ aiScore (finalizeRound s round) = aiScore s
  end.
Proof.
  unfold finalizeRound, reveal, revealWith.
  destruct (roundOutcome round.1 (aiChoice round.2)); split; reflexivity.
Qed.

Lemma wins_cons (m : string * string) (l : list (string * string)) :
  Spec.wins (m :: l) = ((if decide (Spec.beats m.1 m.2) then 1 else 0) + Spec.wins l)%nat.
Proof.
  unfold Spec.wins. rewrite filter_cons. destruct (decide (Spec.beats m.1 m.2)); reflexivity.
Qed.

Lemma losses_cons (m : string * string) (l : list (string * string)) :
  Spec.losses (m :: l)
  = ((if decide (Spec.beats m.2 m.1) then 1 else 0) + Spec.losses l)%nat.
Proof.
  unfold Spec.losses. rewrite filter_cons.
  destruct (decide (Spec.beats m.2 m.1)); reflexivity.
Qed.

Lemma finalizeRound_counts (s : AppState) (round : string * Q) :
  valid_round round ->
  playerScore (finalizeRound s round)
  = (playerScore s + if decide (Spec.beats round.1 (aiChoice round.2)) then 1 else 0)%nat
  /\ aiScore (finalizeRound s round)
     = (aiScore s + if decide (Spec.beats (aiChoice round.2) round.1) then 1 else 0)%nat.
Proof.
  intros [Hg Hr]. pose proof (aiChoice_move _ Hr) as Ha.
  pose proof (finalizeRound_scores s round) as Hs.
  pose proof (roundOutcome_win _ _ Hg Ha) as Hw.
  pose proof (roundOutcome_lose _ _ Hg Ha) as Hl.
  destruct (roundOutcome round.1 (aiChoice round.2)) eqn:E;
    destruct Hs as [-> ->];
    destruct (decide (Spec.beats round.1 (aiChoice round.2))) as [B1|B1];
    destruct (decide (Spec.beats (aiChoice round.2) round.1)) as [B2|B2];
    try (apply Hw in B1; discriminate); try (apply Hl in B2; discriminate);
    try (exfalso; apply B1, Hw; reflexivity); try (exfalso; apply B2, Hl; reflexivity);
    split; lia.
Qed.

Lemma finalizeRounds_counts (rounds : list (string * Q)) (s : AppState) :
  Forall valid_round rounds ->
  playerScore (finalizeRounds rounds s) = (playerScore s + Spec.wins (played rounds))%nat
  /\ aiScore (finalizeRounds rounds s) = (aiScore s + Spec.losses (played rounds))%nat.
Proof.
  intros Hall. revert s. induction Hall as [|round rounds Hv _ IH]; intros s.
  - cbn. split; lia.
  - change (finalizeRounds (round :: rounds) s)
      with (finalizeRounds rounds (finalizeRound s round)).
    change (played (round :: rounds))
      with ((round.1, aiChoice round.2) :: played rounds).
    rewrite wins_cons, losses_cons. cbn [fst snd].
    destruct (IH (finalizeRound s round)) as [-> ->].
    destruct (finalizeRound_counts s round Hv) as [-> ->]. split; lia.
Qed.
End Ledger.

(** C4. Starting from zeroed counters, after any sequence of finalized rounds
    the player's counter is the number of rounds the player won and the AI's
    counter the number of rounds the AI won; a round the player won adds
    exactly 1 to the player's counter and leaves the AI's, a round the AI won
    adds exactly 1 to the AI's and leaves the player's, a tie changes neither. *)
Theorem score_counts_wins_and_losses (rounds : list (string * Q)) (s : AppState) :
  playerScore s = 0%nat -> aiScore s = 0%nat ->
  Forall Handlers.valid_round rounds ->
  (playerScore (Handlers.finalizeRounds rounds s) = Spec.wins (Handlers.played rounds)
   /\ aiScore (Handlers.finalizeRounds rounds s) = Spec.losses (Handlers.played rounds))
  /\ (forall (s0 : AppState) (round : string * Q), Handlers.valid_round round ->
      let s1 := Handlers.finalizeRound s0 round in
      let p := round.1 in
      let a := Handlers.aiChoice round.2 in
      (Spec.beats p a -> playerScore s1 = (playerScore s0 + 1)%nat /\ aiScore s1 = aiScore s0)
      /\ (Spec.beats a p -> playerScore s1 = playerScore s0 /\ aiScore s1 = (aiScore s0 + 1)%nat)
      /\ (p = a -> playerScore s1 = playerScore s0 /\ aiScore s1 = aiScore s0)).
Proof.
  intros Hp Ha Hall. split.
  - destruct (finalizeRounds_counts rounds s Hall) as [-> ->]. rewrite Hp, Ha. split; reflexivity.
  - intros s0 round [Hg Hr] s1 p a. pose proof (aiChoice_move _ Hr) as Hm.
    pose proof (finalizeRound_scores s0 round) as Hs. fold p a s1 in Hs.
    split; [|split]; intros Hc.
    + apply (roundOutcome_win p a Hg Hm) in Hc. rewrite Hc in Hs. exact Hs.
    + apply (roundOutcome_lose p a Hg Hm) in Hc. rewrite Hc in Hs. exact Hs.
    + apply (roundOutcome_tie p a Hg Hm) in Hc. rewrite Hc in Hs. exact Hs.
Qed.

Lemma score_counts_wins_and_losses_witness :
  let rounds := [("Rock ✊", 5 # 6); ("Paper 🖐️", 1 # 2); ("Scissors ✌️", 1 # 10);
                 ("Paper 🖐️", 1 # 10)]%Q in
  playerScore (Handlers.finalizeRounds rounds initialState) = 2%nat
  /\ aiScore (Handlers.finalizeRounds rounds initialState) = 1%nat.
Proof.
  refine (proj1 (score_counts_wins_and_losses _ initialState eq_refl eq_refl _)).
  repeat constructor; cbn; try discriminate; unfold MOVES; in_list.
Defined.

(** * The round state machine *)

Section Machine.
Import Handlers Runtime.
Context {number : Type} `{JsNum number}.

Lemma commit_same (s : Sys) : commit (ui s) s = s.
Proof.
  unfold commit.
  rewrite (bool_decide_eq_false_2 (countdown (ui s) <> countdown (ui s))) by auto.
  rewrite (bool_decide_eq_false_2 (detector (ui s) <> detector (ui s))) by auto.
  reflexivity.
Qed.

Lemma playRound_in_flight (a : AppState) : countdown a <> None -> playRound a = [].
Proof.
  intros Hc. unfold playRound. rewrite (bool_decide_eq_true_2 _ Hc). reflexivity.
Qed.
End Machine.

(** C5. While a round is in flight ([countdown] is not [null]: the phase is
    not Idle) a click on PLAY changes nothing: the phase, the two displayed
    moves, the result message, the two counters, and with them the pending
    timers and the log of calls, are all unchanged. *)
Theorem playRound_is_noop_in_flight {number : Type} `{JsNum number} (s : Sys) :
  countdown (ui s) <> None ->
  Runtime.step (number := number) Runtime.ClickPlay s = s
  /\ setStates (Handlers.playRound (ui s)) (ui s) = ui s.
Proof.
  intros Hc. cbn [Runtime.step]. unfold Runtime.dispatch.
  rewrite (playRound_in_flight _ Hc). cbn [Runtime.performAll foldl setStates].
  split; [apply commit_same | reflexivity].
Qed.

Lemma playRound_is_noop_in_flight_witness :
  Runtime.step (number := Z) Runtime.ClickPlay counting_down = counting_down.
Proof.
  refine (proj1 (playRound_is_noop_in_flight (number := Z) counting_down _)).
  vm_compute. discriminate.
Defined.

Section Detector.
Import Handlers Runtime.
Context {number : Type} `{JsNum number}.

Lemma setState_detector (a : Action) (s : AppState) :
  detector s = true -> detector (setState a s) = true.
Proof. destruct a; cbn; auto. Qed.

Lemma perform_detector (a : Action) (s : Sys) :
  detector (ui s) = true -> detector (ui (perform a s)) = true.
Proof. apply setState_detector. Qed.

Lemma performAll_detector (acts : list Action) (s : Sys) :
  detector (ui s) = true -> detector (ui (performAll acts s)) = true.
Proof.
  revert s. induction acts as [|a acts IH]; intros s Hd; [exact Hd|].
  apply IH, perform_detector, Hd.
Qed.

Lemma countdownEffect_detector (s : Sys) :
  detector (ui s) = true -> detector (ui (countdownEffect s)) = true.
Proof.
  intros Hd. unfold countdownEffect.
  destruct (countdown (ui (perform _ s))) as [c|]; [destruct (0 <? c)%Z|]; cbn; exact Hd.
Qed.

Lemma captureEffect_detector (s : Sys) :
  detector (ui s) = true -> detector (ui (captureEffect s)) = true.
Proof.
  intros Hd. unfold captureEffect.
  destruct (countdown (ui s)) as [[| |]|]; try exact Hd.
  rewrite Hd. by apply performAll_detector.
Qed.

Lemma commit_detector (before : AppState) (s : Sys) :
  detector (ui s) = true -> detector (ui (commit before s)) = true.
Proof.
  intros Hd. unfold commit.
  destruct (bool_decide (countdown before <> _)), (bool_decide (detector before <> _));
    cbn [orb]; auto using countdownEffect_detector, captureEffect_detector.
Qed.

Lemma dispatch_detector (acts : list Action) (s : Sys) :
  detector (ui s) = true -> detector (ui (dispatch acts s)) = true.
Proof. intros Hd. by apply commit_detector, performAll_detector. Qed.

Lemma step_detector (e : Event) (s : Sys) :
  detector (ui s) = true -> detector (ui (step (number := number) e s)) = true.
Proof.
  intros Hd. destruct e; cbn [step]; try (by apply dispatch_detector).
  - destruct (awaiting s); [exact Hd | by apply dispatch_detector].
  - destruct (earliest (timers s)); [by apply dispatch_detector | exact Hd].
  - exact Hd.
Qed.

Lemma step_quiet (e : Event) (s : Sys) : quiet s -> quiet (step (number := number) e s).
Proof.
  intros [Hd | (Hc & Ht & Hw)]; [left; by apply step_detector|].
  destruct (detector (ui s)) eqn:Hd; [left; by apply step_detector|].
  destruct s as [[d c pm am res ps ais] clk nid ts ct aw lg]; cbn in *; subst.
  destruct e; cbn; right; repeat split; reflexivity.
Qed.

Lemma run_snoc (evs : list Event) (e : Event) (s : Sys) :
  run (number := number) (evs ++ [e]) s = step e (run evs s).
Proof. unfold run. by rewrite foldl_app. Qed.

Lemma reachable_quiet (s : Sys) : reachable (number := number) s -> quiet s.
Proof.
  intros [evs ->]. induction evs as [|e evs IH] using rev_ind.
  - right. repeat split.
  - rewrite run_snoc. by apply step_quiet.
Qed.

Lemma in_flight_detector (s : Sys) :
  reachable (number := number) s -> countdown (ui s) <> None -> detector (ui s) = true.
Proof. intros Hr Hc. destruct (reachable_quiet s Hr) as [Hd | [Hn _]]; [exact Hd | contradiction]. Qed.
End Detector.


(** ** What a dispatch does to the React state *)

Section DispatchState.
Import Handlers Runtime.

Lemma ui_performAll (acts : list Action) (s : Sys) :
  ui (performAll acts s) = setStates acts (ui s).
Proof.
  revert s. induction acts as [|a acts IH]; intros s; [reflexivity|].
  cbn [performAll setStates foldl]. apply IH.
Qed.

Lemma ui_countdownEffect (s : Sys) : ui (countdownEffect s) = ui s.
Proof.
  unfold countdownEffect.
  destruct (countdown (ui (perform _ s))) as [c|]; [destruct (0 <? c)%Z|]; reflexivity.
Qed.

(** The capture effect touches the result message only, and only when the
    countdown is 0. *)
Lemma ui_captureEffect (s : Sys) :
  ui (captureEffect s)
  = if bool_decide (countdown (ui s) = Some 0%Z) && detector (ui s)
    then setState (SetResult "Analyzing your move...") (ui s)
    else ui s.
Proof.
  unfold captureEffect.
  destruct (countdown (ui s)) as [[| |]|]; try reflexivity.
  destruct (detector (ui s)); reflexivity.
Qed.

Lemma ui_commit (before : AppState) (s : Sys) :
  ui (commit before s) = ui s
  \/ (countdown (ui s) = Some 0%Z
      /\ ui (commit before s) = setState (SetResult "Analyzing your move...") (ui s)).
Proof.
  unfold commit.
  destruct (bool_decide (countdown before <> _)), (bool_decide (detector before <> _));
    cbn [orb]; rewrite ?ui_captureEffect, ?ui_countdownEffect; try (by left).
  all: destruct (bool_decide (countdown (ui s) = Some 0%Z)) eqn:E; [|by left].
  all: apply bool_decide_eq_true in E.
  all: destruct (detector (ui s)); [right; by split | by left].
Qed.

(** Every field but the result message is as the handler's calls left it. *)
Lemma ui_dispatch (acts : list Action) (s : Sys) :
  let s' := ui (dispatch acts s) in
  let a := setStates acts (ui s) in
  detector s' = detector a /\ countdown s' = countdown a
  /\ playerMove s' = playerMove a /\ aiMove s' = aiMove a
  /\ playerScore s' = playerScore a /\ aiScore s' = aiScore a
  /\ (countdown a <> Some 0%Z -> s' = a).
Proof.
  unfold dispatch. rewrite <- ui_performAll.
  destruct (ui_commit (ui s) (performAll acts s)) as [-> | [Hc ->]];
    cbn; repeat split; congruence.
Qed.

Lemma detector_dispatch (acts : list Action) (s : Sys) :
  detector (ui (dispatch acts s)) = detector (setStates acts (ui s)).
Proof. apply (ui_dispatch acts s). Qed.

Lemma countdown_dispatch (acts : list Action) (s : Sys) :
  countdown (ui (dispatch acts s)) = countdown (setStates acts (ui s)).
Proof. apply (ui_dispatch acts s). Qed.

Lemma playerMove_dispatch (acts : list Action) (s : Sys) :
  playerMove (ui (dispatch acts s)) = playerMove (setStates acts (ui s)).
Proof. apply (ui_dispatch acts s). Qed.

Lemma aiMove_dispatch (acts : list Action) (s : Sys) :
  aiMove (ui (dispatch acts s)) = aiMove (setStates acts (ui s)).
Proof. apply (ui_dispatch acts s). Qed.

Lemma playerScore_dispatch (acts : list Action) (s : Sys) :
  playerScore (ui (dispatch acts s)) = playerScore (setStates acts (ui s)).
Proof. apply (ui_dispatch acts s). Qed.

Lemma aiScore_dispatch (acts : list Action) (s : Sys) :
  aiScore (ui (dispatch acts s)) = aiScore (setStates acts (ui s)).
Proof. apply (ui_dispatch acts s). Qed.

Lemma result_dispatch (acts : list Action) (s : Sys) :
  countdown (setStates acts (ui s)) <> Some 0%Z ->
  result (ui (dispatch acts s)) = result (setStates acts (ui s)).
Proof. intros Hc. f_equal. by apply (ui_dispatch acts s). Qed.
End DispatchState.

Lemma playRound_idle (a : AppState) :
  countdown a = None -> detector a = true ->
  Handlers.playRound a
  = [SetPlayerMove "?"; SetAiMove "?"; SetResult "Get ready..."; SetCountdown (Some 3%Z)].
Proof. intros Hc Hd. unfold Handlers.playRound. rewrite Hc, Hd. reflexivity. Qed.

(** What Reset does at once: in every state it sets both counters to 0, puts
    [countdown] to [null] and shows the placeholder "?" for both moves; a
    click on PLAY right after it is accepted whenever the detector is
    loaded, which is the case in every reachable state with a round in
    flight. *)
Theorem resetScores_returns_to_idle {number : Type} `{JsNum number} (s : Sys) :
  let s' := Runtime.step (number := number) Runtime.ClickReset s in
  playerScore (ui s') = 0%nat /\ aiScore (ui s') = 0%nat
  /\ countdown (ui s') = None
  /\ playerMove (ui s') = "?" /\ aiMove (ui s') = "?"
  /\ (detector (ui s) = true ->
      countdown (ui (Runtime.step (number := number) Runtime.ClickPlay s')) = Some 3%Z)
  /\ (Runtime.reachable (number := number) s -> countdown (ui s) <> None ->
      countdown (ui (Runtime.step (number := number) Runtime.ClickPlay s')) = Some 3%Z).
Proof.
  cbv zeta. cbn [Runtime.step]. set (s' := Runtime.dispatch Handlers.resetScores s).
  pose proof (detector_dispatch Handlers.resetScores s) as Hd.
  pose proof (countdown_dispatch Handlers.resetScores s) as Hc.
  fold s' in Hd, Hc. cbn in Hd, Hc.
  assert (Hplay : detector (ui s) = true ->
    countdown (ui (Runtime.dispatch (Handlers.playRound (ui s')) s')) = Some 3%Z).
  { intros Hdet. rewrite (playRound_idle (ui s')) by congruence.
    rewrite countdown_dispatch. reflexivity. }
  unfold s' at 1 2 3 4 5.
  rewrite playerScore_dispatch, aiScore_dispatch, countdown_dispatch,
    playerMove_dispatch, aiMove_dispatch.
  repeat split; try assumption.
  intros Hr Hin. apply Hplay. by apply (in_flight_detector (number := number)).
Qed.

Lemma resetScores_returns_to_idle_witness :
  countdown (ui (Runtime.step (number := Z) Runtime.ClickPlay
                   (Runtime.step (number := Z) Runtime.ClickReset counting_down)))
  = Some 3%Z.
Proof.
  refine (proj2 (proj2 (proj2 (proj2 (proj2 (proj2
    (resetScores_returns_to_idle (number := Z) counting_down)))))) _ _).
  - by exists [Runtime.DetectorLoaded; Runtime.ClickPlay; Runtime.TimerFires 0].
  - vm_compute. discriminate.
Defined.

(** C9.  Reset leaves the round it interrupts running.  Clicked while the
    capture waits for the detector, it puts both counters at 0, both moves
    at "?" and the countdown at [null], so that PLAY is accepted; but the
    call of [capturePose] is still suspended: when the detector answers with
    a fist the abandoned round shows "Rock" and registers its two timers,
    and when the reveal fires (draw 5/6) it shows the AI's Scissors and
    gives the player a point, the countdown being [null] all along. *)
Theorem reset_leaves_round_running :
  let s1 := Runtime.step (number := Z) Runtime.ClickReset capturing in
  let s2 := Runtime.step (Runtime.HandsEstimated [Build_Hand rock_pose]) s1 in
  let s3 := Runtime.step (number := Z) (Runtime.TimerFires (5 # 6)) s2 in
  (countdown (ui s1) = None /\ playerScore (ui s1) = 0%nat /\ aiScore (ui s1) = 0%nat
   /\ playerMove (ui s1) = "?" /\ aiMove (ui s1) = "?"
   /\ View.isReady (ui s1) = true /\ awaiting s1 = 1%nat)
  /\ (countdown (ui s2) = None /\ playerMove (ui s2) = "Rock ✊"
      /\ result (ui s2) = "AI is choosing..."
      /\ map callback (timers s2) = [Reveal "Rock ✊"; ClearCountdown])
  /\ (countdown (ui s3) = None /\ playerMove (ui s3) = "Rock ✊"
      /\ aiMove (ui s3) = "Scissors ✌️"
      /\ result (ui s3) = "YOU WIN! 🎉" /\ playerScore (ui s3) = 1%nat).
Proof. vm_compute. repeat split. Qed.

(** ** A capture that yields no move *)

Section FailedCapture.
Import Handlers Runtime.
Context {number : Type} `{JsNum number}.

Lemma capturePose_resume_no_move (hands : list (Hand number)) :
  no_move hands ->
  capturePose_resume hands
  = [SetResult (no_move_message hands); SetTimeout ClearCountdown 1500].
Proof.
  intros [-> | (hand & rest & -> & Hc)]; [reflexivity|].
  cbn [capturePose_resume no_move_message]. rewrite Hc. reflexivity.
Qed.

(** A handler that leaves [countdown] and [detector] alone triggers no effect. *)
Lemma dispatch_no_effect (acts : list Action) (s : Sys) :
  countdown (setStates acts (ui s)) = countdown (ui s) ->
  detector (setStates acts (ui s)) = detector (ui s) ->
  dispatch acts s = performAll acts s.
Proof.
  intros Hc Hd. unfold dispatch, commit. rewrite ui_performAll, Hc, Hd.
  rewrite (bool_decide_eq_false_2 (countdown (ui s) <> countdown (ui s))) by auto.
  rewrite (bool_decide_eq_false_2 (detector (ui s) <> detector (ui s))) by auto.
  reflexivity.
Qed.

Lemma clock_performAll (acts : list Action) (s : Sys) :
  clock (performAll acts s) = clock s.
Proof.
  revert s. induction acts as [|a acts IH]; intros s; [reflexivity|].
  exact (IH (perform a s)).
Qed.

Lemma clock_dispatch (acts : list Action) (s : Sys) : clock (dispatch acts s) = clock s.
Proof.
  unfold dispatch, commit, captureEffect, countdownEffect.
  repeat match goal with
         | |- context [if ?b then _ else _] => destruct b
         | |- context [match ?o with Some _ => _ | None => _ end] => destruct o
         | |- context [match ?z with Z0 => _ | Zpos _ => _ | Zneg _ => _ end] => destruct z
         end;
    cbn [clock setCountdownTimer perform]; rewrite ?clock_performAll;
    cbn [clock setCountdownTimer perform]; rewrite ?clock_performAll; reflexivity.
Qed.

(** When a timer that clears the countdown fires, the phase is Idle and the
    moves and counters are as they were. *)
Lemma clear_countdown_fires (s : Sys) (t : Timer) (r : Q) :
  earliest (timers s) = Some t -> callback t = ClearCountdown ->
  let s' := step (number := number) (TimerFires r) s in
  countdown (ui s') = None /\ (due t <= clock s')%nat
  /\ playerScore (ui s') = playerScore (ui s) /\ aiScore (ui s') = aiScore (ui s)
  /\ playerMove (ui s') = playerMove (ui s) /\ aiMove (ui s') = aiMove (ui s).
Proof.
  intros Et Ecb. cbv zeta. cbn [step]. rewrite Et, Ecb. cbn [runCallback].
  rewrite countdown_dispatch, clock_dispatch, playerScore_dispatch, aiScore_dispatch,
    playerMove_dispatch, aiMove_dispatch.
  cbn. repeat split. lia.
Qed.
End FailedCapture.

(** C6. When the capture of a round yields no hand, or a pose the classifier
    gives no move for, the round ends there: the matching message is shown,
    the only other call is the timer that clears the countdown 1500 ms
    later, so no AI move is drawn and neither counter (nor either displayed
    move) changes; whenever that timer fires, no earlier than 1500 ms after
    the capture, the phase is Idle again and the counters are untouched; with
    no other timer pending it is the next one to fire, at 1500 ms exactly. *)
Theorem failed_capture_ends_round
    {number : Type} `{JsNum number} (s : Sys) (hands : list (Hand number)) :
  awaiting s <> 0%nat ->
  no_move hands ->
  let s' := Runtime.step (Runtime.HandsEstimated hands) s in
  let idle_timer :=
    {| timer_id := nextTimerId s; due := clock s + 1500; callback := ClearCountdown |} in
  log s' = log s ++ [SetResult (no_move_message hands); SetTimeout ClearCountdown 1500]
  /\ timers s' = timers s ++ [idle_timer]
  /\ result (ui s') = no_move_message hands
  /\ playerMove (ui s') = playerMove (ui s) /\ aiMove (ui s') = aiMove (ui s)
  /\ playerScore (ui s') = playerScore (ui s) /\ aiScore (ui s') = aiScore (ui s)
  /\ countdown (ui s') = countdown (ui s)
  /\ (forall (s2 : Sys) (r : Q), Runtime.earliest (timers s2) = Some idle_timer ->
      let s3 := Runtime.step (number := number) (Runtime.TimerFires r) s2 in
      countdown (ui s3) = None /\ (clock s + 1500 <= clock s3)%nat
      /\ playerScore (ui s3) = playerScore (ui s2) /\ aiScore (ui s3) = aiScore (ui s2)
      /\ playerMove (ui s3) = playerMove (ui s2) /\ aiMove (ui s3) = aiMove (ui s2))
  /\ (timers s = [] -> forall r : Q,
      let s'' := Runtime.step (number := number) (Runtime.TimerFires r) s' in
      countdown (ui s'') = None /\ clock s'' = (clock s + 1500)%nat
      /\ playerScore (ui s'') = playerScore (ui s) /\ aiScore (ui s'') = aiScore (ui s)
      /\ playerMove (ui s'') = playerMove (ui s) /\ aiMove (ui s'') = aiMove (ui s)).
Proof.
  intros Haw Hno. cbv zeta. cbn [Runtime.step].
  destruct (awaiting s) as [|n] eqn:Ew; [contradiction|].
  rewrite (capturePose_resume_no_move hands Hno).
  rewrite dispatch_no_effect by reflexivity.
  set (s' := Runtime.performAll _ (Runtime.resolveOne s)).
  assert (Hs' : s' = {| ui := setState (SetResult (no_move_message hands)) (ui s);
                        clock := clock s; nextTimerId := S (nextTimerId s);
                        timers := timers s ++ [{| timer_id := nextTimerId s;
                                                  due := clock s + 1500;
                                                  callback := ClearCountdown |}];
                        countdownTimer := countdownTimer s; awaiting := n;
                        log := (log s ++ [SetResult (no_move_message hands)])
                               ++ [SetTimeout ClearCountdown 1500] |}).
  { subst s'. unfold Runtime.performAll, Runtime.perform, Runtime.resolveOne.
    cbn [foldl ui clock nextTimerId timers countdownTimer awaiting log setState].
    rewrite Ew. reflexivity. }
  rewrite Hs'. cbn [ui log timers setState result playerMove aiMove playerScore aiScore countdown].
  rewrite <- app_assoc. do 8 (split; [reflexivity|]).
  split; [intros s2 r Et; by apply (clear_countdown_fires s2 _ r Et)|].
  intros Hts r. rewrite Hts. cbn [Runtime.earliest app callback Handlers.runCallback].
  rewrite countdown_dispatch, clock_dispatch, playerScore_dispatch, aiScore_dispatch,
    playerMove_dispatch, aiMove_dispatch.
  cbn. repeat split. lia.
Qed.

Lemma failed_capture_ends_round_witness :
  result (ui (Runtime.step (number := Z) (Runtime.HandsEstimated []) capturing))
  = "No hand detected! Try again."
  /\ countdown (ui (Runtime.step (number := Z) (Runtime.TimerFires 0)
                      (Runtime.step (number := Z) (Runtime.HandsEstimated []) capturing)))
     = None.
Proof.
  destruct (failed_capture_ends_round (number := Z) capturing []
              ltac:(vm_compute; discriminate) (or_introl eq_refl))
    as (_ & _ & Hres & _ & _ & _ & _ & _ & _ & Hfire).
  split; [exact Hres|].
  exact (proj1 (Hfire ltac:(vm_compute; reflexivity) 0%Q)).
Defined.

(** ** The order of capture, draw and outcome in the log of calls *)

Section Ordering.
Import Handlers Runtime.
Context {number : Type} `{JsNum number}.




End Ordering.

Section OrderingInvariant.
Import Handlers Runtime.
Context {number : Type} `{JsNum number}.

Lemma log_performAll (acts : list Action) (s : Sys) :
  log (performAll acts s) = log s ++ acts.
Proof.
  revert s. induction acts as [|a acts IH]; intros s.
  - cbn. by rewrite app_nil_r.
  - change (performAll (a :: acts) s) with (performAll acts (perform a s)).
    rewrite IH. cbn [log perform]. by rewrite <- app_assoc.
Qed.





(** Where a pending timer comes from. *)
Lemma timers_perform (a : Action) (s : Sys) (t : Timer) :
  t ∈ timers (perform a s) ->
  t ∈ timers s \/ exists delay, a = SetTimeout (callback t) delay.
Proof.
  destruct a; cbn [timers perform]; auto.
  - rewrite elem_of_app, list_elem_of_singleton. intros [Hin | ->]; [by left|].
    right. by eexists.
  - rewrite list_elem_of_filter. intros [_ Hin]. by left.
Qed.

Lemma timers_performAll (acts : list Action) (s : Sys) (t : Timer) :
  t ∈ timers (performAll acts s) ->
  t ∈ timers s \/ exists delay, SetTimeout (callback t) delay ∈ acts.
Proof.
  revert s. induction acts as [|a acts IH]; intros s; [by left|].
  change (performAll (a :: acts) s) with (performAll acts (perform a s)).
  intros Hin. apply IH in Hin as [Hin | (d & Hd)].
  - apply timers_perform in Hin as [Hin | (d & ->)]; [by left|].
    right. exists d. apply list_elem_of_here.
  - right. exists d. by apply list_elem_of_further.
Qed.




End OrderingInvariant.

Section OrderingPreserved.
Import Handlers Runtime.
Context {number : Type} `{JsNum number}.




Lemma earliest_elem (ts : list Timer) (t : Timer) : earliest ts = Some t -> t ∈ ts.
Proof.
  revert t. induction ts as [|u ts IH]; intros t Et; [discriminate|].
  cbn [earliest] in Et. destruct (earliest ts) as [v|].
  - destruct (due v <? due u)%nat; injection Et as <-.
    + apply list_elem_of_further. by apply IH.
    + apply list_elem_of_here.
  - injection Et as <-. apply list_elem_of_here.
Qed.



End OrderingPreserved.

Section Draw64Facts.
Import Handlers.
Local Open Scope Q_scope.




End Draw64Facts.




(** * End-to-end scenarios (section 8 of the specification) *)

(** Scenario 1: a fist against a drawn Scissors is a win and one point. *)
Example scenario_rock_beats_scissors :
  let s := Runtime.run (round_script [Build_Hand rock_pose] (5 # 6)) ready in
  playerMove (ui s) = "Rock ✊" /\ aiMove (ui s) = "Scissors ✌️"
  /\ result (ui s) = "YOU WIN! 🎉" /\ playerScore (ui s) = 1%nat /\ aiScore (ui s) = 0%nat
  /\ countdown (ui s) = None /\ timers s = [] /\ clock s = (7 * 1000)%nat.
Proof. vm_compute. repeat split. Qed.

(** Scenario 2: an open hand against a drawn Paper is a tie, no point. *)
Example scenario_paper_ties_paper :
  let s := Runtime.run (round_script [Build_Hand paper_pose] (1 # 2)) ready in
  playerMove (ui s) = "Paper 🖐️" /\ aiMove (ui s) = "Paper 🖐️"
  /\ result (ui s) = "It's a TIE! 🤝" /\ playerScore (ui s) = 0%nat /\ aiScore (ui s) = 0%nat
  /\ countdown (ui s) = None.
Proof. vm_compute. repeat split. Qed.

(** Scenario 3: no hand in the frame ends the round after 1500 ms, no point.
    (The script's last tick finds no timer left.) *)
Example scenario_no_hand :
  let s := Runtime.run (number := Z) (round_script [] 0) ready in
  playerMove (ui s) = "?" /\ aiMove (ui s) = "?"
  /\ result (ui s) = "No hand detected! Try again."
  /\ playerScore (ui s) = 0%nat /\ aiScore (ui s) = 0%nat
  /\ countdown (ui s) = None /\ timers s = [] /\ clock s = (3 * 1500)%nat.
Proof. vm_compute. repeat split. Qed.

(** Scenario 4: index and middle up against a drawn Rock is a loss, one point
    to the AI. *)
Example scenario_scissors_loses_to_rock :
  let s := Runtime.run (round_script [Build_Hand scissors_pose] (1 # 10)) ready in
  playerMove (ui s) = "Scissors ✌️" /\ aiMove (ui s) = "Rock ✊"
  /\ result (ui s) = "AI WINS! 😈" /\ playerScore (ui s) = 0%nat /\ aiScore (ui s) = 1%nat
  /\ countdown (ui s) = None.
Proof. vm_compute. repeat split. Qed.

(** The classifier on binary64 coordinates: [260.25 < 300.5 - 40] holds, so
    the two raised fingers count; one more quarter of a pixel down they do not. *)
Example classify_binary64 :
  AppV2.classifyGesture (Some scissors_pose_float) = Normal (Some "Scissors ✌️")
  /\ AppV2.classifyGesture
       (Some (<[8%nat := Build_Keypoint 12.5%float 260.5%float]> scissors_pose_float))
     = Normal None
  /\ AppV1.classifyGesture scissors_pose_float = Normal (Some "Rock âœŠ").
Proof. vm_compute. repeat split. Qed.

(** Reset does not cancel the timers registered by a capture: pressed between
    the capture and the reveal it clears the board, PLAY is accepted again
    at once, and the reveal of the abandoned round still fires, showing its
    AI move and counting its point. *)
Remark reveal_survives_reset :
  let before := Runtime.run
    [Runtime.ClickPlay; Runtime.TimerFires 0; Runtime.TimerFires 0; Runtime.TimerFires 0;
     Runtime.HandsEstimated [Build_Hand rock_pose]; Runtime.ClickReset] ready in
  let after := Runtime.step (number := Z) (Runtime.TimerFires (5 # 6)) before in
  (countdown (ui before) = None /\ playerScore (ui before) = 0%nat
   /\ map callback (timers before) = [Reveal "Rock ✊"; ClearCountdown]
   /\ countdown (ui (Runtime.step (number := Z) Runtime.ClickPlay before)) = Some 3%Z)
  /\ (countdown (ui after) = None /\ playerMove (ui after) = "?"
      /\ aiMove (ui after) = "Scissors ✌️" /\ playerScore (ui after) = 1%nat).
Proof. vm_compute. repeat split. Qed.

(** * Further properties of the second component *)

(** ** The countdown *)

Section Countdown.
Import Handlers Runtime.
Context {number : Type} `{JsNum number}.

Lemma timers_performAll_app (acts : list Action) (s : Sys) :
  countdownTimer (performAll acts s) = countdownTimer s
  /\ clock (performAll acts s) = clock s.
Proof.
  revert s. induction acts as [|a acts IH]; intros s; [by split|].
  exact (IH (perform a s)).
Qed.

(** The timer table after the countdown effect ran. *)
Lemma countdownEffect_timers (s : Sys) :
  let kept := filter (fun t => Some (timer_id t) <> countdownTimer s) (timers s) in
  match countdown (ui s) with
  | Some c =>
      if (0 <? c)%Z
      then timers (countdownEffect s)
           = kept ++ [{| timer_id := nextTimerId s; due := clock s + 1000;
                         callback := CountdownTick c |}]
           /\ countdownTimer (countdownEffect s) = Some (nextTimerId s)
      else timers (countdownEffect s) = kept /\ countdownTimer (countdownEffect s) = None
  | None => timers (countdownEffect s) = kept /\ countdownTimer (countdownEffect s) = None
  end.
Proof.
  unfold countdownEffect. cbn [ui perform setState].
  destruct (countdown (ui s)) as [c|]; [destruct (0 <? c)%Z|]; by split.
Qed.

Lemma captureEffect_frame (s : Sys) :
  timers (captureEffect s) = timers s
  /\ countdownTimer (captureEffect s) = countdownTimer s
  /\ nextTimerId (captureEffect s) = nextTimerId s
  /\ countdown (ui (captureEffect s)) = countdown (ui s).
Proof.
  unfold captureEffect.
  destruct (countdown (ui s)) as [[| |]|] eqn:E; [destruct (detector (ui s))|..];
    rewrite ?E; by repeat split.
Qed.

Lemma countdown_countdownEffect (s : Sys) :
  countdown (ui (countdownEffect s)) = countdown (ui s).
Proof. by rewrite ui_countdownEffect. Qed.

(** A handler that registers no tick and leaves [countdown] among its values
    keeps the ticks in step with the display. *)
Lemma dispatch_ticking (acts : list Action) (s : Sys) :
  (forall t c, t ∈ timers s -> callback t = CountdownTick c ->
     countdownTimer s = Some (timer_id t) /\ countdown (ui s) = Some c /\ (0 < c)%Z) ->
  (forall c delay, SetTimeout (CountdownTick c) delay ∉ acts) ->
  countdown (setStates acts (ui s)) ∈ countdown_values ->
  ticking (dispatch acts s).
Proof.
  intros Hticks Hacts Hval.
  assert (Hold : forall t c, t ∈ timers (performAll acts s) -> callback t = CountdownTick c ->
            countdownTimer s = Some (timer_id t) /\ countdown (ui s) = Some c /\ (0 < c)%Z).
  { intros t c Hin Hcb. apply timers_performAll in Hin as [Hin | (d & Hd)]; [by apply Hticks|].
    rewrite Hcb in Hd. by apply Hacts in Hd. }
  split; [by rewrite countdown_dispatch|].
  unfold dispatch, commit. rewrite ui_performAll.
  set (p := performAll acts s) in *.
  assert (Hct : countdownTimer p = countdownTimer s) by apply timers_performAll_app.
  assert (Hup : countdown (ui p) = countdown (setStates acts (ui s)))
    by (subst p; by rewrite ui_performAll).
  destruct (bool_decide (countdown (ui s) <> _)) eqn:Echg.
  - (* the countdown changed: the effect replaces every tick *)
    cbn [orb]. intros t c Hin Hcb.
    destruct (captureEffect_frame (countdownEffect p)) as (-> & -> & _ & ->) in Hin |- *.
    rewrite countdown_countdownEffect.
    pose proof (countdownEffect_timers p) as Heff. cbv zeta in Heff.
    assert (Hkept : t ∉ filter (fun t => Some (timer_id t) <> countdownTimer p) (timers p)).
    { intros Hk. apply list_elem_of_filter in Hk as [Hne Hk].
      destruct (Hold t c Hk Hcb) as (Hid & _). congruence. }
    destruct (countdown (ui p)) as [c'|] eqn:Ec; [destruct (0 <? c')%Z eqn:Epos|];
      destruct Heff as [Ht Hc]; rewrite Ht in Hin; rewrite Hc.
    + apply elem_of_app in Hin as [Hin | Hin]; [contradiction|].
      apply list_elem_of_singleton in Hin. subst t. cbn in Hcb. injection Hcb as <-.
      cbn. repeat split. by apply Z.ltb_lt.
    + contradiction.
    + contradiction.
  - (* the countdown is as it was *)
    apply bool_decide_eq_false in Echg. apply dec_stable in Echg.
    assert (Hsame : forall q : Sys, timers q = timers p -> countdownTimer q = countdownTimer p ->
              countdown (ui q) = countdown (ui p) ->
              forall t c, t ∈ timers q -> callback t = CountdownTick c ->
                countdownTimer q = Some (timer_id t) /\ countdown (ui q) = Some c /\ (0 < c)%Z).
    { intros q -> -> -> t c Hin Hcb. rewrite Hct, Hup, <- Echg. by apply Hold. }
    destruct (bool_decide (detector (ui s) <> _)); cbn [orb].
    + destruct (captureEffect_frame p) as (Ht & Hc & _ & Hcd). by apply Hsame.
    + by apply Hsame.
Qed.
End Countdown.

Section CountdownInvariant.
Import Handlers Runtime.
Context {number : Type} `{JsNum number}.

Ltac not_in_list Hin :=
  repeat (apply elem_of_cons in Hin as [Hin|Hin]; [discriminate|]);
  by apply elem_of_nil in Hin.

Lemma capturePose_resume_no_tick (hands : list (Hand number)) (a : AppState) :
  (forall c delay, SetTimeout (CountdownTick c) delay ∉ capturePose_resume hands)
  /\ countdown (setStates (capturePose_resume hands) a) = countdown a.
Proof.
  unfold capturePose_resume. destruct hands as [|hand rest].
  - split; [intros c d Hin; not_in_list Hin | reflexivity].
  - destruct (AppV2.classifyGesture (Some (keypoints hand))) as [[g|]|];
      (split; [intros c d Hin; not_in_list Hin | reflexivity]).
Qed.

Lemma reveal_no_tick (g : string) (r : Q) (a : AppState) :
  (forall c delay, SetTimeout (CountdownTick c) delay ∉ reveal g r)
  /\ countdown (setStates (reveal g r) a) = countdown a.
Proof.
  unfold reveal, revealWith.
  destruct (roundOutcome g (aiChoice r));
    (split; [intros c d Hin; cbn in Hin; not_in_list Hin | reflexivity]).
Qed.

Lemma countdown_value_pred (c : Z) :
  Some c ∈ countdown_values -> (0 < c)%Z -> Some (c - 1)%Z ∈ countdown_values.
Proof.
  unfold countdown_values. rewrite !elem_of_cons, elem_of_nil.
  intros [E | [E | [E | [E | [E | []]]]]] Hpos; try discriminate;
    injection E as ->; first [lia | cbn; tauto].
Qed.

Lemma step_ticking (e : Event) (s : Sys) :
  ticking s -> ticking (step (number := number) e s).
Proof.
  intros [Hval Hticks]. destruct e; cbn [step].
  - apply dispatch_ticking; [exact Hticks | intros c d Hin; not_in_list Hin | exact Hval].
  - apply dispatch_ticking; [exact Hticks | intros c d Hin; not_in_list Hin | exact Hval].
  - apply dispatch_ticking; [exact Hticks | intros c d Hin; not_in_list Hin | exact Hval].
  - unfold playRound. destruct (_ || _).
    + apply dispatch_ticking; [exact Hticks | intros c d Hin; not_in_list Hin | exact Hval].
    + apply dispatch_ticking; [exact Hticks | intros c d Hin; not_in_list Hin |].
      cbn. unfold countdown_values. in_list.
  - apply dispatch_ticking; [exact Hticks | intros c d Hin; not_in_list Hin |].
    cbn. unfold countdown_values. in_list.
  - destruct (awaiting s); [by split|].
    destruct (capturePose_resume_no_tick hands (ui (resolveOne s))) as [Hno Hc].
    apply dispatch_ticking; [exact Hticks | exact Hno | by rewrite Hc].
  - destruct (earliest (timers s)) as [t|] eqn:Et; [|by split].
    assert (Hfire : forall u c, u ∈ timers (fire t s) -> callback u = CountdownTick c ->
              countdownTimer (fire t s) = Some (timer_id u)
              /\ countdown (ui (fire t s)) = Some c /\ (0 < c)%Z).
    { intros u c Hin Hcb. cbn [timers fire] in Hin.
      apply list_elem_of_filter in Hin as [_ Hin]. exact (Hticks u c Hin Hcb). }
    destruct (callback t) as [c| |g] eqn:Ecb; cbn [runCallback].
    + destruct (Hticks t c (earliest_elem _ _ Et) Ecb) as (_ & Hc & Hpos).
      apply dispatch_ticking; [exact Hfire | intros c' d Hin; not_in_list Hin |].
      cbn. apply countdown_value_pred; [|exact Hpos]. by rewrite <- Hc.
    + apply dispatch_ticking; [exact Hfire | intros c' d Hin; not_in_list Hin |].
      cbn. unfold countdown_values. in_list.
    + destruct (reveal_no_tick g r (ui (fire t s))) as [Hno Hc].
      apply dispatch_ticking; [exact Hfire | exact Hno | by rewrite Hc].
  - by split.
Qed.

Lemma reachable_ticking (s : Sys) : reachable (number := number) s -> ticking s.
Proof.
  intros [evs ->]. induction evs as [|e evs IH] using rev_ind.
  - split; [unfold countdown_values; cbn; in_list|].
    intros t c Hin. by apply elem_of_nil in Hin.
  - rewrite run_snoc. by apply step_ticking.
Qed.
End CountdownInvariant.

Section FreshIds.
Import Handlers Runtime.
Context {number : Type} `{JsNum number}.

Lemma filter_fresh (P : Timer -> Prop) `{forall t, Decision (P t)} (s : Sys) (n : nat) :
  NoDup (timer_id <$> timers s) -> (forall t, t ∈ timers s -> (timer_id t < n)%nat) ->
  NoDup (timer_id <$> filter P (timers s))
  /\ forall t, t ∈ filter P (timers s) -> (timer_id t < n)%nat.
Proof.
  intros Hnd Hlt. split.
  - eapply sublist_NoDup; [exact Hnd|]. apply fmap_sublist, sublist_filter.
  - intros t Hin. apply list_elem_of_filter in Hin as [_ Hin]. by apply Hlt.
Qed.

Lemma perform_fresh (a : Action) (s : Sys) : fresh_ids s -> fresh_ids (perform a s).
Proof.
  intros [Hnd Hlt]. unfold fresh_ids. destruct a; cbn [timers nextTimerId perform];
    try (by split).
  - split.
    + rewrite fmap_app. apply NoDup_app. split; [exact Hnd|]. split.
      * intros x Hx Hn. apply list_elem_of_fmap in Hx as (t & -> & Ht).
        apply list_elem_of_singleton in Hn. apply Hlt in Ht. cbn in Hn. lia.
      * apply NoDup_singleton.
    + intros t Hin. apply elem_of_app in Hin as [Hin | Hin].
      * apply Hlt in Hin. lia.
      * apply list_elem_of_singleton in Hin. subst t. cbn. lia.
  - by apply filter_fresh.
Qed.

Lemma performAll_fresh (acts : list Action) (s : Sys) :
  fresh_ids s -> fresh_ids (performAll acts s).
Proof.
  revert s. induction acts as [|a acts IH]; intros s Hs; [exact Hs|].
  apply (IH (perform a s)), perform_fresh, Hs.
Qed.

Lemma countdownEffect_fresh (s : Sys) : fresh_ids s -> fresh_ids (countdownEffect s).
Proof.
  intros Hs. unfold countdownEffect.
  destruct (countdown (ui (perform _ s))) as [c|]; [destruct (0 <? c)%Z|];
    repeat apply perform_fresh; exact Hs.
Qed.

Lemma captureEffect_fresh (s : Sys) : fresh_ids s -> fresh_ids (captureEffect s).
Proof.
  intros Hs. unfold captureEffect.
  destruct (countdown (ui s)) as [[| |]|]; [destruct (detector (ui s))|..];
    exact Hs.
Qed.

Lemma dispatch_fresh (acts : list Action) (s : Sys) :
  fresh_ids s -> fresh_ids (dispatch acts s).
Proof.
  intros Hs. unfold dispatch, commit.
  destruct (bool_decide (countdown (ui s) <> _)), (bool_decide (detector (ui s) <> _));
    cbn [orb]; auto using performAll_fresh, countdownEffect_fresh, captureEffect_fresh.
Qed.

Lemma step_fresh (e : Event) (s : Sys) :
  fresh_ids s -> fresh_ids (step (number := number) e s).
Proof.
  intros Hs. destruct e; cbn [step]; try (by apply dispatch_fresh).
  - destruct (awaiting s); [exact Hs|]. by apply dispatch_fresh.
  - destruct (earliest (timers s)) as [t|]; [|exact Hs].
    apply dispatch_fresh. destruct Hs as [Hnd Hlt]. by apply filter_fresh.
  - exact Hs.
Qed.

Lemma reachable_fresh (s : Sys) : reachable (number := number) s -> fresh_ids s.
Proof.
  intros [evs ->]. induction evs as [|e evs IH] using rev_ind.
  - split; [constructor|]. intros t Hin. by apply elem_of_nil in Hin.
  - rewrite run_snoc. by apply step_fresh.
Qed.

(** In a list without repeated ids, the timers that share one id are at most one. *)
Lemma same_id_at_most_one (P : Timer -> Prop) `{forall t, Decision (P t)}
    (ts : list Timer) (id : nat) :
  NoDup (timer_id <$> ts) -> (forall t, t ∈ ts -> P t -> timer_id t = id) ->
  (length (filter P ts) <= 1)%nat.
Proof.
  induction ts as [|u ts IH]; intros Hnd Hid; [cbn; lia|].
  rewrite fmap_cons in Hnd. apply NoDup_cons in Hnd as [Hu Hnd].
  rewrite filter_cons. destruct (decide (P u)) as [Pu|Pu].
  - assert (filter P ts = []) as ->; [|cbn; lia].
    destruct (filter P ts) as [|t l] eqn:E; [reflexivity|]. exfalso.
    assert (t ∈ filter P ts) as Hin by (rewrite E; apply list_elem_of_here).
    apply list_elem_of_filter in Hin as [Pt Ht]. apply Hu.
    rewrite (Hid u (list_elem_of_here _ _) Pu),
      <- (Hid t (list_elem_of_further _ _ _ Ht) Pt).
    apply list_elem_of_fmap. by exists t.
  - apply IH; [exact Hnd|]. intros t Ht. apply Hid. by apply list_elem_of_further.
Qed.
End FreshIds.

(** X1. In every reachable state [countdown] is [null], 0, 1, 2 or 3; at most
    one countdown tick is pending; a pending tick is the one the countdown
    effect registered last and carries the value on display, which is then
    1, 2 or 3; so with [null] or 0 on display no tick is pending. *)
Theorem countdown_in_range_one_tick {number : Type} `{JsNum number} (s : Sys) :
  Runtime.reachable (number := number) s ->
  countdown (ui s) ∈ countdown_values
  /\ (length (filter is_tick (timers s)) <= 1)%nat
  /\ (forall t c, t ∈ timers s -> callback t = CountdownTick c ->
        countdown (ui s) = Some c /\ (1 <= c <= 3)%Z
        /\ countdownTimer s = Some (timer_id t))
  /\ (countdown (ui s) = None \/ countdown (ui s) = Some 0%Z ->
        forall t, t ∈ timers s -> ~ is_tick t).
Proof.
  intros Hr. destruct (reachable_ticking s Hr) as [Hval Hticks].
  destruct (reachable_fresh s Hr) as [Hnd _].
  assert (Hrange : forall c, countdown (ui s) = Some c -> (c <= 3)%Z).
  { intros c Hc. rewrite Hc in Hval. unfold countdown_values in Hval.
    rewrite !elem_of_cons, elem_of_nil in Hval.
    destruct Hval as [E | [E | [E | [E | [E | []]]]]]; try discriminate;
      injection E as ->; lia. }
  split; [exact Hval|]. split; [|split].
  - destruct (countdownTimer s) as [id|] eqn:Eid.
    + apply (same_id_at_most_one is_tick (timers s) id Hnd).
      intros t Ht Pt. unfold is_tick in Pt.
      destruct (callback t) as [c| |g] eqn:Ecb; try contradiction.
      destruct (Hticks t c Ht Ecb) as (Hid & _). congruence.
    + assert (filter is_tick (timers s) = []) as ->; [|cbn; lia].
      destruct (filter is_tick (timers s)) as [|t l] eqn:E; [reflexivity|]. exfalso.
      assert (t ∈ filter is_tick (timers s)) as Hin by (rewrite E; apply list_elem_of_here).
      apply list_elem_of_filter in Hin as [Pt Ht]. unfold is_tick in Pt.
      destruct (callback t) as [c| |g] eqn:Ecb; try contradiction.
      destruct (Hticks t c Ht Ecb) as (Hid & _). congruence.
  - intros t c Ht Ecb. destruct (Hticks t c Ht Ecb) as (Hid & Hc & Hpos).
    pose proof (Hrange c Hc). repeat split; [exact Hc | lia | lia | exact Hid].
  - intros Hc t Ht Pt. unfold is_tick in Pt.
    destruct (callback t) as [c| |g] eqn:Ecb; try contradiction.
    destruct (Hticks t c Ht Ecb) as (_ & Hc' & Hpos).
    destruct Hc as [Hc | Hc]; rewrite Hc in Hc'; [discriminate|].
    injection Hc' as <-. lia.
Qed.

Lemma countdown_in_range_one_tick_witness :
  countdown (ui counting_down) ∈ countdown_values.
Proof.
  refine (proj1 (countdown_in_range_one_tick (number := Z) counting_down _)).
  by exists [Runtime.DetectorLoaded; Runtime.ClickPlay; Runtime.TimerFires 0].
Defined.

Section Stopped.
Import Handlers Runtime.
Context {number : Type} `{JsNum number}.

Ltac not_in_list Hin :=
  repeat (apply elem_of_cons in Hin as [Hin|Hin]; [discriminate|]);
  by apply elem_of_nil in Hin.

Lemma ticking_none_stopped (s : Sys) : ticking s -> countdown (ui s) = None -> stopped s.
Proof.
  intros [_ Hticks] Hc. split; [exact Hc|]. intros t Ht Pt. unfold is_tick in Pt.
  destruct (callback t) as [c| |g] eqn:Ecb; try contradiction.
  destruct (Hticks t c Ht Ecb) as (_ & Hc' & _). congruence.
Qed.

Lemma dispatch_stopped (acts : list Action) (s : Sys) :
  (forall t, t ∈ timers s -> ~ is_tick t) ->
  (forall c delay, SetTimeout (CountdownTick c) delay ∉ acts) ->
  countdown (setStates acts (ui s)) = None ->
  stopped (dispatch acts s).
Proof.
  intros Hno Hacts Hc. apply ticking_none_stopped; [|by rewrite countdown_dispatch].
  apply dispatch_ticking; [|exact Hacts|rewrite Hc; unfold countdown_values; in_list].
  intros t c Ht Ecb. exfalso. apply (Hno t Ht). unfold is_tick. by rewrite Ecb.
Qed.

Lemma step_stopped (e : Event) (s : Sys) :
  e <> ClickPlay -> stopped s -> stopped (step (number := number) e s).
Proof.
  intros He [Hc Hno]. destruct e; cbn [step]; try contradiction.
  - apply dispatch_stopped; [exact Hno | intros c d Hin; not_in_list Hin | exact Hc].
  - apply dispatch_stopped; [exact Hno | intros c d Hin; not_in_list Hin | exact Hc].
  - apply dispatch_stopped; [exact Hno | intros c d Hin; not_in_list Hin | exact Hc].
  - apply dispatch_stopped; [exact Hno | intros c d Hin; not_in_list Hin | reflexivity].
  - destruct (awaiting s); [by split|].
    destruct (capturePose_resume_no_tick hands (ui (resolveOne s))) as [Hacts Hcd].
    apply dispatch_stopped; [exact Hno | exact Hacts | by rewrite Hcd].
  - destruct (earliest (timers s)) as [t|] eqn:Et; [|by split].
    assert (Hfire : forall u, u ∈ timers (fire t s) -> ~ is_tick u).
    { intros u Hin. cbn [timers fire] in Hin.
      apply list_elem_of_filter in Hin as [_ Hin]. by apply Hno. }
    pose proof (Hno t (earliest_elem _ _ Et)) as Ht. unfold is_tick in Ht.
    destruct (callback t) as [c| |g] eqn:Ecb; cbn [runCallback]; [by destruct Ht| |].
    + apply dispatch_stopped; [exact Hfire | intros c d Hin; not_in_list Hin | reflexivity].
    + destruct (reveal_no_tick g r (ui (fire t s))) as [Hacts Hcd].
      apply dispatch_stopped; [exact Hfire | exact Hacts | by rewrite Hcd].
  - by split.
Qed.

Lemma run_stopped (evs : list Event) (s : Sys) :
  Forall (fun e => e <> ClickPlay) evs -> stopped s -> stopped (run (number := number) evs s).
Proof.
  intros Hall. revert s. induction Hall as [|e evs He _ IH]; intros s Hs; [exact Hs|].
  apply (IH (step e s)). by apply step_stopped.
Qed.
End Stopped.

(** X2. Reset cancels the countdown for good: after it, in any reachable
    state, no countdown tick is pending, and whatever happens next (timers
    firing, a detection resolving, the detector loading, Reset again) the
    countdown stays [null] with no tick pending until PLAY is clicked. *)
Theorem reset_stops_countdown {number : Type} `{JsNum number}
    (s : Sys) (evs : list Runtime.Event) :
  Runtime.reachable (number := number) s ->
  Forall (fun e => e <> Runtime.ClickPlay) evs ->
  stopped (Runtime.run evs (Runtime.step Runtime.ClickReset s)).
Proof.
  intros Hr Hall. apply run_stopped; [exact Hall|].
  apply ticking_none_stopped; [|cbn [Runtime.step]; by rewrite countdown_dispatch].
  apply step_ticking. by apply (reachable_ticking (number := number)).
Qed.

Lemma reset_stops_countdown_witness :
  stopped (Runtime.run (number := Z) [Runtime.TimerFires 0; Runtime.TimerFires 0]
             (Runtime.step Runtime.ClickReset counting_down)).
Proof.
  apply (reset_stops_countdown (number := Z) counting_down).
  - by exists [Runtime.DetectorLoaded; Runtime.ClickPlay; Runtime.TimerFires 0].
  - repeat constructor; discriminate.
Defined.

(** ** The PLAY button and the overlay *)

(** X3. The PLAY button is enabled exactly when [playRound] passes its guard:
    a click then clears both displayed moves and puts 3 on the countdown,
    and when the button is disabled a click changes nothing.  In every
    reachable state the overlay is hidden or shows 3, 2, 1 or GO!, and it is
    shown exactly when the detector is loaded and the button is disabled,
    the button then reading "LOADING AI...". *)
Theorem play_button_matches_guard {number : Type} `{JsNum number} (s : Sys) :
  let s' := Runtime.step (number := number) Runtime.ClickPlay s in
  (View.isReady (ui s) = true <-> Handlers.playRound (ui s) <> [])
  /\ (View.isReady (ui s) = true ->
        countdown (ui s') = Some 3%Z /\ playerMove (ui s') = "?" /\ aiMove (ui s') = "?"
        /\ View.isReady (ui s') = false)
  /\ (View.playDisabled (ui s) = true -> s' = s)
  /\ (Runtime.reachable (number := number) s ->
        View.overlay (ui s) ∈ [View.Hidden; View.Digit 3; View.Digit 2; View.Digit 1; View.Go]
        /\ (View.overlay (ui s) <> View.Hidden <->
              detector (ui s) = true /\ View.playDisabled (ui s) = true)
        /\ (View.overlay (ui s) <> View.Hidden ->
              View.playLabel (ui s) = "LOADING AI...")).
Proof.
  cbv zeta. cbn [Runtime.step].
  assert (Hguard : View.isReady (ui s) = false -> Handlers.playRound (ui s) = []).
  { unfold View.isReady, Handlers.playRound. destruct (detector (ui s)); cbn.
    - destruct (countdown (ui s)); [reflexivity | discriminate].
    - by rewrite orb_true_r. }
  assert (Hready : View.isReady (ui s) = true ->
            countdown (ui s) = None /\ detector (ui s) = true).
  { unfold View.isReady. intros [Hd Hc]%andb_prop. by apply bool_decide_eq_true in Hc. }
  split; [|split; [|split]].
  - split.
    + intros [Hc Hd]%Hready. by rewrite playRound_idle.
    + intros Hne. destruct (View.isReady (ui s)); [reflexivity|].
      destruct Hne. by apply Hguard.
  - intros [Hc Hd]%Hready. rewrite (playRound_idle _ Hc Hd).
    unfold View.isReady.
    rewrite countdown_dispatch, playerMove_dispatch, aiMove_dispatch. cbn.
    by rewrite andb_false_r.
  - unfold View.playDisabled. intros Hdis%negb_true_iff.
    unfold Runtime.dispatch. rewrite (Hguard Hdis). apply commit_same.
  - intros Hr. destruct (reachable_ticking s Hr) as [Hval _].
    pose proof (reachable_quiet s Hr) as Hq.
    unfold View.overlay, View.playLabel, View.playDisabled, View.isReady.
    unfold countdown_values in Hval. rewrite !elem_of_cons, elem_of_nil in Hval.
    destruct Hval as [E | [E | [E | [E | [E | []]]]]]; rewrite E; cbn.
    + split; [in_list|]. split; [|done].
      rewrite andb_true_r. split; [done|]. intros [-> Hd]. discriminate.
    + destruct Hq as [Hd | [Hn _]]; [|congruence]. rewrite Hd.
      split; [in_list|]. by repeat split.
    + destruct Hq as [Hd | [Hn _]]; [|congruence]. rewrite Hd.
      split; [in_list|]. by repeat split.
    + destruct Hq as [Hd | [Hn _]]; [|congruence]. rewrite Hd.
      split; [in_list|]. by repeat split.
    + destruct Hq as [Hd | [Hn _]]; [|congruence]. rewrite Hd.
      split; [in_list|]. by repeat split.
Qed.

Lemma play_button_matches_guard_witness :
  countdown (ui (Runtime.step (number := Z) Runtime.ClickPlay ready)) = Some 3%Z
  /\ playerMove (ui (Runtime.step (number := Z) Runtime.ClickPlay ready)) = "?"
  /\ aiMove (ui (Runtime.step (number := Z) Runtime.ClickPlay ready)) = "?"
  /\ View.isReady (ui (Runtime.step (number := Z) Runtime.ClickPlay ready)) = false.
Proof.
  refine (proj1 (proj2 (play_button_matches_guard (number := Z) ready)) _).
  vm_compute. reflexivity.
Defined.

(** ** The counters along a run *)

Section ScoreFrame.
Import Handlers Runtime.
Context {number : Type} `{JsNum number}.

Lemma capturePose_resume_scores (hands : list (Hand number)) (a : AppState) :
  playerScore (setStates (capturePose_resume hands) a) = playerScore a
  /\ aiScore (setStates (capturePose_resume hands) a) = aiScore a.
Proof.
  unfold capturePose_resume. destruct hands as [|hand rest]; [by split|].
  destruct (AppV2.classifyGesture (Some (keypoints hand))) as [[g|]|]; by split.
Qed.

(** One reveal moves exactly one counter by one, or none. *)
Lemma reveal_scores (g : string) (r : Q) (a : AppState) :
  let a' := setStates (reveal g r) a in
  (playerScore a' = playerScore a /\ aiScore a' = aiScore a)
  \/ (playerScore a' = (playerScore a + 1)%nat /\ aiScore a' = aiScore a)
  \/ (playerScore a' = playerScore a /\ aiScore a' = (aiScore a + 1)%nat).
Proof.
  pose proof (finalizeRound_scores a (g, r)) as Hs. unfold finalizeRound in Hs.
  cbn [fst snd] in Hs. cbv zeta.
  destruct (roundOutcome g (aiChoice r)); tauto.
Qed.
End ScoreFrame.

(** X4. Only Reset and the firing of a reveal timer change a counter: for any
    other event, in any state, both counters are as before; and a reveal
    that changes them adds exactly 1 to exactly one of the two. *)
Theorem only_reveal_and_reset_change_scores {number : Type} `{JsNum number}
    (e : Runtime.Event) (s : Sys) :
  let s' := Runtime.step (number := number) e s in
  playerScore (ui s') <> playerScore (ui s) \/ aiScore (ui s') <> aiScore (ui s) ->
  e = Runtime.ClickReset
  \/ exists r t g, e = Runtime.TimerFires r
       /\ Runtime.earliest (timers s) = Some t /\ callback t = Reveal g
       /\ ((playerScore (ui s') = (playerScore (ui s) + 1)%nat /\ aiScore (ui s') = aiScore (ui s))
           \/ (playerScore (ui s') = playerScore (ui s)
               /\ aiScore (ui s') = (aiScore (ui s) + 1)%nat)).
Proof.
  cbv zeta. destruct e; cbn [Runtime.step];
    rewrite ?playerScore_dispatch, ?aiScore_dispatch; cbn [setStates foldl setState playerScore aiScore];
    try (intros [Hne | Hne]; by destruct Hne).
  - unfold Handlers.playRound. destruct (_ || _); cbn; intros [Hne | Hne]; by destruct Hne.
  - by left.
  - destruct (awaiting s); [intros [Hne | Hne]; by destruct Hne|].
    rewrite playerScore_dispatch, aiScore_dispatch.
    destruct (capturePose_resume_scores hands (ui (Runtime.resolveOne s))) as [-> ->].
    intros [Hne | Hne]; by destruct Hne.
  - destruct (Runtime.earliest (timers s)) as [t|] eqn:Et;
      [|intros [Hne | Hne]; by destruct Hne].
    rewrite playerScore_dispatch, aiScore_dispatch.
    destruct (callback t) as [c| |g] eqn:Ecb; cbn [Handlers.runCallback];
      try (cbn; intros [Hne | Hne]; by destruct Hne).
    intros Hchg. right. exists r, t, g. repeat split; try done.
    destruct (reveal_scores g r (ui (Runtime.fire t s))) as [[Hp Ha] | [[Hp Ha] | [Hp Ha]]];
      cbn [ui Runtime.fire] in *.
    + exfalso. destruct Hchg as [Hne | Hne]; congruence.
    + left. by split.
    + right. by split.
Qed.

Lemma only_reveal_and_reset_change_scores_witness :
  Runtime.TimerFires (number := Z) (5 # 6) = Runtime.ClickReset
  \/ exists r t g, Runtime.TimerFires (number := Z) (5 # 6) = Runtime.TimerFires r
       /\ Runtime.earliest (timers revealing) = Some t /\ callback t = Reveal g
       /\ ((playerScore (ui (Runtime.step (number := Z) (Runtime.TimerFires (5 # 6)) revealing))
            = (playerScore (ui revealing) + 1)%nat
            /\ aiScore (ui (Runtime.step (number := Z) (Runtime.TimerFires (5 # 6)) revealing))
               = aiScore (ui revealing))
           \/ (playerScore (ui (Runtime.step (number := Z) (Runtime.TimerFires (5 # 6)) revealing))
               = playerScore (ui revealing)
               /\ aiScore (ui (Runtime.step (number := Z) (Runtime.TimerFires (5 # 6)) revealing))
                  = (aiScore (ui revealing) + 1)%nat)).
Proof.
  apply (only_reveal_and_reset_change_scores (number := Z) (Runtime.TimerFires (5 # 6)) revealing).
  left. vm_compute. discriminate.
Defined.

Section ScoreLog.
Import Handlers Runtime.
Context {number : Type} `{JsNum number}.

Lemma shown_app (msg : string) (l k : list Action) :
  shown msg (l ++ k) = (shown msg l + shown msg k)%nat.
Proof. unfold shown. by rewrite filter_app, length_app. Qed.

Lemma shown_effects (msg : string) (eff : list Action) :
  msg <> "Analyzing your move..." -> Forall effect_call eff -> shown msg eff = 0%nat.
Proof.
  intros Hmsg Heff. unfold shown. induction Heff as [|a eff Ha _ IH]; [reflexivity|].
  rewrite filter_cons. destruct (decide (shows msg a = true)) as [Hs|Hs]; [|exact IH].
  exfalso. destruct a; cbn in Ha, Hs; try discriminate. subst m.
  apply String.eqb_eq in Hs. congruence.
Qed.

Lemma log_countdownEffect_calls (s : Sys) :
  exists eff, log (countdownEffect s) = log s ++ eff /\ Forall effect_call eff.
Proof.
  unfold countdownEffect.
  destruct (countdown (ui (perform _ s))) as [c|]; [destruct (0 <? c)%Z|];
    cbn [log setCountdownTimer perform]; rewrite <- ?app_assoc;
    eexists; (split; [reflexivity|]); repeat constructor.
Qed.

Lemma log_captureEffect_calls (s : Sys) :
  exists eff, log (captureEffect s) = log s ++ eff /\ Forall effect_call eff.
Proof.
  unfold captureEffect.
  destruct (countdown (ui s)) as [[| |]|]; [destruct (detector (ui s))|..];
    rewrite ?log_performAll;
    try (exists []; rewrite app_nil_r; split; [reflexivity | constructor]).
  eexists; split; [reflexivity|]. repeat constructor.
Qed.

(** What a dispatch adds to the log: the handler's calls, then those of the
    effects it triggers. *)
Lemma log_dispatch_calls (acts : list Action) (s : Sys) :
  exists eff, log (dispatch acts s) = log s ++ acts ++ eff /\ Forall effect_call eff.
Proof.
  unfold dispatch, commit. set (p := performAll acts s).
  destruct (log_countdownEffect_calls p) as (e1 & E1 & F1).
  destruct (log_captureEffect_calls (countdownEffect p)) as (e2 & E2 & F2).
  destruct (log_captureEffect_calls p) as (e3 & E3 & F3).
  assert (Hp : log p = log s ++ acts) by apply log_performAll.
  destruct (bool_decide (countdown (ui s) <> _)), (bool_decide (detector (ui s) <> _));
    cbn [orb].
  - exists (e1 ++ e2). rewrite E2, E1, Hp, <- !app_assoc. split; [reflexivity|].
    apply Forall_app; by split.
  - exists (e1 ++ e2). rewrite E2, E1, Hp, <- !app_assoc. split; [reflexivity|].
    apply Forall_app; by split.
  - exists e3. rewrite E3, Hp, <- !app_assoc. by split.
  - exists []. rewrite Hp, app_nil_r. split; [reflexivity | constructor].
Qed.

Lemma dispatch_scores_as_shown (acts : list Action) (s : Sys) :
  scores_as_shown acts ->
  exists new, log (dispatch acts s) = log s ++ new
    /\ playerScore (ui (dispatch acts s)) = (playerScore (ui s) + shown "YOU WIN! 🎉" new)%nat
    /\ aiScore (ui (dispatch acts s)) = (aiScore (ui s) + shown "AI WINS! 😈" new)%nat.
Proof.
  intros Hacts. destruct (log_dispatch_calls acts s) as (eff & E & F).
  exists (acts ++ eff). split; [exact E|].
  rewrite playerScore_dispatch, aiScore_dispatch, !shown_app.
  rewrite !(shown_effects _ eff) by (done || discriminate).
  destruct (Hacts (ui s)) as [-> ->]. split; lia.
Qed.

Ltac score_calc := cbn; cbv -[Nat.add playerScore aiScore]; split; lia.

Lemma step_scores_as_shown (e : Event) (s : Sys) :
  e <> ClickReset ->
  exists new, log (step (number := number) e s) = log s ++ new
    /\ playerScore (ui (step e s)) = (playerScore (ui s) + shown "YOU WIN! 🎉" new)%nat
    /\ aiScore (ui (step e s)) = (aiScore (ui s) + shown "AI WINS! 😈" new)%nat.
Proof.
  intros He.
  assert (Hnone : forall q : Sys, exists new, log q = log q ++ new
            /\ playerScore (ui q) = (playerScore (ui q) + shown "YOU WIN! 🎉" new)%nat
            /\ aiScore (ui q) = (aiScore (ui q) + shown "AI WINS! 😈" new)%nat).
  { intros q. exists []. rewrite app_nil_r. cbn. repeat split; lia. }
  destruct e; cbn [step]; try contradiction.
  - apply dispatch_scores_as_shown. intros a. score_calc.
  - apply dispatch_scores_as_shown. intros a. score_calc.
  - apply dispatch_scores_as_shown. intros a. score_calc.
  - apply dispatch_scores_as_shown. unfold playRound. intros a.
    destruct (_ || _); score_calc.
  - destruct (awaiting s); [apply Hnone|].
    apply (dispatch_scores_as_shown _ (resolveOne s)). intros a.
    unfold capturePose_resume. destruct hands as [|hand rest]; [score_calc|].
    destruct (AppV2.classifyGesture (Some (keypoints hand))) as [[g|]|]; score_calc.
  - destruct (earliest (timers s)) as [t|]; [|apply Hnone].
    apply (dispatch_scores_as_shown _ (fire t s)). intros a.
    destruct (callback t) as [c| |g]; cbn [runCallback]; try score_calc.
    unfold reveal, revealWith. destruct (roundOutcome g (aiChoice r)); score_calc.
  - exists []. rewrite app_nil_r. cbn. repeat split; lia.
Qed.
End ScoreLog.

(** X5. Along any run without Reset, from any state, the player's counter
    grows by the number of times "YOU WIN!" was set as the result during the
    run, and the AI's counter by the number of times "AI WINS!" was: from
    the initial state each counter is the number of times its message was
    shown. *)
Theorem scores_count_shown_results {number : Type} `{JsNum number}
    (evs : list Runtime.Event) (s : Sys) :
  Forall (fun e => e <> Runtime.ClickReset) evs ->
  exists new, log (Runtime.run (number := number) evs s) = log s ++ new
    /\ playerScore (ui (Runtime.run evs s))
       = (playerScore (ui s) + shown "YOU WIN! 🎉" new)%nat
    /\ aiScore (ui (Runtime.run evs s))
       = (aiScore (ui s) + shown "AI WINS! 😈" new)%nat.
Proof.
  intros Hall. revert s. induction Hall as [|e evs He _ IH]; intros s.
  - exists []. rewrite app_nil_r. cbn. repeat split; lia.
  - destruct (step_scores_as_shown e s He) as (n1 & L1 & P1 & A1).
    destruct (IH (Runtime.step e s)) as (n2 & L2 & P2 & A2).
    exists (n1 ++ n2). change (Runtime.run (e :: evs) s) with (Runtime.run evs (Runtime.step e s)).
    rewrite L2, L1, P2, P1, A2, A1, !shown_app, <- app_assoc. repeat split; lia.
Qed.

Lemma scores_count_shown_results_witness :
  exists new,
    log (Runtime.run (number := Z) (round_script [Build_Hand rock_pose] (5 # 6)) ready)
    = log ready ++ new
    /\ playerScore (ui (Runtime.run (round_script [Build_Hand rock_pose] (5 # 6)) ready))
       = (playerScore (ui ready) + shown "YOU WIN! 🎉" new)%nat
    /\ aiScore (ui (Runtime.run (round_script [Build_Hand rock_pose] (5 # 6)) ready))
       = (aiScore (ui ready) + shown "AI WINS! 😈" new)%nat.
Proof.
  apply (scores_count_shown_results (number := Z)
           (round_script [Build_Hand rock_pose] (5 # 6)) ready).
  unfold round_script. repeat constructor; discriminate.
Defined.

(** ** A whole round *)

Section WholeRound.
Import Handlers Runtime.
Context {number : Type} `{JsNum number}.

(** The only pending timer fires, when it is due or later. *)
Lemma fire_only (t : Timer) (s : Sys) :
  timers s = [t] ->
  fire t s = {| ui := ui s; clock := clock s `max` due t; nextTimerId := nextTimerId s;
                timers := []; countdownTimer := countdownTimer s; awaiting := awaiting s;
                log := log s |}.
Proof.
  intros Ht. unfold fire. rewrite Ht, filter_cons, filter_nil.
  destruct (decide (timer_id t <> timer_id t)) as [Hne|_]; [by destruct Hne|]. reflexivity.
Qed.

(** The one of two pending timers that is due first fires. *)
Lemma fire_first (t1 t2 : Timer) (s : Sys) :
  timers s = [t1; t2] -> (due t1 <= due t2)%nat -> timer_id t1 <> timer_id t2 ->
  earliest (timers s) = Some t1
  /\ fire t1 s = {| ui := ui s; clock := clock s `max` due t1; nextTimerId := nextTimerId s;
                    timers := [t2]; countdownTimer := countdownTimer s;
                    awaiting := awaiting s; log := log s |}.
Proof.
  intros Ht Hdue Hid. split.
  - rewrite Ht. cbn [earliest].
    destruct (Nat.ltb_spec (due t2) (due t1)); [lia | reflexivity].
  - unfold fire. rewrite Ht, !filter_cons, filter_nil.
    destruct (decide (timer_id t1 <> timer_id t1)) as [Hne|_]; [by destruct Hne|].
    destruct (decide (timer_id t2 <> timer_id t1)) as [_|Heq]; [|destruct Heq; congruence].
    reflexivity.
Qed.

(** A handler that changes [countdown] and not [detector] runs both effects. *)
Lemma dispatch_countdown_changed (acts : list Action) (s : Sys) :
  countdown (setStates acts (ui s)) <> countdown (ui s) ->
  dispatch acts s = captureEffect (countdownEffect (performAll acts s)).
Proof.
  intros Hc. unfold dispatch, commit. rewrite ui_performAll.
  rewrite (bool_decide_eq_true_2 (countdown (ui s) <> _)) by congruence. reflexivity.
Qed.
End WholeRound.

Section RoundPhases.
Import Handlers Runtime.
Context {number : Type} `{JsNum number}.

(** PLAY from Idle: the board is cleared, 3 is on display, the first tick is
    due in 1000 ms. *)
Lemma phase_play (pm am res : string) (ps ais clk nid aw : nat) (ct : option nat)
    (lg : list Action) :
  exists lg',
    step (number := number) ClickPlay
      (Build_Sys (Build_AppState true None pm am res ps ais) clk nid [] ct aw lg)
    = Build_Sys (Build_AppState true (Some 3%Z) "?" "?" "Get ready..." ps ais) clk (S nid)
        [Build_Timer nid (clk + 1000) (CountdownTick 3)] (Some nid) aw lg'.
Proof.
  eexists. cbn [step ui]. rewrite playRound_idle by reflexivity.
  rewrite dispatch_countdown_changed by (cbn; discriminate). reflexivity.
Qed.

(** A tick from 3 or 2, fired when due or later: one less on display, the
    next tick due 1000 ms after this one fired. *)
Lemma phase_tick (k : Z) (pm am res : string) (ps ais clk nid i due aw : nat)
    (lg : list Action) (r : Q) :
  k = 3%Z \/ k = 2%Z ->
  exists lg',
    step (number := number) (TimerFires r)
      (Build_Sys (Build_AppState true (Some k) pm am res ps ais) clk nid
         [Build_Timer i due (CountdownTick k)] (Some i) aw lg)
    = Build_Sys (Build_AppState true (Some (k - 1)%Z) pm am res ps ais) (clk `max` due) (S nid)
        [Build_Timer nid (clk `max` due + 1000) (CountdownTick (k - 1))] (Some nid) aw lg'.
Proof.
  intros Hk. eexists. cbn [step timers earliest].
  rewrite fire_only by reflexivity. cbn [callback runCallback].
  destruct Hk as [-> | ->];
    (rewrite dispatch_countdown_changed by (cbn; discriminate)); reflexivity.
Qed.

(** The tick from 1: GO! is on display, no tick is pending, and the capture
    has begun and waits for the detector. *)
Lemma phase_go (pm am res : string) (ps ais clk nid i due aw : nat)
    (lg : list Action) (r : Q) :
  exists lg',
    step (number := number) (TimerFires r)
      (Build_Sys (Build_AppState true (Some 1%Z) pm am res ps ais) clk nid
         [Build_Timer i due (CountdownTick 1)] (Some i) aw lg)
    = Build_Sys (Build_AppState true (Some 0%Z) pm am "Analyzing your move..." ps ais)
        (clk `max` due) nid [] None (S aw) lg'.
Proof.
  eexists. cbn [step timers earliest].
  rewrite fire_only by reflexivity. cbn [callback runCallback].
  rewrite dispatch_countdown_changed by (cbn; discriminate). reflexivity.
Qed.

(** The detector answers with a hand the classifier names [g]: the move is
    stored, the reveal is due in 1200 ms and the return to Idle in 4000 ms. *)
Lemma phase_capture (hand : Hand number) (rest : list (Hand number)) (g : string)
    (c : option Z) (pm am res : string) (ps ais clk nid aw : nat) (ct : option nat)
    (lg : list Action) :
  AppV2.classifyGesture (Some (keypoints hand)) = Normal (Some g) ->
  exists lg',
    step (HandsEstimated (hand :: rest))
      (Build_Sys (Build_AppState true c pm am res ps ais) clk nid [] ct (S aw) lg)
    = Build_Sys (Build_AppState true c g am "AI is choosing..." ps ais) clk (S (S nid))
        [Build_Timer nid (clk + 1200) (Reveal g);
         Build_Timer (S nid) (clk + 4000) ClearCountdown] ct aw lg'.
Proof.
  intros Hg. eexists. cbn [step awaiting capturePose_resume]. rewrite Hg.
  rewrite dispatch_no_effect by reflexivity. reflexivity.
Qed.

(** The reveal fires before the return to Idle, also when both are due. *)
Lemma phase_reveal (g : string) (r : Q) (a : AppState) (clk nid i j d1 d2 aw : nat)
    (ct : option nat) (lg : list Action) :
  (d1 <= d2)%nat -> i <> j ->
  exists lg',
    step (number := number) (TimerFires r)
      (Build_Sys a clk nid [Build_Timer i d1 (Reveal g); Build_Timer j d2 ClearCountdown]
         ct aw lg)
    = Build_Sys (finalizeRound a (g, r)) (clk `max` d1) nid
        [Build_Timer j d2 ClearCountdown] ct aw lg'.
Proof.
  intros Hd Hij. cbn [step].
  destruct (fire_first (Build_Timer i d1 (Reveal g)) (Build_Timer j d2 ClearCountdown)
              (Build_Sys a clk nid [Build_Timer i d1 (Reveal g);
                                    Build_Timer j d2 ClearCountdown] ct aw lg))
    as [-> ->]; try done.
  cbn [callback runCallback]. destruct (reveal_no_tick g r a) as [_ Hcd].
  assert (Hdet : detector (setStates (reveal g r) a) = detector a).
  { unfold reveal, revealWith. destruct (roundOutcome g (aiChoice r)); reflexivity. }
  rewrite dispatch_no_effect by (cbn [ui]; assumption).
  unfold finalizeRound. cbn [fst snd]. unfold reveal, revealWith.
  destruct (roundOutcome g (aiChoice r)); eexists; reflexivity.
Qed.

(** The return to Idle fires last. *)
Lemma phase_idle (k : Z) (pm am res : string) (ps ais clk nid j due aw : nat)
    (ct : option nat) (lg : list Action) (r : Q) :
  exists lg',
    step (number := number) (TimerFires r)
      (Build_Sys (Build_AppState true (Some k) pm am res ps ais) clk nid
         [Build_Timer j due ClearCountdown] ct aw lg)
    = Build_Sys (Build_AppState true None pm am res ps ais) (clk `max` due) nid [] None aw lg'.
Proof.
  eexists. cbn [step timers earliest].
  rewrite fire_only by reflexivity. cbn [callback runCallback].
  rewrite dispatch_countdown_changed by (cbn; discriminate). reflexivity.
Qed.
End RoundPhases.

(** Time passes. *)
Lemma phase_wait {number : Type} `{JsNum number} (d : nat) (a : AppState)
    (clk nid aw : nat) (ts : list Timer) (ct : option nat) (lg : list Action) :
  Runtime.step (number := number) (Runtime.Elapse d) (Build_Sys a clk nid ts ct aw lg)
  = Build_Sys a (clk + d) nid ts ct aw lg.
Proof. reflexivity. Qed.

(** The phases of one round, chained, each event after its wait. *)
Lemma timed_round_runs {number : Type} `{JsNum number}
    (s : Sys) (hand : Hand number) (rest : list (Hand number)) (g : string) (r : Q)
    (w : Timing) :
  detector (ui s) = true -> countdown (ui s) = None ->
  timers s = [] -> awaiting s = 0%nat ->
  AppV2.classifyGesture (Some (keypoints hand)) = Normal (Some g) ->
  let s' := Runtime.run (timed_round_script w (hand :: rest) r) s in
  playerMove (ui s') = g /\ aiMove (ui s') = Handlers.aiChoice r
  /\ result (ui s') = Handlers.winnerText (Handlers.roundOutcome g (Handlers.aiChoice r))
  /\ playerScore (ui s') = playerScore (Handlers.finalizeRound (ui s) (g, r))
  /\ aiScore (ui s') = aiScore (Handlers.finalizeRound (ui s) (g, r))
  /\ detector (ui s') = true /\ countdown (ui s') = None
  /\ timers s' = [] /\ awaiting s' = 0%nat
  /\ clock s' = (clock s + round_time w)%nat.
Proof.
  intros Hd Hc Ht Ha Hg.
  destruct s as [[dt c pm am res ps ais] clk nid ts ct aw lg]. cbn in Hd, Hc, Ht, Ha. subst.
  destruct w as [e3 e2 e1 d e4 e5].
  cbv zeta. unfold timed_round_script, round_time, Runtime.run.
  cbn [foldl ui clock wait_tick3 wait_tick2 wait_tick1 wait_answer wait_reveal wait_idle].
  destruct (phase_play (number := number) pm am res ps ais clk nid 0 ct lg) as [lg1 ->].
  rewrite phase_wait.
  destruct (phase_tick (number := number) 3 "?" "?" "Get ready..." ps ais (clk + e3) (S nid) nid
              (clk + 1000) 0 lg1 0 (or_introl eq_refl)) as [lg2 ->].
  change (3 - 1)%Z with 2%Z. rewrite phase_wait.
  set (t1 := ((clk + e3) `max` (clk + 1000))%nat).
  destruct (phase_tick (number := number) 2 "?" "?" "Get ready..." ps ais (t1 + e2)
              (S (S nid)) (S nid) (t1 + 1000) 0 lg2 0 (or_intror eq_refl)) as [lg3 ->].
  change (2 - 1)%Z with 1%Z. rewrite phase_wait.
  set (t2 := ((t1 + e2) `max` (t1 + 1000))%nat).
  destruct (phase_go (number := number) "?" "?" "Get ready..." ps ais (t2 + e1)
              (S (S (S nid))) (S (S nid)) (t2 + 1000) 0 lg3 0) as [lg4 ->].
  rewrite phase_wait.
  set (t3 := ((t2 + e1) `max` (t2 + 1000))%nat).
  destruct (phase_capture hand rest g (Some 0%Z) "?" "?" "Analyzing your move..." ps ais
              (t3 + d) (S (S (S nid))) 0 None lg4 Hg) as [lg5 ->].
  rewrite phase_wait.
  destruct (phase_reveal (number := number) g r
              (Build_AppState true (Some 0%Z) g "?" "AI is choosing..." ps ais)
              (t3 + d + e4) (S (S (S (S (S nid))))) (S (S (S nid)))
              (S (S (S (S nid)))) (t3 + d + 1200) (t3 + d + 4000) 0 None lg5
              ltac:(lia) ltac:(lia)) as [lg6 ->].
  rewrite phase_wait.
  unfold Handlers.finalizeRound, Handlers.reveal, Handlers.revealWith. cbn [fst snd].
  destruct (Handlers.roundOutcome g (Handlers.aiChoice r));
    cbn [setStates foldl setState Handlers.branchActions app detector countdown playerMove
         aiMove result playerScore aiScore];
    match goal with
    | |- context [Runtime.step _ (Build_Sys (Build_AppState _ _ ?pm' ?am' ?res' ?ps' ?ais')
                                   ?c' ?n' [Build_Timer ?j' ?d' _] _ _ ?l')] =>
        destruct (phase_idle (number := number) 0 pm' am' res' ps' ais' c' n' j' d' 0 None l' 0)
          as [lg7 ->]
    end;
    cbn [ui clock timers awaiting detector countdown playerMove aiMove result
         playerScore aiScore];
    repeat split; subst t1 t2 t3; lia.
Qed.

(** X6. A round played from Idle with the detector loaded and nothing pending
    runs to its end, whatever the waits [w]: the time the detector takes to
    answer and the time by which each timer fires late.  PLAY, three ticks,
    the detector's answer with a hand the classifier names [g], the reveal
    with draw [r], the return to Idle.  It ends showing [g] and the drawn AI
    move with the result of the branch taken, the counters moved as one
    finalized round moves them, the phase Idle again with no timer and no
    detection pending (so the next round can start the same way).  Each tick
    is registered when the one before has fired and the timers of the
    capture when the detector has answered, so the round takes
    [round_time w]: never less than 3000 ms, the answer time and 4000 ms,
    and just that when every timer fires when due. *)
Theorem round_runs_to_completion {number : Type} `{JsNum number}
    (s : Sys) (hand : Hand number) (rest : list (Hand number)) (g : string) (r : Q)
    (w : Timing) :
  detector (ui s) = true -> countdown (ui s) = None ->
  timers s = [] -> awaiting s = 0%nat ->
  AppV2.classifyGesture (Some (keypoints hand)) = Normal (Some g) ->
  let s' := Runtime.run (timed_round_script w (hand :: rest) r) s in
  playerMove (ui s') = g /\ aiMove (ui s') = Handlers.aiChoice r
  /\ result (ui s') = Handlers.winnerText (Handlers.roundOutcome g (Handlers.aiChoice r))
  /\ playerScore (ui s') = playerScore (Handlers.finalizeRound (ui s) (g, r))
  /\ aiScore (ui s') = aiScore (Handlers.finalizeRound (ui s) (g, r))
  /\ detector (ui s') = true /\ countdown (ui s') = None
  /\ timers s' = [] /\ awaiting s' = 0%nat
  /\ clock s' = (clock s + round_time w)%nat
  /\ (clock s + 3 * 1000 + wait_answer w + 4000 <= clock s')%nat
  /\ (forall d : nat, round_time (punctual d) = (3 * 1000 + d + 4000)%nat).
Proof.
  intros Hd Hc Ht Ha Hg.
  destruct (timed_round_runs s hand rest g r w Hd Hc Ht Ha Hg)
    as (H1 & H2 & H3 & H4 & H5 & H6 & H7 & H8 & H9 & H10).
  cbv zeta. do 10 (split; [assumption|]). split.
  - rewrite H10. unfold round_time. lia.
  - intros d. unfold round_time, punctual; cbn [wait_tick3 wait_tick2 wait_tick1 wait_answer
      wait_reveal wait_idle]. lia.
Qed.

Lemma round_runs_to_completion_witness :
  let w := {| wait_tick3 := 1004; wait_tick2 := 0; wait_tick1 := 1010; wait_answer := 180;
              wait_reveal := 5000; wait_idle := 2 |} in
  let s' := Runtime.run (timed_round_script w (Build_Hand scissors_pose :: []) (1 # 10)) ready in
  playerMove (ui s') = "Scissors ✌️" /\ aiMove (ui s') = Handlers.aiChoice (1 # 10)
  /\ result (ui s')
     = Handlers.winnerText (Handlers.roundOutcome "Scissors ✌️" (Handlers.aiChoice (1 # 10)))
  /\ playerScore (ui s') = playerScore (Handlers.finalizeRound (ui ready) ("Scissors ✌️", 1 # 10))
  /\ aiScore (ui s') = aiScore (Handlers.finalizeRound (ui ready) ("Scissors ✌️", 1 # 10))
  /\ detector (ui s') = true /\ countdown (ui s') = None
  /\ timers s' = [] /\ awaiting s' = 0%nat
  /\ clock s' = (clock ready + round_time w)%nat
  /\ (clock ready + 3 * 1000 + wait_answer w + 4000 <= clock s')%nat
  /\ (forall d : nat, round_time (punctual d) = (3 * 1000 + d + 4000)%nat).
Proof.
  intros w.
  apply (round_runs_to_completion (number := Z) ready (Build_Hand scissors_pose) []
           "Scissors ✌️" (1 # 10) w); reflexivity.
Defined.

Section Match.
Import Handlers Runtime.
Context {number : Type} `{JsNum number}.

(** The counters after finalized rounds depend on the counters before only. *)
Lemma finalizeRounds_scores_only (rounds : list (string * Q)) (a b : AppState) :
  playerScore a = playerScore b -> aiScore a = aiScore b ->
  playerScore (finalizeRounds rounds a) = playerScore (finalizeRounds rounds b)
  /\ aiScore (finalizeRounds rounds a) = aiScore (finalizeRounds rounds b).
Proof.
  revert a b. induction rounds as [|round rounds IH]; intros a b Hp Ha; [by split|].
  apply (IH (finalizeRound a round) (finalizeRound b round)).
  - pose proof (finalizeRound_scores a round) as Sa.
    pose proof (finalizeRound_scores b round) as Sb.
    destruct (roundOutcome round.1 (aiChoice round.2));
      destruct Sa as [-> _], Sb as [-> _]; lia.
  - pose proof (finalizeRound_scores a round) as Sa.
    pose proof (finalizeRound_scores b round) as Sb.
    destruct (roundOutcome round.1 (aiChoice round.2));
      destruct Sa as [_ ->], Sb as [_ ->]; lia.
Qed.

Lemma run_app (l k : list Event) (s : Sys) :
  run (number := number) (l ++ k) s = run k (run l s).
Proof. unfold run. by rewrite foldl_app. Qed.
End Match.

(** X7. Rounds played one after the other from rest, each to its end and
    each with its own waits (the detector's answer time, the lateness of
    each timer), leave the counters where folding the reveal over the rounds
    leaves them: with draws in [0,1), the player's counter has grown by the
    number of rounds the player's move beat the drawn one and the AI's by
    the number it was beaten; the machine is at rest again, after the sum of
    the rounds' times, which is 7000 ms per round or more. *)
Theorem match_scores_and_time {number : Type} `{JsNum number}
    (plays : list (Hand number * string * Q * Timing)) (s : Sys) :
  at_rest s ->
  Forall (fun p => AppV2.classifyGesture (Some (keypoints p.1.1.1)) = Normal (Some p.1.1.2))
    plays ->
  let s' := Runtime.run (timed_match_script plays) s in
  at_rest s'
  /\ clock s' = (clock s + sum_list ((fun p => round_time p.2) <$> plays))%nat
  /\ (clock s + 7 * 1000 * length plays <= clock s')%nat
  /\ playerScore (ui s') = playerScore (Handlers.finalizeRounds (rounds_of (fst <$> plays)) (ui s))
  /\ aiScore (ui s') = aiScore (Handlers.finalizeRounds (rounds_of (fst <$> plays)) (ui s))
  /\ (Forall (fun p => (0 <= p.1.2 < 1)%Q) plays ->
      playerScore (ui s')
      = (playerScore (ui s) + Spec.wins (Handlers.played (rounds_of (fst <$> plays))))%nat
      /\ aiScore (ui s')
         = (aiScore (ui s) + Spec.losses (Handlers.played (rounds_of (fst <$> plays))))%nat).
Proof.
  intros Hrest Hall. cbv zeta.
  assert (Hmain : at_rest (Runtime.run (timed_match_script plays) s)
    /\ clock (Runtime.run (timed_match_script plays) s)
       = (clock s + sum_list ((fun p => round_time p.2) <$> plays))%nat
    /\ playerScore (ui (Runtime.run (timed_match_script plays) s))
       = playerScore (Handlers.finalizeRounds (rounds_of (fst <$> plays)) (ui s))
    /\ aiScore (ui (Runtime.run (timed_match_script plays) s))
       = aiScore (Handlers.finalizeRounds (rounds_of (fst <$> plays)) (ui s))).
  { revert s Hrest. induction Hall as [|[[[hand g] r] w] plays Hg _ IH]; intros s Hrest.
    - cbn. repeat split; try apply Hrest. lia.
    - cbn [fst snd] in Hg.
      change (timed_match_script ((((hand, g), r), w) :: plays))
        with (timed_round_script w [hand] r ++ timed_match_script plays).
      rewrite run_app.
      destruct Hrest as (Hd & Hc & Ht & Ha).
      destruct (timed_round_runs s hand [] g r w Hd Hc Ht Ha Hg)
        as (_ & _ & _ & Hp & Hai & Hd' & Hc' & Ht' & Ha' & Hclk).
      destruct (IH (Runtime.run (timed_round_script w [hand] r) s)) as (Hr & Hk & Hps & Has);
        [by repeat split|].
      split; [exact Hr|]. rewrite Hk, Hps, Has, Hclk.
      split; [rewrite fmap_cons; cbn [sum_list snd]; unfold id; lia|].
      rewrite fmap_cons. cbn [fst].
      change (rounds_of (((hand, g), r) :: (fst <$> plays)))
        with ((g, r) :: rounds_of (fst <$> plays)).
      change (Handlers.finalizeRounds ((g, r) :: rounds_of (fst <$> plays)) (ui s))
        with (Handlers.finalizeRounds (rounds_of (fst <$> plays))
                (Handlers.finalizeRound (ui s) (g, r))).
      by apply finalizeRounds_scores_only. }
  destruct Hmain as (Hr & Hk & Hps & Has). do 2 (split; [assumption|]).
  split.
  { rewrite Hk. clear. induction plays as [|[[[hand g] r] w] plays IH]; [cbn; lia|].
    rewrite fmap_cons. cbn [length sum_list snd] in *. unfold id in *.
    unfold round_time at 1. lia. }
  do 2 (split; [assumption|]).
  intros Hdraws. rewrite Hps, Has. apply finalizeRounds_counts.
  clear -Hall Hdraws. induction Hall as [|[[[hand g] r] w] plays Hg _ IH]; [constructor|].
  apply Forall_cons in Hdraws as [Hr Hdraws]. rewrite fmap_cons.
  constructor; [|by apply IH].
  split; [|exact Hr]. cbn [fst snd] in *. by apply classifyGesture_move in Hg.
Qed.

Lemma match_scores_and_time_witness :
  let s' := Runtime.run (timed_match_script timed_sample_plays) ready in
  at_rest s'
  /\ clock s' = (clock ready + sum_list ((fun p => round_time p.2) <$> timed_sample_plays))%nat
  /\ (clock ready + 7 * 1000 * length timed_sample_plays <= clock s')%nat
  /\ playerScore (ui s')
     = playerScore (Handlers.finalizeRounds (rounds_of (fst <$> timed_sample_plays)) (ui ready))
  /\ aiScore (ui s')
     = aiScore (Handlers.finalizeRounds (rounds_of (fst <$> timed_sample_plays)) (ui ready))
  /\ (Forall (fun p => (0 <= p.1.2 < 1)%Q) timed_sample_plays ->
      playerScore (ui s')
      = (playerScore (ui ready)
         + Spec.wins (Handlers.played (rounds_of (fst <$> timed_sample_plays))))%nat
      /\ aiScore (ui s')
         = (aiScore (ui ready)
            + Spec.losses (Handlers.played (rounds_of (fst <$> timed_sample_plays))))%nat).
Proof.
  apply (match_scores_and_time timed_sample_plays ready).
  - by repeat split.
  - repeat constructor.
Defined.

(** * The overlay loop *)

Section OverlayFacts.
Context {number : Type}.

Lemma count_ops_app (P : (CanvasOp number) -> bool) (l k : list (CanvasOp number)) :
  count_ops P (l ++ k) = (count_ops P l + count_ops P k)%nat.
Proof. unfold count_ops. by rewrite filter_app, length_app. Qed.

Lemma bind_normal {A B : Type} (l : list (CanvasOp number)) (a : A) (f : A -> traced (CanvasOp number) B) :
  mbind (M := traced (CanvasOp number)) f (l, Normal a) = (l ++ (f a).1, (f a).2).
Proof. cbn. by destruct (f a). Qed.

(** A callback that never throws: [forEach] makes its calls for every element. *)
Lemma forEach_total {A : Type} (f : A -> traced (CanvasOp number) unit) (g : A -> list (CanvasOp number)) (l : list A) :
  (forall a, f a = (g a, Normal tt)) ->
  forEach f l = (flat_map g l, Normal tt).
Proof.
  intros Hf. induction l as [|a l IH]; [reflexivity|].
  cbn [forEach flat_map]. rewrite Hf, bind_normal, IH. reflexivity.
Qed.

Lemma drawConnection_in_range (kps : list (Keypoint number)) (c : nat * nat)
    (ki kj : Keypoint number) :
  kps !! c.1 = Some ki -> kps !! c.2 = Some kj ->
  drawConnection kps c
  = ([BeginPath; MoveTo (kp_x ki) (kp_y ki); LineTo (kp_x kj) (kp_y kj); Stroke], Normal tt).
Proof. intros Hi Hj. unfold drawConnection. rewrite Hi, Hj. reflexivity. Qed.

(** Whatever the pose, a connection makes at most these calls, none of them a
    fill or a frame request; it throws when an end is missing. *)
Lemma drawConnection_calls (kps : list (Keypoint number)) (c : nat * nat) :
  count_ops is_fill (drawConnection kps c).1 = 0%nat
  /\ count_ops is_frame_request (drawConnection kps c).1 = 0%nat
  /\ (kps !! c.1 = None \/ kps !! c.2 = None -> (drawConnection kps c).2 = TypeError).
Proof.
  unfold drawConnection.
  destruct (kps !! c.1) as [ki|], (kps !! c.2) as [kj|]; cbn;
    repeat split; try reflexivity; intros [E | E]; congruence.
Qed.

Lemma forEach_connections (kps : list (Keypoint number)) (cs : list (nat * nat)) :
  let res := forEach (drawConnection kps) cs in
  count_ops is_fill res.1 = 0%nat
  /\ count_ops is_frame_request res.1 = 0%nat
  /\ ((forall c, c ∈ cs -> (c.1 < length kps)%nat /\ (c.2 < length kps)%nat) ->
      res.2 = Normal tt /\ count_ops is_stroke res.1 = length cs)
  /\ ((exists c, c ∈ cs /\ ((length kps <= c.1)%nat \/ (length kps <= c.2)%nat)) ->
      res.2 = TypeError).
Proof.
  cbv zeta. induction cs as [|c cs IH].
  - cbn. repeat split; try reflexivity. intros (c & Hin & _). by apply elem_of_nil in Hin.
  - destruct IH as (IHf & IHr & IHok & IHthrow).
    destruct (drawConnection_calls kps c) as (Cf & Cr & Cthrow).
    cbn [forEach].
    destruct (drawConnection kps c) as [l [[]|]] eqn:Ec; cbn [fst snd] in *.
    + rewrite bind_normal. cbn [fst snd]. rewrite !count_ops_app, Cf, Cr, IHf, IHr.
      split; [reflexivity|]. split; [reflexivity|]. split.
      * intros Hall.
        destruct (IHok (fun c' Hc' => Hall c' (list_elem_of_further _ _ _ Hc'))) as [-> Hn].
        split; [reflexivity|]. rewrite Hn.
        destruct (Hall c (list_elem_of_here _ _)) as [Hi Hj].
        destruct (lookup_lt_is_Some_2 kps c.1 Hi) as [ki Eki].
        destruct (lookup_lt_is_Some_2 kps c.2 Hj) as [kj Ekj].
        rewrite (drawConnection_in_range kps c ki kj Eki Ekj) in Ec.
        injection Ec as <-. reflexivity.
      * intros (c' & Hin & Hout). apply elem_of_cons in Hin as [-> | Hin].
        -- exfalso. assert (Normal tt = @TypeError unit) as Habs; [|discriminate].
           apply Cthrow. destruct Hout as [Ho | Ho]; [left | right]; by apply lookup_ge_None.
        -- apply IHthrow. by exists c'.
    + unfold mbind, traced_bind. cbn [fst snd]. rewrite Cf, Cr.
      split; [reflexivity|]. split; [reflexivity|]. split; [|reflexivity].
      intros Hall. exfalso.
      destruct (Hall c (list_elem_of_here _ _)) as [Hi Hj].
      destruct (lookup_lt_is_Some_2 kps c.1 Hi) as [ki Eki].
      destruct (lookup_lt_is_Some_2 kps c.2 Hj) as [kj Ekj].
      rewrite (drawConnection_in_range kps c ki kj Eki Ekj) in Ec. discriminate.
Qed.

(** Every end of the skeleton is a landmark index, and 20 is one of them. *)
Lemma connections_range (c : nat * nat) :
  c ∈ connections -> (c.1 < 21)%nat /\ (c.2 < 21)%nat.
Proof.
  unfold connections. rewrite !elem_of_cons, elem_of_nil.
  intros Hc. repeat (destruct Hc as [-> | Hc]; [cbn; lia|]). destruct Hc.
Qed.

Lemma skeleton (kps : list (Keypoint number)) :
  let res := forEach (drawConnection kps) connections in
  count_ops is_fill res.1 = 0%nat
  /\ count_ops is_frame_request res.1 = 0%nat
  /\ ((21 <= length kps)%nat -> res.2 = Normal tt /\ count_ops is_stroke res.1 = 21%nat)
  /\ ((length kps < 21)%nat -> res.2 = TypeError).
Proof.
  destruct (forEach_connections kps connections) as (Hf & Hr & Hok & Hthrow).
  cbv zeta. split; [exact Hf|]. split; [exact Hr|]. split.
  - intros Hlen. apply Hok. intros c Hc. apply connections_range in Hc. lia.
  - intros Hlen. apply Hthrow. exists (19, 20)%nat. split; [unfold connections; in_list|].
    right. cbn. lia.
Qed.

Lemma count_ops_cons (P : (CanvasOp number) -> bool) (op : CanvasOp number)
    (l : list (CanvasOp number)) :
  count_ops P (op :: l) = ((if P op then 1 else 0) + count_ops P l)%nat.
Proof.
  unfold count_ops. rewrite filter_cons. destruct (P op); cbn.
  - rewrite decide_True by done. reflexivity.
  - rewrite decide_False by done. reflexivity.
Qed.

Lemma count_ops_nil (P : (CanvasOp number) -> bool) : count_ops P [] = 0%nat.
Proof. reflexivity. Qed.

(** A point callback that never throws and fills once: one fill for each
    keypoint, no stroke and no frame request. *)
Lemma forEach_points (f : Keypoint number -> traced (CanvasOp number) unit)
    (g : Keypoint number -> list (CanvasOp number)) (kps : list (Keypoint number)) :
  (forall p, f p = (g p, Normal tt)) ->
  (forall p, count_ops is_fill (g p) = 1%nat
             /\ count_ops is_stroke (g p) = 0%nat
             /\ count_ops is_frame_request (g p) = 0%nat) ->
  exists l, forEach f kps = (l, Normal tt)
    /\ count_ops is_fill l = length kps
    /\ count_ops is_stroke l = 0%nat
    /\ count_ops is_frame_request l = 0%nat.
Proof.
  intros Hf Hg. exists (flat_map g kps). split; [by apply forEach_total|].
  induction kps as [|p kps (IHf & IHs & IHr)]; [by repeat split|].
  destruct (Hg p) as (Gf & Gs & Gr).
  cbn [flat_map length]. rewrite !count_ops_app, Gf, Gs, Gr, IHf, IHs, IHr.
  by repeat split.
Qed.

Lemma drawPointV1_calls (kps : list (Keypoint number)) :
  exists l, forEach drawPointV1 kps = (l, Normal tt)
    /\ count_ops is_fill l = length kps
    /\ count_ops is_stroke l = 0%nat
    /\ count_ops is_frame_request l = 0%nat.
Proof.
  apply (forEach_points drawPointV1 (fun p => (drawPointV1 p).1)).
  - intros p. reflexivity.
  - intros p. by repeat split.
Qed.

Lemma drawPointV2_calls (kps : list (Keypoint number)) :
  exists l, forEach drawPointV2 kps = (l, Normal tt)
    /\ count_ops is_fill l = length kps
    /\ count_ops is_stroke l = 0%nat
    /\ count_ops is_frame_request l = 0%nat.
Proof.
  apply (forEach_points drawPointV2 (fun p => (drawPointV2 p).1)).
  - intros p. reflexivity.
  - intros p. by repeat split.
Qed.

Ltac count_calls :=
  repeat first [rewrite count_ops_app | rewrite count_ops_cons | rewrite count_ops_nil];
  cbn [is_stroke is_fill is_frame_request].

(** X8 (lines 404-461, second component).  One pass of the overlay loop
    clears the canvas first.  With no hand in the frame it makes no other
    call than the request for the next frame.  With a hand of at least 21
    keypoints (whatever further hands follow) it returns normally, having
    stroked the 21 connections, filled one disc for each keypoint and
    requested the next frame exactly once, as its last call.  With a first
    hand of fewer than 21 keypoints it throws while drawing the connections:
    no disc is filled and no next frame is requested, so the loop stops. *)
Theorem detectAndDrawV2_pass (hands : list (Hand number)) :
  (exists l, (detectAndDrawV2 hands).1 = ClearRect 0 0 640 480 :: l)
  /\ (hands = [] ->
      detectAndDrawV2 hands = ([ClearRect 0 0 640 480; RequestAnimationFrame], Normal tt))
  /\ (forall hand rest, hands = hand :: rest ->
      ((21 <= length (keypoints hand))%nat ->
         (detectAndDrawV2 hands).2 = Normal tt
         /\ count_ops is_stroke (detectAndDrawV2 hands).1 = 21%nat
         /\ count_ops is_fill (detectAndDrawV2 hands).1 = length (keypoints hand)
         /\ count_ops is_frame_request (detectAndDrawV2 hands).1 = 1%nat
         /\ last (detectAndDrawV2 hands).1 = Some RequestAnimationFrame)
      /\ ((length (keypoints hand) < 21)%nat ->
         (detectAndDrawV2 hands).2 = TypeError
         /\ count_ops is_fill (detectAndDrawV2 hands).1 = 0%nat
         /\ count_ops is_frame_request (detectAndDrawV2 hands).1 = 0%nat)).
Proof.
  split; [|split].
  - unfold detectAndDrawV2. destruct hands as [|hand rest]; [by eexists|].
    destruct (forEach (drawConnection (keypoints hand)) connections) as [ls [[]|]];
      destruct (forEach drawPointV2 (keypoints hand)) as [lp [[]|]]; by eexists.
  - intros ->. reflexivity.
  - intros hand rest ->. unfold detectAndDrawV2.
    destruct (skeleton (keypoints hand)) as (Sf & Sr & Sok & Sthrow). cbv zeta in *.
    destruct (drawPointV2_calls (keypoints hand)) as (lp & -> & Pf & Ps & Pr).
    destruct (forEach (drawConnection (keypoints hand)) connections) as [ls r];
      cbn [fst snd] in *.
    split; intros Hlen.
    + destruct (Sok Hlen) as [-> Sn]. cbn -[count_ops last].
      split; [reflexivity|]. count_calls. rewrite Sn, Sf, Sr, Pf, Ps, Pr.
      split; [reflexivity|]. split; [lia|]. split; [lia|].
      repeat first [rewrite last_cons | rewrite last_app]. reflexivity.
    + rewrite (Sthrow Hlen). cbn -[count_ops last].
      split; [reflexivity|]. count_calls. rewrite Sf, Sr. by split.
Qed.

(** X9 (lines 53-106, first component).  The same holds for the overlay loop
    of the first component: the canvas is cleared first; with no hand only
    the next frame is requested; a hand of at least 21 keypoints gives 21
    strokes, one filled disc for each keypoint and exactly one request for
    the next frame, made last; a first hand of fewer than 21 keypoints makes
    the pass throw before any disc and without requesting another frame. *)
Theorem detectAndDrawV1_pass (hands : list (Hand number)) :
  (exists l, (detectAndDrawV1 hands).1 = ClearRect 0 0 640 480 :: l)
  /\ (hands = [] ->
      detectAndDrawV1 hands = ([ClearRect 0 0 640 480; RequestAnimationFrame], Normal tt))
  /\ (forall hand rest, hands = hand :: rest ->
      ((21 <= length (keypoints hand))%nat ->
         (detectAndDrawV1 hands).2 = Normal tt
         /\ count_ops is_stroke (detectAndDrawV1 hands).1 = 21%nat
         /\ count_ops is_fill (detectAndDrawV1 hands).1 = length (keypoints hand)
         /\ count_ops is_frame_request (detectAndDrawV1 hands).1 = 1%nat
         /\ last (detectAndDrawV1 hands).1 = Some RequestAnimationFrame)
      /\ ((length (keypoints hand) < 21)%nat ->
         (detectAndDrawV1 hands).2 = TypeError
         /\ count_ops is_fill (detectAndDrawV1 hands).1 = 0%nat
         /\ count_ops is_frame_request (detectAndDrawV1 hands).1 = 0%nat)).
Proof.
  split; [|split].
  - unfold detectAndDrawV1. destruct hands as [|hand rest]; [by eexists|].
    destruct (forEach (drawConnection (keypoints hand)) connections) as [ls [[]|]];
      destruct (forEach drawPointV1 (keypoints hand)) as [lp [[]|]]; by eexists.
  - intros ->. reflexivity.
  - intros hand rest ->. unfold detectAndDrawV1.
    destruct (skeleton (keypoints hand)) as (Sf & Sr & Sok & Sthrow). cbv zeta in *.
    destruct (drawPointV1_calls (keypoints hand)) as (lp & -> & Pf & Ps & Pr).
    destruct (forEach (drawConnection (keypoints hand)) connections) as [ls r];
      cbn [fst snd] in *.
    split; intros Hlen.
    + destruct (Sok Hlen) as [-> Sn]. cbn -[count_ops last].
      split; [reflexivity|]. count_calls. rewrite Sn, Sf, Sr, Pf, Ps, Pr.
      split; [reflexivity|]. split; [lia|]. split; [lia|].
      repeat first [rewrite last_cons | rewrite last_app]. reflexivity.
    + rewrite (Sthrow Hlen). cbn -[count_ops last].
      split; [reflexivity|]. count_calls. rewrite Sf, Sr. by split.
Qed.
End OverlayFacts.

(** * The classifier of the first component, and what both classifiers read *)

Section ClassifierReads.
Context {number : Type} `{JsNum number}.

Lemma prop_y_fmap (a b : option (Keypoint number)) :
  kp_y <$> a = kp_y <$> b -> prop_y a = prop_y b.
Proof. destruct a, b; cbn; congruence. Qed.

(** A pose without landmark 20 makes the first classifier throw. *)
Lemma classifyGestureV1_short (pose : list (Keypoint number)) :
  (length pose < 21)%nat -> AppV1.classifyGesture pose = TypeError.
Proof.
  intros Hlen. assert (E20 : pose !! 20%nat = None) by (apply lookup_ge_None; lia).
  unfold AppV1.classifyGesture. rewrite E20.
  destruct (pose !! 0%nat) as [k0|]; [|reflexivity].
  destruct (pose !! 4%nat), (pose !! 8%nat), (pose !! 12%nat), (pose !! 16%nat); reflexivity.
Qed.

(** With landmarks 0 to 20 it returns a move of [AppV1.moves], or [null]. *)
Lemma classifyGestureV1_long (pose : list (Keypoint number)) :
  (21 <= length pose)%nat ->
  exists g, AppV1.classifyGesture pose = Normal g /\ (forall m, g = Some m -> m ∈ AppV1.moves).
Proof.
  intros Hlen.
  destruct (lookup_in_pose pose 0 Hlen) as [k0 E0]; [lia|].
  destruct (lookup_in_pose pose 4 Hlen) as [k4 E4]; [lia|].
  destruct (lookup_in_pose pose 8 Hlen) as [k8 E8]; [lia|].
  destruct (lookup_in_pose pose 12 Hlen) as [k12 E12]; [lia|].
  destruct (lookup_in_pose pose 16 Hlen) as [k16 E16]; [lia|].
  destruct (lookup_in_pose pose 20 Hlen) as [k20 E20]; [lia|].
  unfold AppV1.classifyGesture. rewrite E0, E4, E8, E12, E16, E20.
  cbn [prop_y mbind completion_bind mapC].
  destruct (num_lt (kp_y k4) _), (num_lt (kp_y k8) _), (num_lt (kp_y k12) _),
           (num_lt (kp_y k16) _), (num_lt (kp_y k20) _);
    cbn; try destruct (num_gt _ _);
    eexists; (split; [reflexivity|]); intros m [= <-]; unfold AppV1.moves; in_list.
Qed.

(** The first classifier reads the heights of landmarks 0, 4, 8, 12, 16 and
    20 and nothing else. *)
Lemma classifyGestureV1_ext (p q : list (Keypoint number)) :
  (forall i, i ∈ [0; 4; 8; 12; 16; 20]%nat -> kp_y <$> p !! i = kp_y <$> q !! i) ->
  AppV1.classifyGesture p = AppV1.classifyGesture q.
Proof.
  intros Heq. unfold AppV1.classifyGesture. cbn [mapC].
  rewrite !(prop_y_fmap (p !! 0%nat) (q !! 0%nat)), !(prop_y_fmap (p !! 4%nat) (q !! 4%nat)),
    !(prop_y_fmap (p !! 8%nat) (q !! 8%nat)), !(prop_y_fmap (p !! 12%nat) (q !! 12%nat)),
    !(prop_y_fmap (p !! 16%nat) (q !! 16%nat)), !(prop_y_fmap (p !! 20%nat) (q !! 20%nat))
    by (apply Heq; in_list).
  reflexivity.
Qed.

(** The second one reads the number of landmarks and the heights of
    landmarks 0, 8, 12, 16 and 20. *)
Lemma classifyGestureV2_ext (p q : list (Keypoint number)) :
  length p = length q ->
  (forall i, i ∈ [0; 8; 12; 16; 20]%nat -> kp_y <$> p !! i = kp_y <$> q !! i) ->
  AppV2.classifyGesture (Some p) = AppV2.classifyGesture (Some q).
Proof.
  intros Hlen Heq. unfold AppV2.classifyGesture. rewrite Hlen.
  rewrite !(prop_y_fmap (p !! 0%nat) (q !! 0%nat)),
    !(prop_y_fmap (p !! 8%nat) (q !! 8%nat)), !(prop_y_fmap (p !! 12%nat) (q !! 12%nat)),
    !(prop_y_fmap (p !! 16%nat) (q !! 16%nat)), !(prop_y_fmap (p !! 20%nat) (q !! 20%nat))
    by (apply Heq; in_list).
  reflexivity.
Qed.
End ClassifierReads.

(** X10 (lines 110-126, first component).  The classifier of the first
    component throws exactly on the poses of fewer than 21 landmarks (where
    the second one returns [null]).  When it returns, the result is [null] or
    one of the three labels of [moves], and it is the result on the first 21
    landmarks. *)
Theorem classifyGestureV1_throws_iff_short
    {number : Type} `{JsNum number} (pose : list (Keypoint number)) :
  (AppV1.classifyGesture pose = TypeError <-> (length pose < 21)%nat)
  /\ ((length pose < 21)%nat -> AppV2.classifyGesture (Some pose) = Normal None)
  /\ (forall g, AppV1.classifyGesture pose = Normal g ->
        AppV1.classifyGesture (take 21 pose) = Normal g
        /\ forall m, g = Some m -> m ∈ AppV1.moves).
Proof.
  destruct (decide (21 <= length pose)%nat) as [Hlen | Hlen].
  - destruct (classifyGestureV1_long pose Hlen) as (g & Eg & Hg).
    split; [|split].
    + rewrite Eg. split; [discriminate | lia].
    + lia.
    + intros g'. rewrite Eg. intros [= <-]. split; [|exact Hg].
      rewrite <- Eg. apply classifyGestureV1_ext. intros i Hi.
      rewrite lookup_take_lt; [reflexivity|].
      repeat (apply elem_of_cons in Hi as [->|Hi]; [lia|]). by apply elem_of_nil in Hi.
  - assert (Hshort : (length pose < 21)%nat) by lia.
    split; [|split].
    + split; [done | intros _; by apply classifyGestureV1_short].
    + intros _. unfold AppV2.classifyGesture.
      replace (length pose <? 21)%nat with true by (symmetry; apply Nat.ltb_lt; lia).
      reflexivity.
    + intros g. by rewrite classifyGestureV1_short.
Qed.

(** X11 (lines 110-126 and 375-395).  The classifiers read nothing of a pose
    but the heights of the wrist and of the fingertips: two poses of the same
    length whose landmarks 0, 4, 8, 12, 16 and 20 have the same [y] get the
    same result from the first classifier, and the second one needs this of
    landmarks 0, 8, 12, 16 and 20 only.  No [x] coordinate and no other
    landmark has any influence. *)
Theorem classifiers_read_tip_heights
    {number : Type} `{JsNum number} (p q : list (Keypoint number)) :
  length p = length q ->
  ((forall i, i ∈ [0; 4; 8; 12; 16; 20]%nat -> kp_y <$> p !! i = kp_y <$> q !! i) ->
   AppV1.classifyGesture p = AppV1.classifyGesture q)
  /\ ((forall i, i ∈ [0; 8; 12; 16; 20]%nat -> kp_y <$> p !! i = kp_y <$> q !! i) ->
      AppV2.classifyGesture (Some p) = AppV2.classifyGesture (Some q)).
Proof.
  intros Hlen. split; intros Heq.
  - by apply classifyGestureV1_ext.
  - by apply classifyGestureV2_ext.
Qed.

Lemma classifiers_read_tip_heights_witness :
  AppV1.classifyGesture scissors_pose = AppV1.classifyGesture (flatten_x scissors_pose)
  /\ AppV2.classifyGesture (Some scissors_pose)
     = AppV2.classifyGesture (Some (<[4%nat := Build_Keypoint 7%Z (-500)%Z]> (flatten_x scissors_pose))).
Proof.
  split.
  - refine (proj1 (classifiers_read_tip_heights scissors_pose (flatten_x scissors_pose) _) _);
      [reflexivity|].
    intros i Hi. repeat (apply elem_of_cons in Hi as [->|Hi]; [reflexivity|]).
    by apply elem_of_nil in Hi.
  - refine (proj2 (classifiers_read_tip_heights scissors_pose
                     (<[4%nat := Build_Keypoint 7%Z (-500)%Z]> (flatten_x scissors_pose)) _) _);
      [reflexivity|].
    intros i Hi. repeat (apply elem_of_cons in Hi as [->|Hi]; [reflexivity|]).
    by apply elem_of_nil in Hi.
Defined.

Section Translation.
Local Open Scope Z_scope.

Lemma ltb_shift_tip (a w t d : Z) : (a + d <? w + d - t) = (a <? w - t).
Proof. destruct (Z.ltb_spec (a + d) (w + d - t)), (Z.ltb_spec a (w - t)); lia || reflexivity. Qed.

Lemma ltb_shift_gap (a b t d : Z) : (a + d - t <? b + d) = (a - t <? b).
Proof. destruct (Z.ltb_spec (a + d - t) (b + d)), (Z.ltb_spec (a - t) b); lia || reflexivity. Qed.

Lemma lookup_translate (dx dy : Z) (pose : list (Keypoint Z)) (i : nat) (k : Keypoint Z) :
  pose !! i = Some k ->
  translate dx dy pose !! i = Some (Build_Keypoint (kp_x k + dx) (kp_y k + dy)).
Proof. intros E. unfold translate. by rewrite list_lookup_fmap, E. Qed.

Lemma length_translate (dx dy : Z) (pose : list (Keypoint Z)) :
  length (translate dx dy pose) = length pose.
Proof. unfold translate. by rewrite length_fmap. Qed.
End Translation.

(** X12 (lines 110-126 and 375-395).  Moving the hand in the frame changes
    neither classifier's result when the arithmetic is exact (integer
    coordinates: shifting every landmark by the same [dx] and [dy], and a
    throw stays a throw); in binary64, the arithmetic of the code, it can:
    with the index and middle tips one rounding step above the threshold
    line of a wrist at y = 100 the pose is Scissors, and moved down by 100
    it is Rock, the sums being rounded onto the line. *)
Theorem classifiers_translation_invariant :
  (forall (dx dy : Z) (pose : list (Keypoint Z)),
     AppV1.classifyGesture (translate dx dy pose) = AppV1.classifyGesture pose
     /\ AppV2.classifyGesture (Some (translate dx dy pose)) = AppV2.classifyGesture (Some pose))
  /\ (AppV2.classifyGesture (Some (grazing_pose 60)) = Normal (Some "Scissors ✌️")
      /\ AppV2.classifyGesture (Some (translate64 0 100 (grazing_pose 60)))
         = Normal (Some "Rock ✊"))
  /\ (AppV1.classifyGesture (grazing_pose 50) = Normal (Some "Scissors âœŒï¸")
      /\ AppV1.classifyGesture (translate64 0 100 (grazing_pose 50)) = Normal (Some "Rock âœŠ")).
Proof.
  split; [|vm_compute; repeat split].
  intros dx dy pose.
  destruct (decide (21 <= length pose)%nat) as [Hlen | Hlen].
  - destruct (lookup_in_pose pose 0 Hlen) as [k0 E0]; [lia|].
    destruct (lookup_in_pose pose 4 Hlen) as [k4 E4]; [lia|].
    destruct (lookup_in_pose pose 8 Hlen) as [k8 E8]; [lia|].
    destruct (lookup_in_pose pose 12 Hlen) as [k12 E12]; [lia|].
    destruct (lookup_in_pose pose 16 Hlen) as [k16 E16]; [lia|].
    destruct (lookup_in_pose pose 20 Hlen) as [k20 E20]; [lia|].
    unfold AppV1.classifyGesture, AppV2.classifyGesture.
    rewrite length_translate.
    rewrite !(lookup_translate dx dy pose _ _ E0), !(lookup_translate dx dy pose _ _ E4),
      !(lookup_translate dx dy pose _ _ E8), !(lookup_translate dx dy pose _ _ E12),
      !(lookup_translate dx dy pose _ _ E16), !(lookup_translate dx dy pose _ _ E20).
    rewrite E0, E4, E8, E12, E16, E20.
    cbn [prop_y mbind completion_bind mapC kp_y num_lt num_sub num_lit num_gt Z_JsNum].
    rewrite !ltb_shift_tip, !ltb_shift_gap. by split.
  - split.
    + rewrite !classifyGestureV1_short; [reflexivity | lia | rewrite length_translate; lia].
    + unfold AppV2.classifyGesture. rewrite length_translate.
      replace (length pose <? 21)%nat with true by (symmetry; apply Nat.ltb_lt; lia).
      reflexivity.
Qed.

(** * The round of the first component *)

Section RoundV1Outcome.
Import Handlers.

Lemma same_move_cases (m1 m2 : string) :
  same_move m1 m2 ->
  m1 = "Rock âœŠ" /\ m2 = "Rock ✊"
  \/ m1 = "Paper ðŸ–ï¸" /\ m2 = "Paper 🖐️"
  \/ m1 = "Scissors âœŒï¸" /\ m2 = "Scissors ✌️".
Proof.
  intros (i & E1 & E2). destruct i as [|[|[|i]]]; cbn in E1, E2; try discriminate;
    injection E1 as <-; injection E2 as <-; auto.
Qed.

Lemma same_move_elem (m1 m2 : string) : same_move m1 m2 -> m1 ∈ AppV1.moves /\ m2 ∈ MOVES.
Proof. intros (i & E1 & E2). split; by eapply list_elem_of_lookup_2. Qed.

(** The substring tests of the first component decide as the equality tests
    of the second one. *)
Lemma roundOutcomeV1_agrees (g g' a a' : string) :
  same_move g g' -> same_move a a' ->
  RoundV1.roundOutcome g (Some a) = Normal (roundOutcome g' a')
  /\ (g = a <-> g' = a').
Proof.
  intros Hg Ha.
  destruct (same_move_cases _ _ Hg) as [[-> ->]|[[-> ->]|[-> ->]]],
           (same_move_cases _ _ Ha) as [[-> ->]|[[-> ->]|[-> ->]]];
    (split; [vm_compute; reflexivity | split; first [reflexivity | discriminate]]).
Qed.

Lemma aiChoiceV1_same (r : Q) :
  (0 <= r < 1)%Q -> exists a, RoundV1.aiChoice r = Some a /\ same_move a (aiChoice r).
Proof.
  intros Hr. pose proof (aiIdx_range r Hr) as Hi.
  unfold RoundV1.aiChoice, aiChoice.
  assert (aiIdx r = 0 \/ aiIdx r = 1 \/ aiIdx r = 2)%Z as [E | [E | E]] by lia;
    rewrite E; cbn; eexists; (split; [reflexivity|]).
  - by exists 0%nat.
  - by exists 1%nat.
  - by exists 2%nat.
Qed.
End RoundV1Outcome.

Section RoundV1Machine.
Context {number : Type} `{JsNum number}.
Import RoundV1.

(** The calls of [playRound] after its [await]: it ends the round at once,
    or throws, or shows a result and leaves the round to a timer. *)
Lemma playRound_resume_calls (hands : list (Hand number)) (r : Q) :
  (exists m, playRound_resume hands r = ([SetResult m; SetIsPlaying false], Normal tt))
  \/ playRound_resume hands r = ([], TypeError)
  \/ (exists g, playRound_resume hands r
                = ([MathRandom r; SetPlayerMove g; SetAiMove (aiChoice r)], TypeError))
  \/ (exists g o, roundOutcome g (aiChoice r) = Normal o
        /\ playRound_resume hands r
           = (MathRandom r :: SetPlayerMove g :: SetAiMove (aiChoice r)
              :: branchCalls o ++ [SetTimeout 2000], Normal tt)).
Proof.
  unfold playRound_resume. destruct hands as [|hand rest]; [left; by eexists|].
  destruct (AppV1.classifyGesture (keypoints hand)) as [[g|]|]; cbn.
  - destruct (roundOutcome g (aiChoice r)) as [o|] eqn:Eo; cbn.
    + right; right; right. exists g, o. split; [exact Eo|].
      by destruct o.
    + right; right; left. by exists g.
  - left. by eexists.
  - right; left. reflexivity.
Qed.

Lemma step_one_round (e : Event) (s : Sys) : one_round s -> one_round (step e s).
Proof.
  intros (I1 & I2 & I3). destruct s as [u c ts aw lg]. simpl in *.
  destruct e as [| |hands r| |d]; cbn [step].
  - (* DetectorLoaded *)
    unfold one_round. cbn. auto.
  - (* ClickPlay *)
    simpl. destruct (isPlaying u) eqn:Ep; cbn [orb]; [unfold one_round; simpl; by rewrite Ep|].
    destruct (detector u) eqn:Ed; cbn [negb];
      [|unfold one_round; simpl; rewrite Ep; repeat split; auto; discriminate].
    unfold playRound_begin. simpl. rewrite Ed. cbn.
    assert ((aw + length ts)%nat <> 1%nat) as Hne by (intros E; specialize (I2 E); congruence).
    unfold one_round. cbn. repeat split; try done; lia.
  - (* HandsEstimated *)
    simpl. destruct aw as [|n]; [unfold one_round; simpl; auto|].
    assert (n = 0%nat /\ ts = []) as [-> ->].
    { destruct ts; cbn in I1; split; try reflexivity; lia. }
    specialize (I2 eq_refl). specialize (I3 I2).
    destruct (playRound_resume_calls hands r)
      as [(m & ->) | [-> | [(g & ->) | (g & o & Eo & ->)]]];
      unfold one_round; cbn; try (repeat split; try done; lia).
    destruct o; cbn; repeat split; try done; lia.
  - (* TimerFires *)
    simpl. destruct (earliest ts) as [d|] eqn:Ee; [|unfold one_round; simpl; auto].
    destruct ts as [|t ts']; [discriminate|].
    assert (aw = 0%nat /\ ts' = []) as [-> ->].
    { destruct ts'; cbn in I1; split; try reflexivity; lia. }
    cbn in Ee. injection Ee as <-.
    unfold one_round. cbn. rewrite Nat.eqb_refl. cbn. repeat split; try done; lia.
  - (* Elapse *)
    unfold one_round. simpl. auto.
Qed.

Lemma run_snocV1 (evs : list Event) (e : Event) (s : Sys) :
  run (evs ++ [e]) s = step e (run evs s).
Proof. unfold run. by rewrite foldl_app. Qed.

Lemma reachable_one_round (s : Sys) : reachable s -> one_round s.
Proof.
  intros [evs ->]. induction evs as [|e evs IH] using rev_ind.
  - unfold one_round. cbn. repeat split; try done; lia.
  - rewrite run_snocV1. by apply step_one_round.
Qed.

Lemma enabled_idle (s : Sys) :
  one_round s -> enabled s = true ->
  isPlaying (ui s) = false /\ detector (ui s) = true /\ awaiting s = 0%nat /\ timers s = [].
Proof.
  intros (I1 & I2 & I3). unfold enabled.
  destruct (isPlaying (ui s)) eqn:Ep; [discriminate|].
  destruct (detector (ui s)) eqn:Ed; [|discriminate]. intros _.
  assert ((awaiting s + length (timers s))%nat <> 1%nat) as Hne
    by (intros E; specialize (I2 E); congruence).
  destruct (timers s); cbn in *; repeat split; try done; lia.
Qed.

(** Once stuck, the page shows the same state and the same disabled button
    whatever happens. *)
Lemma step_stuck (e : Event) (s : Sys) :
  detector (ui s) = true -> stuck s -> step e s = s \/ ui (step e s) = ui s /\ stuck (step e s).
Proof.
  intros Hd (Hp & Ha & Ht). destruct s as [u c ts aw lg]. simpl in *.
  subst aw ts. destruct e as [| |hands r| |d]; cbn [step]; simpl.
  - right. cbn. destruct u; cbn in *; subst. by repeat split.
  - left. by rewrite Hp.
  - by left.
  - by left.
  - right. by repeat split.
Qed.

Lemma run_stuck (evs : list Event) (s : Sys) :
  detector (ui s) = true -> stuck s -> ui (run evs s) = ui s /\ stuck (run evs s).
Proof.
  intros Hd Hs. induction evs as [|e evs [IHu IHs]] using rev_ind; [by split|].
  rewrite run_snocV1.
  destruct (step_stuck e (run evs s)) as [-> | [Eu Es]]; [by rewrite IHu | done | done |].
  split; [congruence | done].
Qed.
End RoundV1Machine.

(** X13 (lines 146-163, first component, against lines 341-367 of the second
    one).  For a captured move and a draw [r] that [Math.random()] can
    return, the first component draws the same move as the second one does
    from the same [r], and its substring tests take the same branch as the
    second one's equality tests on the corresponding labels: a tie exactly
    when the two moves are equal, a win exactly when the player's move beats
    the AI's, a loss exactly when the AI's beats the player's.  No test
    throws. *)
Theorem first_component_outcome_agrees (g g' : string) (r : Q) :
  same_move g g' -> (0 <= r < 1)%Q ->
  exists a, RoundV1.aiChoice r = Some a
    /\ same_move a (Handlers.aiChoice r)
    /\ RoundV1.roundOutcome g (Some a)
       = Normal (Handlers.roundOutcome g' (Handlers.aiChoice r))
    /\ (RoundV1.roundOutcome g (Some a) = Normal Handlers.Tie <-> g = a)
    /\ (RoundV1.roundOutcome g (Some a) = Normal Handlers.Win
        <-> Spec.beats g' (Handlers.aiChoice r))
    /\ (RoundV1.roundOutcome g (Some a) = Normal Handlers.Lose
        <-> Spec.beats (Handlers.aiChoice r) g').
Proof.
  intros Hg Hr. destruct (aiChoiceV1_same r Hr) as (a & Ea & Ha).
  exists a. split; [exact Ea|]. split; [exact Ha|].
  destruct (roundOutcomeV1_agrees g g' a _ Hg Ha) as [Eo Heq].
  destruct (same_move_elem _ _ Hg) as [_ Hg'].
  destruct (same_move_elem _ _ Ha) as [_ Ha'].
  split; [exact Eo|]. rewrite Eo. split; [|split].
  - rewrite Heq, (roundOutcome_tie g' _ Hg' Ha'). split; [by intros [= ->] | by intros ->].
  - rewrite (roundOutcome_win g' _ Hg' Ha'). split; [by intros [= ->] | by intros ->].
  - rewrite (roundOutcome_lose g' _ Hg' Ha'). split; [by intros [= ->] | by intros ->].
Qed.

Lemma first_component_outcome_agrees_witness :
  RoundV1.roundOutcome "Rock âœŠ" (RoundV1.aiChoice (5 # 6)) = Normal Handlers.Win.
Proof.
  destruct (first_component_outcome_agrees "Rock âœŠ" "Rock ✊" (5 # 6))
    as (a & Ea & _ & Eo & _).
  - by exists 0%nat.
  - split; [discriminate | reflexivity].
  - rewrite Ea, Eo. reflexivity.
Defined.

Section RoundV1Rounds.
Context {number : Type} `{JsNum number}.
Import RoundV1.

(** X14 (lines 128-166 and 226, first component).  On every page the first
    component can reach, at most one round is under way: the suspended calls
    of [playRound] and the pending timers are never more than one in all;
    while there is one, [isPlaying] holds, so the button is disabled; and
    [isPlaying] never holds before the detector is loaded.  Hence a button
    that can be clicked finds no call suspended and no timer pending. *)
Theorem first_component_one_round_at_a_time (s : Sys) :
  reachable (number := number) s ->
  (awaiting s + length (timers s) <= 1)%nat
  /\ ((awaiting s + length (timers s))%nat = 1%nat -> enabled s = false)
  /\ (isPlaying (ui s) = true -> detector (ui s) = true)
  /\ (enabled s = true -> awaiting s = 0%nat /\ timers s = []).
Proof.
  intros Hr. pose proof (reachable_one_round s Hr) as Hinv.
  pose proof Hinv as (I1 & I2 & I3).
  split; [exact I1|]. split; [|split; [exact I3|]].
  - intros E. unfold enabled. by rewrite (I2 E).
  - intros He. by destruct (enabled_idle s Hinv He) as (_ & _ & ? & ?).
Qed.
End RoundV1Rounds.

Lemma first_component_one_round_at_a_time_witness :
  (RoundV1.awaiting waitingV1 + length (RoundV1.timers waitingV1) <= 1)%nat
  /\ RoundV1.enabled waitingV1 = false.
Proof.
  split.
  - refine (proj1 (first_component_one_round_at_a_time (number := Z) waitingV1 _)).
    by exists [RoundV1.DetectorLoaded; RoundV1.ClickPlay].
  - refine (proj1 (proj2 (first_component_one_round_at_a_time (number := Z) waitingV1 _)) _).
    + by exists [RoundV1.DetectorLoaded; RoundV1.ClickPlay].
    + reflexivity.
Defined.

Section RoundV1Whole.
Context {number : Type} `{JsNum number}.
Import RoundV1.

Lemma click_enabled (s : Sys) :
  one_round s -> enabled s = true ->
  step (number := number) ClickPlay s
  = {| ui := setState (SetIsPlaying true) (ui s); clock := clock s; timers := [];
       awaiting := 1; log := log s ++ [SetIsPlaying true; EstimateHands] |}.
Proof.
  intros Hinv He. destruct (enabled_idle s Hinv He) as (Hp & Hd & Ha & Ht).
  destruct s as [u c ts aw lg]. simpl in *. subst aw ts.
  unfold playRound_begin. simpl. rewrite Hp, Hd. cbn. unfold perform. simpl.
  rewrite <- app_assoc, ?Hd. reflexivity.
Qed.

(** X15 (lines 110-126, 128-166 and 226, first component).  When the
    detector answers a round with a first hand of fewer than 21 keypoints,
    [classifyGesture] throws inside [playRound]: nothing on the page changes,
    [isPlaying] stays set with no timer left to clear it, and from then on,
    whatever happens, the page shows the same state and the button stays
    disabled. *)
Theorem short_hand_blocks_first_component
    (s : Sys) (hand : Hand number) (rest : list (Hand number)) (r : Q)
    (evs : list (Event (number := number))) :
  reachable (number := number) s -> awaiting s <> 0%nat ->
  (length (keypoints hand) < 21)%nat ->
  ui (step (HandsEstimated (hand :: rest) r) s) = ui s
  /\ stuck (step (HandsEstimated (hand :: rest) r) s)
  /\ ui (run evs (step (HandsEstimated (hand :: rest) r) s)) = ui s
  /\ stuck (run evs (step (HandsEstimated (hand :: rest) r) s))
  /\ enabled (run evs (step (HandsEstimated (hand :: rest) r) s)) = false.
Proof.
  intros Hr Haw Hlen. pose proof (reachable_one_round s Hr) as (I1 & I2 & I3).
  assert (awaiting s = 1%nat /\ timers s = []) as [Ea Et].
  { destruct (timers s); cbn in I1; split; try reflexivity; lia. }
  rewrite Ea, Et in I2. specialize (I2 eq_refl). specialize (I3 I2).
  assert (step (HandsEstimated (hand :: rest) r) s
          = {| ui := ui s; clock := clock s; timers := []; awaiting := 0; log := log s |})
    as ->.
  { cbn [step]. rewrite Ea, Et. unfold playRound_resume.
    rewrite (classifyGestureV1_short _ Hlen). reflexivity. }
  assert (stuck {| ui := ui s; clock := clock s; timers := []; awaiting := 0; log := log s |})
    as Hs by done.
  split; [reflexivity|]. split; [exact Hs|].
  destruct ((fun Hd => run_stuck evs _ Hd Hs) I3) as [Eu Hs'].
  split; [exact Eu|]. split; [exact Hs'|].
  unfold enabled. destruct Hs' as (-> & _). reflexivity.
Qed.

(** X16 (lines 128-166 and 226, first component).  A round with a clear
    gesture: from a page whose button can be clicked, a click and the
    detector's answer with a hand classified as [g] show [g], the drawn move
    and the message of the outcome, give the winner one point and leave the
    button disabled with one timer due 2000 ms later; when it fires the
    button can be clicked again and nothing else changes. *)
Theorem first_component_round
    (s : Sys) (hand : Hand number) (rest : list (Hand number)) (g : string) (r : Q) :
  reachable (number := number) s -> enabled s = true ->
  AppV1.classifyGesture (keypoints hand) = Normal (Some g) ->
  (0 <= r < 1)%Q ->
  exists (a : string) (o : Handlers.Outcome),
    aiChoice r = Some a /\ roundOutcome g (Some a) = Normal o
    /\ let s1 := run [ClickPlay; HandsEstimated (hand :: rest) r] s in
       ui s1 = {| detector := true; playerMove := g; aiMove := Some a;
                  result := resultText o;
                  playerScore := playerScore (ui s) + (if decide (o = Handlers.Win) then 1 else 0);
                  aiScore := aiScore (ui s) + (if decide (o = Handlers.Lose) then 1 else 0);
                  isPlaying := true |}
       /\ timers s1 = [clock s + 2000]%nat /\ awaiting s1 = 0%nat /\ enabled s1 = false
       /\ let s2 := step (number := number) TimerFires s1 in
          ui s2 = setState (SetIsPlaying false) (ui s1)
          /\ enabled s2 = true /\ timers s2 = [] /\ awaiting s2 = 0%nat
          /\ clock s2 = (clock s + 2000)%nat.
Proof.
  intros Hr He Hg Hrange. pose proof (reachable_one_round s Hr) as Hinv.
  destruct (enabled_idle s Hinv He) as (Hp & Hd & Ha & Ht).
  destruct (aiChoiceV1_same r Hrange) as (a & Ea & Hsame).
  assert (exists g', same_move g g') as [g' Hg'].
  { destruct (classifyGestureV1_long (keypoints hand)) as (g0 & Eg0 & Hmoves).
    - destruct (decide (21 <= length (keypoints hand))%nat) as [Hl|Hl]; [exact Hl|].
      rewrite classifyGestureV1_short in Hg by lia. discriminate.
    - rewrite Hg in Eg0. injection Eg0 as <-.
      specialize (Hmoves g eq_refl). apply list_elem_of_lookup_1 in Hmoves as [i Ei].
      destruct i as [|[|[|i]]]; [| | |discriminate].
      + exists "Rock ✊", 0%nat. by split.
      + exists "Paper 🖐️", 1%nat. by split.
      + exists "Scissors ✌️", 2%nat. by split. }
  destruct (roundOutcomeV1_agrees g g' a _ Hg' Hsame) as [Eo _].
  exists a, (Handlers.roundOutcome g' (Handlers.aiChoice r)).
  split; [exact Ea|]. split; [exact Eo|].
  cbv zeta. unfold run. cbn [foldl]. rewrite (click_enabled s Hinv He).
  cbn [step awaiting]. unfold playRound_resume. cbn [keypoints]. rewrite Hg. cbn.
  rewrite Ea, Eo. cbn.
  destruct s as [u c ts aw lg]. destruct u as [d pm am re ps ais ip]. simpl in *.
  subst. destruct (Handlers.roundOutcome g' (Handlers.aiChoice r)); cbn;
    rewrite ?Nat.eqb_refl; cbn; repeat case_decide; try congruence;
    repeat split; f_equal; lia.
Qed.

(** X17 (lines 128-144 and 226, first component).  A round without a move:
    when the detector answers a click with no hand, or with a first hand the
    classifier returns [null] for, only the message changes, no move is
    drawn and no point is given, and the button can be clicked again at
    once, no timer being involved. *)
Theorem first_component_failed_capture
    (s : Sys) (hands : list (Hand number)) (r : Q) :
  reachable (number := number) s -> enabled s = true ->
  match hands with
  | [] => True
  | hand :: _ => AppV1.classifyGesture (keypoints hand) = Normal None
  end ->
  let s1 := run [ClickPlay; HandsEstimated hands r] s in
  ui s1 = setState (SetResult match hands with
                              | [] => "No hand detected! ðŸ‘€"
                              | _ :: _ => "Unclear gesture â€“ try a clear pose!"
                              end) (ui s)
  /\ enabled s1 = true /\ timers s1 = [] /\ awaiting s1 = 0%nat /\ clock s1 = clock s
  /\ (forall c, c ∈ drop (length (log s)) (log s1) ->
      c <> BumpPlayerScore /\ c <> BumpAiScore /\ (forall x, c <> MathRandom x)
      /\ (forall d, c <> SetTimeout d)).
Proof.
  intros Hr He Hh. pose proof (reachable_one_round s Hr) as Hinv.
  destruct (enabled_idle s Hinv He) as (Hp & Hd & Ha & Ht).
  cbv zeta. unfold run. cbn [foldl]. rewrite (click_enabled s Hinv He).
  cbn [step awaiting]. unfold playRound_resume.
  destruct s as [u c ts aw lg]. destruct u as [d pm am re ps ais ip]. simpl in *. subst.
  destruct hands as [|hand rest]; [|rewrite Hh]; cbn;
    (split; [reflexivity|]); (split; [reflexivity|]); (split; [reflexivity|]);
    (split; [reflexivity|]); (split; [reflexivity|]);
    intros c0 Hc; rewrite <- !app_assoc, drop_app_length in Hc; cbn in Hc;
    repeat (apply elem_of_cons in Hc as [->|Hc]; [repeat split; intros; discriminate|]);
    by apply elem_of_nil in Hc.
Qed.
End RoundV1Whole.

Lemma short_hand_blocks_first_component_witness :
  RoundV1.enabled
    (RoundV1.run [RoundV1.ClickPlay; RoundV1.TimerFires]
       (RoundV1.step (RoundV1.HandsEstimated [Build_Hand (take 5 rock_pose)] 0) waitingV1))
  = false.
Proof.
  refine (proj2 (proj2 (proj2 (proj2
    (short_hand_blocks_first_component waitingV1 (Build_Hand (take 5 rock_pose)) [] 0
       [RoundV1.ClickPlay; RoundV1.TimerFires] _ _ _))))).
  - by exists [RoundV1.DetectorLoaded; RoundV1.ClickPlay].
  - vm_compute. discriminate.
  - vm_compute. lia.
Defined.

Lemma first_component_round_witness :
  RoundV1.enabled
    (RoundV1.run [RoundV1.ClickPlay; RoundV1.HandsEstimated [Build_Hand rock_pose] (5 # 6)]
       readyV1) = false.
Proof.
  destruct (first_component_round readyV1 (Build_Hand rock_pose) [] "Rock âœŠ" (5 # 6))
    as (a & o & _ & _ & _ & _ & _ & He & _).
  - by exists [RoundV1.DetectorLoaded].
  - reflexivity.
  - reflexivity.
  - split; [discriminate | reflexivity].
  - exact He.
Defined.

Lemma first_component_failed_capture_witness :
  RoundV1.enabled
    (RoundV1.run [RoundV1.ClickPlay; RoundV1.HandsEstimated [Build_Hand thumb_only_pose] 0]
       readyV1) = true.
Proof.
  refine (proj1 (proj2
    (first_component_failed_capture readyV1 [Build_Hand thumb_only_pose] 0 _ _ _))).
  - by exists [RoundV1.DetectorLoaded].
  - reflexivity.
  - reflexivity.
Defined.

(** * The second component always comes back to rest *)

Section Moving.
Import Handlers Runtime.
Context {number : Type} `{JsNum number}.

Lemma performAll_cons (a : Action) (acts : list Action) (s : Sys) :
  performAll (a :: acts) s = performAll acts (perform a s).
Proof. reflexivity. Qed.

Lemma performAll_snoc (a : Action) (acts : list Action) (s : Sys) :
  performAll (acts ++ [a]) s = perform a (performAll acts s).
Proof. unfold performAll. by rewrite foldl_app. Qed.

Lemma awaiting_performAll (acts : list Action) (s : Sys) :
  EstimateHands ∉ acts -> awaiting (performAll acts s) = awaiting s.
Proof.
  revert s. induction acts as [|a acts IH]; intros s Hno; [reflexivity|].
  rewrite performAll_cons, IH by (intros Hin; apply Hno; by right).
  destruct a; try reflexivity. exfalso. apply Hno. by left.
Qed.

Lemma awaiting_countdownEffect (s : Sys) : awaiting (countdownEffect s) = awaiting s.
Proof.
  unfold countdownEffect. cbv zeta.
  destruct (countdown _) as [c|]; [destruct (0 <? c)%Z|]; reflexivity.
Qed.

Lemma awaiting_captureEffect (s : Sys) :
  awaiting (captureEffect s)
  = if bool_decide (countdown (ui s) = Some 0%Z) && detector (ui s)
    then S (awaiting s) else awaiting s.
Proof.
  unfold captureEffect. destruct (countdown (ui s)) as [[|p|p]|]; try reflexivity.
  destruct (detector (ui s)); reflexivity.
Qed.

Lemma awaiting_captureEffect_le (s : Sys) :
  (awaiting s <= awaiting (captureEffect s) <= S (awaiting s))%nat.
Proof. rewrite awaiting_captureEffect. destruct (_ && _); lia. Qed.

(** Calls other than [clearTimeout] keep every pending timer. *)
Lemma timers_performAll_mono (acts : list Action) (s : Sys) (t : Timer) :
  (forall id, ClearTimeout id ∉ acts) -> t ∈ timers s -> t ∈ timers (performAll acts s).
Proof.
  revert s. induction acts as [|a acts IH]; intros s Hno Hin; [exact Hin|].
  rewrite performAll_cons. apply IH; [intros id Hid; apply (Hno id); by right|].
  destruct a; try exact Hin.
  - cbn. apply elem_of_app. by left.
  - exfalso. apply (Hno id). by left.
Qed.

(** Calls that touch neither the timers nor the detector. *)
Lemma timers_performAll_plain (acts : list Action) (s : Sys) :
  Forall plain acts -> timers (performAll acts s) = timers s.
Proof.
  revert s. induction acts as [|a acts IH]; intros s Hp; [reflexivity|].
  inversion Hp as [|? ? Ha Hacts]; subst.
  rewrite performAll_cons, IH by done. by destruct a.
Qed.

Lemma plain_no_estimate (acts : list Action) : Forall plain acts -> EstimateHands ∉ acts.
Proof. intros Hp Hin. rewrite Forall_forall in Hp. exact (Hp _ Hin). Qed.

Lemma plain_no_clear (acts : list Action) : Forall plain acts -> forall id, ClearTimeout id ∉ acts.
Proof. intros Hp id Hin. rewrite Forall_forall in Hp. exact (Hp _ Hin). Qed.

(** A handler that leaves the countdown as it is keeps what is pending. *)
Lemma dispatch_keeps (acts : list Action) (s : Sys) :
  countdown (setStates acts (ui s)) = countdown (ui s) ->
  (forall id, ClearTimeout id ∉ acts) -> EstimateHands ∉ acts ->
  countdown (ui (dispatch acts s)) = countdown (ui s)
  /\ (forall t, t ∈ timers s -> t ∈ timers (dispatch acts s))
  /\ (awaiting s <= awaiting (dispatch acts s))%nat.
Proof.
  intros Hc Hclear Hest. split; [by rewrite countdown_dispatch|].
  unfold dispatch, commit. rewrite ui_performAll.
  rewrite (bool_decide_eq_false_2 (countdown (ui s) <> _)) by (intros Hne; by apply Hne).
  cbn [orb]. destruct (bool_decide _).
  - destruct (captureEffect_frame (performAll acts s)) as (-> & _).
    pose proof (awaiting_captureEffect_le (performAll acts s)) as Hle.
    rewrite awaiting_performAll in Hle by done.
    split; [intros t; by apply timers_performAll_mono | lia].
  - rewrite awaiting_performAll by done.
    split; [intros t; by apply timers_performAll_mono | lia].
Qed.

Lemma moving_mono (s s' : Sys) :
  countdown (ui s') = countdown (ui s) ->
  (forall t, t ∈ timers s -> t ∈ timers s') -> (awaiting s <= awaiting s')%nat ->
  moving s -> moving s'.
Proof.
  unfold moving. intros -> Ht Ha. destruct (countdown (ui s)) as [c|]; [|done].
  destruct (0 <? c)%Z.
  - intros (t & Hin & Hcb). exists t. auto.
  - intros [Hpos | (t & Hin & Hcb)]; [left; lia | right; exists t; auto].
Qed.

Lemma same_id_same_timer (ts : list Timer) (t u : Timer) :
  NoDup (timer_id <$> ts) -> t ∈ ts -> u ∈ ts -> timer_id t = timer_id u -> t = u.
Proof.
  intros Hnd Ht Hu Hid.
  apply list_elem_of_lookup_1 in Ht as [i Hi]. apply list_elem_of_lookup_1 in Hu as [j Hj].
  assert (i = j) as ->; [|congruence].
  eapply NoDup_lookup; [exact Hnd | |]; rewrite list_lookup_fmap.
  - rewrite Hi. reflexivity.
  - rewrite Hj. cbn. by rewrite Hid.
Qed.

(** Firing a timer keeps every other one. *)
Lemma fire_keeps (t u : Timer) (s : Sys) :
  fresh_ids s -> t ∈ timers s -> u ∈ timers s -> callback u <> callback t ->
  u ∈ timers (fire t s).
Proof.
  intros [Hnd _] Ht Hu Hcb. cbn [fire timers]. apply list_elem_of_filter. split; [|exact Hu].
  intros Hid. apply Hcb. by rewrite (same_id_same_timer _ u t Hnd Hu Ht Hid).
Qed.

Lemma length_fire (t : Timer) (s : Sys) :
  t ∈ timers s -> (length (timers (fire t s)) < length (timers s))%nat.
Proof.
  intros Ht. cbn [fire timers]. apply (length_filter_lt _ _ t); [exact Ht|]. intros Hne. by apply Hne.
Qed.

Lemma earliest_none (ts : list Timer) : earliest ts = None -> ts = [].
Proof.
  destruct ts as [|t ts]; [done|]. simpl.
  destruct (earliest ts) as [u|]; [destruct (due u <? due t)%nat|]; discriminate.
Qed.

(** What [capturePose] does after its [await]: it always registers the timer
    that will end the round. *)
Lemma capturePose_resume_shape (hands : list (Hand number)) :
  (exists m, capturePose_resume hands = [SetResult m; SetTimeout ClearCountdown 1500])
  \/ (exists g, capturePose_resume hands
                = [SetPlayerMove g; SetResult "AI is choosing...";
                   SetTimeout (Reveal g) 1200; SetTimeout ClearCountdown 4000]).
Proof.
  unfold capturePose_resume. destruct hands as [|hand rest]; [left; by eexists|].
  destruct (classifyGesture_total (Some (keypoints hand))) as [[g|] ->].
  - right. by exists g.
  - left. by eexists.
Qed.
End Moving.

Section MovingInvariant.
Import Handlers Runtime.
Context {number : Type} `{JsNum number}.

Ltac not_in Hin :=
  repeat (apply elem_of_cons in Hin as [Hin|Hin]; [discriminate|]);
  by apply elem_of_nil in Hin.

(** The detector's answer, performed: the countdown stays, the pending
    timers stay, and the timer that ends the round is registered. *)
Lemma resume_performed (hands : list (Hand number)) (s : Sys) :
  countdown (ui (dispatch (capturePose_resume hands) s)) = countdown (ui s)
  /\ awaiting (dispatch (capturePose_resume hands) s) = awaiting s
  /\ (forall t, t ∈ timers s -> t ∈ timers (dispatch (capturePose_resume hands) s))
  /\ (exists t, t ∈ timers (dispatch (capturePose_resume hands) s)
                /\ callback t = ClearCountdown)
  /\ (length (timers (dispatch (capturePose_resume hands) s)) <= length (timers s) + 2)%nat.
Proof.
  destruct (capturePose_resume_no_tick hands (ui s)) as [_ Hc].
  assert (detector (setStates (capturePose_resume hands) (ui s)) = detector (ui s)) as Hd.
  { destruct (capturePose_resume_shape hands) as [(m & ->) | (g & ->)]; reflexivity. }
  rewrite (dispatch_no_effect _ s Hc Hd).
  destruct (capturePose_resume_shape hands) as [(m & ->) | (g & ->)];
    unfold performAll, perform; simpl;
    (split; [reflexivity|]); (split; [reflexivity|]); (split; [|split]).
  - intros t Hin. apply elem_of_app. by left.
  - eexists. split; [apply elem_of_app; right; apply list_elem_of_here | reflexivity].
  - rewrite length_app. simpl. lia.
  - intros t Hin. apply elem_of_app. left. apply elem_of_app. by left.
  - eexists. split; [apply elem_of_app; right; apply list_elem_of_here | reflexivity].
  - rewrite !length_app. simpl. lia.
Qed.

(** A tick, performed: the next value is on display with its tick pending,
    or it is 0 and the detector has been asked. *)
Lemma tick_performed (c : Z) (s : Sys) :
  countdown (ui s) = Some c -> (0 < c)%Z -> detector (ui s) = true ->
  let s' := dispatch [SetCountdown (Some (c - 1)%Z)] s in
  countdown (ui s') = Some (c - 1)%Z
  /\ (if (0 <? c - 1)%Z
      then (exists t, t ∈ timers s' /\ callback t = CountdownTick (c - 1))
           /\ awaiting s' = awaiting s
           /\ (length (timers s') <= length (timers s) + 1)%nat
      else (c - 1 = 0)%Z -> awaiting s' = S (awaiting s)
           /\ (length (timers s') <= length (timers s))%nat).
Proof.
  intros Hc Hpos Hd. cbv zeta.
  split; [by rewrite countdown_dispatch|].
  rewrite dispatch_countdown_changed by (cbn; rewrite Hc; intros [= E]; lia).
  set (p := performAll [SetCountdown (Some (c - 1)%Z)] s).
  assert (Htp : timers p = timers s) by reflexivity.
  assert (Hap : awaiting p = awaiting s) by reflexivity.
  assert (Hcp : countdown (ui p) = Some (c - 1)%Z) by reflexivity.
  assert (Hdp : detector (ui p) = detector (ui s)) by reflexivity.
  destruct (captureEffect_frame (countdownEffect p)) as (-> & _).
  rewrite awaiting_captureEffect, ui_countdownEffect, awaiting_countdownEffect, Hcp, Hdp, Hd, Hap.
  pose proof (countdownEffect_timers p) as Heff. cbv zeta in Heff. rewrite Hcp in Heff.
  destruct (0 <? c - 1)%Z eqn:Epos; destruct Heff as [-> _].
  - split; [|split].
    + eexists. split; [apply elem_of_app; right; apply list_elem_of_here | reflexivity].
    + rewrite bool_decide_eq_false_2; [reflexivity|]. intros [= E]. rewrite E in Epos. discriminate.
    + rewrite length_app. simpl.
      match goal with |- context [length (filter ?P ?l)] => pose proof (length_filter P l) end.
      lia.
  - intros ->. split; [reflexivity|]. simpl. apply length_filter.
Qed.

Lemma fire_moving (t : Timer) (s : Sys) :
  fresh_ids s -> ticking s -> t ∈ timers s ->
  (forall c, callback t <> CountdownTick c) -> callback t <> ClearCountdown ->
  moving s -> moving (fire t s).
Proof.
  intros Hf Ht Hin Hnt Hnc. unfold moving. cbn [fire ui awaiting].
  destruct (countdown (ui s)) as [c|]; [|done]. destruct (0 <? c)%Z.
  - intros (u & Hu & Hcb). exists u. split; [|exact Hcb].
    apply fire_keeps; try done. rewrite Hcb. intros E. by apply (Hnt c).
  - intros [Hpos | (u & Hu & Hcb)]; [by left | right].
    exists u. split; [|exact Hcb]. apply fire_keeps; try done. rewrite Hcb. congruence.
Qed.

Lemma step_moving (e : Event) (s : Sys) :
  quiet s -> ticking s -> fresh_ids s -> moving s -> moving (step (number := number) e s).
Proof.
  intros Hq Ht Hf Hm.
  assert (Hkeep : forall acts s0, moving s0 ->
            countdown (setStates acts (ui s0)) = countdown (ui s0) ->
            (forall id, ClearTimeout id ∉ acts) -> EstimateHands ∉ acts ->
            moving (dispatch acts s0)).
  { intros acts s0 Hm0 Hc Hcl He. destruct (dispatch_keeps acts s0 Hc Hcl He) as (Hc' & Ht' & Ha').
    by apply (moving_mono s0). }
  destruct e as [| | | | |hands|r|d]; cbn [step].
  - apply Hkeep; [done | reflexivity | intros id Hin; not_in Hin | intros Hin; not_in Hin].
  - apply Hkeep; [done | reflexivity | intros id Hin; not_in Hin | intros Hin; not_in Hin].
  - apply Hkeep; [done | reflexivity | intros id Hin; not_in Hin | intros Hin; not_in Hin].
  - (* ClickPlay *)
    unfold playRound. destruct (bool_decide (countdown (ui s) <> None)) eqn:Ec; cbn [orb].
    { apply Hkeep; [done | reflexivity | intros id Hin; not_in Hin | intros Hin; not_in Hin]. }
    destruct (detector (ui s)) eqn:Ed; cbn [negb].
    2:{ apply Hkeep; [done | reflexivity | intros id Hin; not_in Hin | intros Hin; not_in Hin]. }
    apply bool_decide_eq_false in Ec. apply dec_stable in Ec.
    unfold moving. rewrite countdown_dispatch. cbn.
    rewrite dispatch_countdown_changed by (cbn; rewrite Ec; discriminate).
    set (p := performAll [SetPlayerMove "?"; SetAiMove "?"; SetResult "Get ready...";
                          SetCountdown (Some 3%Z)] s).
    assert (Hcp : countdown (ui p) = Some 3%Z) by reflexivity.
    destruct (captureEffect_frame (countdownEffect p)) as (-> & _).
    pose proof (countdownEffect_timers p) as Heff.
    cbv zeta in Heff. rewrite Hcp in Heff. destruct Heff as [-> _].
    eexists. split; [apply elem_of_app; right; apply list_elem_of_here | reflexivity].
  - (* ClickReset *)
    unfold moving. rewrite countdown_dispatch. by cbn.
  - (* HandsEstimated *)
    destruct (awaiting s) as [|n] eqn:Ea; [done|].
    destruct (resume_performed hands (resolveOne s)) as (Hc & Haw & Hts & Hclear & _).
    unfold moving. rewrite Hc. cbn [resolveOne ui].
    unfold moving in Hm. destruct (countdown (ui s)) as [c|]; [|done].
    destruct (0 <? c)%Z.
    + destruct Hm as (t & Hin & Hcb). exists t. split; [by apply Hts | exact Hcb].
    + by right.
  - (* TimerFires *)
    destruct (earliest (timers s)) as [t|] eqn:Et; [|done].
    pose proof (earliest_elem _ _ Et) as Hin.
    destruct (callback t) as [c| |g] eqn:Ecb; cbn [runCallback].
    + destruct Ht as [Hval Hticks].
      destruct (Hticks t c Hin Ecb) as (_ & Hc & Hpos).
      assert (Hd : detector (ui s) = true).
      { destruct Hq as [Hd | (Hn & _)]; [exact Hd | congruence]. }
      destruct (tick_performed c (fire t s) Hc Hpos Hd) as [Hc' Hrest].
      unfold moving. rewrite Hc'. destruct (0 <? c - 1)%Z eqn:Epos.
      * by destruct Hrest as (Htick & _).
      * left. assert (c - 1 = 0)%Z as E.
        { rewrite Hc in Hval. unfold countdown_values in Hval.
          apply Z.ltb_ge in Epos.
          apply elem_of_cons in Hval as [Hval|Hval]; [discriminate|].
          repeat (apply elem_of_cons in Hval as [Hval|Hval]; [injection Hval as ->; lia|]).
          by apply elem_of_nil in Hval. }
        destruct (Hrest E) as [-> _]. lia.
    + unfold moving. rewrite countdown_dispatch. by cbn.
    + destruct (reveal_no_tick g r (ui (fire t s))) as [_ Hc].
      apply Hkeep; [| exact Hc | |].
      * apply fire_moving; try done; rewrite Ecb; [intros c | ]; discriminate.
      * intros id Hi. unfold reveal, revealWith in Hi.
        destruct (roundOutcome g (aiChoice r)); cbn in Hi; not_in Hi.
      * intros Hi. unfold reveal, revealWith in Hi.
        destruct (roundOutcome g (aiChoice r)); cbn in Hi; not_in Hi.
  - exact Hm.
Qed.

Lemma reachable_moving (s : Sys) : reachable (number := number) s -> moving s.
Proof.
  intros [evs ->]. induction evs as [|e evs IH] using rev_ind; [done|].
  rewrite run_snoc.
  apply step_moving; [apply reachable_quiet | apply reachable_ticking
                      | apply reachable_fresh | exact IH]; by exists evs.
Qed.
End MovingInvariant.

Section Hang.
Import Handlers Runtime.
Context {number : Type} `{JsNum number}.

Lemma dispatch_plain_frame (acts : list Action) (s : Sys) :
  Forall plain acts ->
  countdown (setStates acts (ui s)) = countdown (ui s) ->
  detector (setStates acts (ui s)) = detector (ui s) ->
  ui (dispatch acts s) = setStates acts (ui s)
  /\ timers (dispatch acts s) = timers s /\ awaiting (dispatch acts s) = awaiting s.
Proof.
  intros Hp Hc Hd. rewrite (dispatch_no_effect acts s Hc Hd).
  rewrite ui_performAll, timers_performAll_plain, awaiting_performAll
    by first [done | by apply plain_no_estimate].
  done.
Qed.

(** Nothing but Reset takes a hung page on. *)
Lemma step_hung (e : Event) (s : Sys) :
  e <> ClickReset -> hung s -> hung (step (number := number) e s).
Proof.
  intros He (Hd & Hc & Ht & Ha).
  assert (Hplain : forall acts, Forall plain acts ->
            countdown (setStates acts (ui s)) = countdown (ui s) ->
            detector (setStates acts (ui s)) = detector (ui s) ->
            hung (dispatch acts s)).
  { intros acts Hp Hc1 Hd1. unfold hung.
    destruct (dispatch_plain_frame acts s Hp Hc1 Hd1) as (-> & -> & ->).
    rewrite Hc1, Hd1. by repeat split. }
  destruct e as [| | | | |hands|r|d]; cbn [step].
  - apply Hplain; [repeat constructor | reflexivity | cbn; by rewrite Hd].
  - apply Hplain; [repeat constructor | reflexivity | reflexivity].
  - apply Hplain; [repeat constructor | reflexivity | reflexivity].
  - rewrite playRound_in_flight by (rewrite Hc; discriminate).
    apply Hplain; [constructor | reflexivity | reflexivity].
  - contradiction.
  - rewrite Ha. by repeat split.
  - rewrite Ht. cbn. by repeat split.
  - by repeat split.
Qed.

Lemma run_hung (evs : list Event) (s : Sys) :
  Forall (fun e => e <> ClickReset) evs -> hung s -> hung (run (number := number) evs s).
Proof.
  intros Hevs Hs. induction evs as [|e evs IH] using rev_ind; [exact Hs|].
  apply Forall_app in Hevs as [Hevs He]. apply Forall_cons in He as [He _].
  rewrite run_snoc. apply step_hung; [exact He | by apply IH].
Qed.

(** A rejected detection in a round that has nothing else pending hangs it. *)
Lemma rejected_hangs (s : Sys) :
  detector (ui s) = true -> countdown (ui s) = Some 0%Z ->
  timers s = [] -> awaiting s = 1%nat -> hung (rejectHands s).
Proof.
  intros Hd Hc Ht Ha. unfold rejectHands. rewrite Ha. unfold hung. cbn. by rewrite Ha.
Qed.
End Hang.

Section Progress.
Import Handlers Runtime.
Context {number : Type} `{JsNum number}.

Lemma reveal_plain (g : string) (r : Q) (a : AppState) :
  Forall plain (reveal g r) /\ detector (setStates (reveal g r) a) = detector a.
Proof.
  unfold reveal, revealWith. destruct (roundOutcome g (aiChoice r)); cbn;
    (split; [repeat constructor | reflexivity]).
Qed.

(** The timer that ends the round, performed. *)
Lemma clear_performed (s : Sys) :
  countdown (ui (dispatch [SetCountdown None] s)) = None
  /\ awaiting (dispatch [SetCountdown None] s) = awaiting s
  /\ (length (timers (dispatch [SetCountdown None] s)) <= length (timers s))%nat.
Proof.
  split; [by rewrite countdown_dispatch|].
  destruct (decide (countdown (ui s) = None)) as [Hc | Hc].
  - rewrite dispatch_no_effect by (cbn; congruence). split; [reflexivity | simpl; lia].
  - rewrite dispatch_countdown_changed by (cbn; congruence).
    set (p := performAll [SetCountdown None] s).
    assert (Hcp : countdown (ui p) = None) by reflexivity.
    destruct (captureEffect_frame (countdownEffect p)) as (-> & _).
    rewrite awaiting_captureEffect, ui_countdownEffect, awaiting_countdownEffect, Hcp.
    pose proof (countdownEffect_timers p) as Heff. cbv zeta in Heff. rewrite Hcp in Heff.
    destruct Heff as [-> _]. split; [reflexivity|]. simpl. apply length_filter.
Qed.

(** The detector's answer brings the page nearer to rest. *)
Lemma answer_progress (hands : list (Hand number)) (s : Sys) :
  awaiting s <> 0%nat -> (remaining (step (HandsEstimated hands) s) < remaining s)%nat.
Proof.
  intros Ha. cbn [step]. destruct (awaiting s) as [|n] eqn:Ea; [done|].
  destruct (resume_performed hands (resolveOne s)) as (Hc & Haw & _ & _ & Hlen).
  unfold remaining. rewrite Hc, Haw. cbn [resolveOne ui awaiting timers] in *.
  rewrite Ea. cbn [Nat.pred]. lia.
Qed.

(** So does every timer that fires. *)
Lemma timer_progress (r : Q) (s : Sys) :
  quiet s -> ticking s -> timers s <> [] ->
  (remaining (step (number := number) (TimerFires r) s) < remaining s)%nat.
Proof.
  intros Hq [Hval Hticks] Hne. cbn [step].
  destruct (earliest (timers s)) as [t|] eqn:Et; [|by apply earliest_none in Et].
  pose proof (earliest_elem _ _ Et) as Hin. pose proof (length_fire t s Hin) as Hlen.
  destruct (callback t) as [c| |g] eqn:Ecb; cbn [runCallback].
  - destruct (Hticks t c Hin Ecb) as (_ & Hc & Hpos).
    assert (Hd : detector (ui s) = true).
    { destruct Hq as [Hd | (Hn & _)]; [exact Hd | congruence]. }
    destruct (tick_performed c (fire t s) Hc Hpos Hd) as [Hc' Hrest].
    unfold remaining. rewrite Hc', Hc. cbn [fire ui awaiting] in *.
    destruct (0 <? c - 1)%Z eqn:Epos.
    + destruct Hrest as (_ & -> & Hl). lia.
    + assert (c - 1 = 0)%Z as E.
      { rewrite Hc in Hval. unfold countdown_values in Hval.
        apply Z.ltb_ge in Epos.
        apply elem_of_cons in Hval as [Hval|Hval]; [discriminate|].
        repeat (apply elem_of_cons in Hval as [Hval|Hval]; [injection Hval as ->; lia|]).
        by apply elem_of_nil in Hval. }
      destruct (Hrest E) as [-> Hl]. lia.
  - destruct (clear_performed (fire t s)) as (Hc & Ha & Hl).
    unfold remaining. rewrite Hc, Ha. cbn [fire ui awaiting] in *. lia.
  - destruct (reveal_no_tick g r (ui (fire t s))) as [_ Hc].
    destruct (reveal_plain g r (ui (fire t s))) as [Hp Hd].
    rewrite (dispatch_no_effect _ _ Hc Hd).
    unfold remaining.
    rewrite ui_performAll, Hc, timers_performAll_plain, awaiting_performAll
      by first [done | by apply plain_no_estimate].
    cbn [fire ui awaiting] in *. lia.
Qed.

Lemma reachable_run (evs : list Event) (s : Sys) :
  reachable (number := number) s -> reachable (run evs s).
Proof. intros [evs0 ->]. exists (evs0 ++ evs). unfold run. by rewrite foldl_app. Qed.

(** Left alone, a page comes to rest within [remaining] passive events. *)
Lemma drains (n : nat) (s : Sys) :
  (remaining s <= n)%nat -> reachable (number := number) s ->
  exists evs : list Event,
    Forall passive evs /\ (length evs <= n)%nat
    /\ awaiting (run evs s) = 0%nat /\ timers (run evs s) = [].
Proof.
  revert s. induction n as [|n IH]; intros s Hn Hr.
  - exists []. unfold remaining in Hn. split; [constructor|]. split; [cbn; lia|].
    split; [cbn; lia|]. cbn. destruct (timers s); [reflexivity | cbn in Hn; lia].
  - destruct (decide (awaiting s = 0%nat)) as [Ha | Ha].
    + destruct (timers s) as [|t ts] eqn:Et.
      * exists []. split; [constructor|]. split; [cbn; lia|]. by split.
      * pose proof (timer_progress 0 s (reachable_quiet s Hr) (reachable_ticking s Hr)) as Hp.
        rewrite Et in Hp. specialize (Hp ltac:(discriminate)).
        destruct (IH (step (TimerFires 0) s)) as (evs & Hpas & Hlen & Hrest);
          [lia | apply (reachable_run [TimerFires 0] s Hr) |].
        exists (TimerFires 0 :: evs). split; [by constructor|]. split; [cbn; lia | exact Hrest].
    + pose proof (answer_progress [] s Ha) as Hp.
      destruct (IH (step (HandsEstimated []) s)) as (evs & Hpas & Hlen & Hrest);
        [lia | apply (reachable_run [HandsEstimated []] s Hr) |].
      exists (HandsEstimated [] :: evs). split; [by constructor|]. split; [cbn; lia | exact Hrest].
Qed.

(** X18 (lines 304-373 and 468-483, second component).  As long as every
    awaited detection resolves, the second component cannot hang: on every
    page reached that way, a round that is on (the countdown is not [null])
    has something pending, a timer or an answer of the detector; every
    answer of the detector and every timer that fires brings the page
    strictly nearer to rest, whatever hands are detected and whatever is
    drawn; so without any click, after at most [remaining s] such events,
    the countdown is [null] again with no timer and no answer pending.  A
    rejected detection is another matter: [capturePose] does not catch it,
    so when the capture of a round with nothing else pending is rejected,
    the countdown stays 0 with no timer and no answer pending, "GO!" stays
    on display and PLAY stays disabled, whatever happens but a click on
    Reset. *)
Theorem second_component_rests_unless_rejected (s : Sys) :
  reachable (number := number) s ->
  (countdown (ui s) <> None -> awaiting s <> 0%nat \/ timers s <> [])
  /\ (forall hands : list (Hand number), awaiting s <> 0%nat ->
        (remaining (step (HandsEstimated hands) s) < remaining s)%nat)
  /\ (forall r : Q, timers s <> [] ->
        (remaining (step (number := number) (TimerFires r) s) < remaining s)%nat)
  /\ (exists evs : list Event,
       Forall passive evs /\ (length evs <= remaining s)%nat
       /\ countdown (ui (run evs s)) = None
       /\ awaiting (run evs s) = 0%nat /\ timers (run evs s) = [])
  /\ (countdown (ui s) = Some 0%Z -> timers s = [] -> awaiting s = 1%nat ->
      forall evs : list Event, Forall (fun e => e <> ClickReset) evs ->
        hung (run evs (rejectHands s))
        /\ View.overlay (ui (run evs (rejectHands s))) = View.Go
        /\ View.playDisabled (ui (run evs (rejectHands s))) = true).
Proof.
  intros Hr.
  assert (Hpending : forall q, reachable (number := number) q ->
            countdown (ui q) <> None -> awaiting q <> 0%nat \/ timers q <> []).
  { intros q Hq Hc. pose proof (reachable_moving q Hq) as Hm. unfold moving in Hm.
    destruct (countdown (ui q)) as [c|]; [|done]. destruct (0 <? c)%Z.
    - destruct Hm as (t & Hin & _). right. intros E. rewrite E in Hin. by apply elem_of_nil in Hin.
    - destruct Hm as [Hpos | (t & Hin & _)]; [left; lia | right].
      intros E. rewrite E in Hin. by apply elem_of_nil in Hin. }
  split; [by apply Hpending|]. split; [intros hands; apply answer_progress|].
  split; [intros r; apply timer_progress; [by apply reachable_quiet | by apply reachable_ticking]|].
  split.
  - destruct (drains (remaining s) s (le_n _) Hr) as (evs & Hpas & Hlen & Ha & Ht).
    exists evs. split; [exact Hpas|]. split; [exact Hlen|]. split; [|by split].
    destruct (countdown (ui (run evs s))) as [c|] eqn:Ec; [|reflexivity].
    destruct (Hpending (run evs s) (reachable_run evs s Hr)) as [Hx | Hx];
      [by rewrite Ec | contradiction | contradiction].
  - intros Hc Ht Ha evs Hevs.
    assert (Hd : detector (ui s) = true).
    { apply (in_flight_detector (number := number) s Hr). rewrite Hc. discriminate. }
    pose proof (run_hung evs _ Hevs (rejected_hangs s Hd Hc Ht Ha)) as Hh.
    split; [exact Hh|]. destruct Hh as (Hd' & Hc' & _).
    unfold View.overlay, View.playDisabled, View.isReady. rewrite Hc', Hd'. by split.
Qed.
End Progress.

Lemma second_component_rests_unless_rejected_witness :
  awaiting capturing <> 0%nat \/ timers capturing <> [].
Proof.
  refine (proj1 (second_component_rests_unless_rejected (number := Z) capturing _) _).
  - by exists [Runtime.DetectorLoaded; Runtime.ClickPlay; Runtime.TimerFires 0;
               Runtime.TimerFires 0; Runtime.TimerFires 0].
  - vm_compute. discriminate.
Defined.

(** * Before the detector is loaded *)

Section Cold.
Import Handlers Runtime.
Context {number : Type} `{JsNum number}.

Lemma perform_plain_cold (acts : list Action) (s : Sys) :
  Forall plain acts ->
  countdown (setStates acts (ui s)) = countdown (ui s) ->
  detector (setStates acts (ui s)) = detector (ui s) ->
  ui (dispatch acts s) = setStates acts (ui s)
  /\ timers (dispatch acts s) = timers s /\ awaiting (dispatch acts s) = awaiting s.
Proof.
  intros Hp Hc Hd. rewrite (dispatch_no_effect acts s Hc Hd).
  rewrite ui_performAll, timers_performAll_plain, awaiting_performAll
    by first [done | by apply plain_no_estimate].
  done.
Qed.

Lemma step_cold (e : Event) (s : Sys) : cold s -> cold (step (number := number) e s).
Proof.
  intros Hc Hd'.
  assert (Hd : detector (ui s) = false).
  { destruct (detector (ui s)) eqn:Ed; [|reflexivity].
    by rewrite (step_detector e s Ed) in Hd'. }
  destruct (Hc Hd) as (Hcd & Ht & Ha & Hpm & Ham & Hps & Has & Hres).
  assert (Hplain : forall acts, Forall plain acts ->
            countdown (setStates acts (ui s)) = countdown (ui s) ->
            detector (setStates acts (ui s)) = detector (ui s) ->
            playerMove (setStates acts (ui s)) = "?" -> aiMove (setStates acts (ui s)) = "?" ->
            playerScore (setStates acts (ui s)) = 0%nat ->
            aiScore (setStates acts (ui s)) = 0%nat ->
            result (setStates acts (ui s)) ∈ unloaded_results ->
            countdown (ui (dispatch acts s)) = None /\ timers (dispatch acts s) = []
            /\ awaiting (dispatch acts s) = 0%nat
            /\ playerMove (ui (dispatch acts s)) = "?" /\ aiMove (ui (dispatch acts s)) = "?"
            /\ playerScore (ui (dispatch acts s)) = 0%nat
            /\ aiScore (ui (dispatch acts s)) = 0%nat
            /\ result (ui (dispatch acts s)) ∈ unloaded_results).
  { intros acts Hp Hc1 Hd1 H1 H2 H3 H4 H5.
    destruct (perform_plain_cold acts s Hp Hc1 Hd1) as (-> & -> & ->).
    rewrite Hc1. by repeat split. }
  destruct e as [| | | | |hands|r|d]; cbn [step] in *.
  - rewrite detector_dispatch in Hd'. discriminate.
  - apply Hplain; try done; [repeat constructor | unfold unloaded_results; cbn; in_list].
  - apply Hplain; try done; [repeat constructor | unfold unloaded_results; cbn; in_list].
  - unfold playRound. rewrite Hd, orb_true_r. by apply Hplain.
  - apply Hplain; try done; [repeat constructor | unfold unloaded_results; cbn; in_list].
  - rewrite Ha. by repeat split.
  - rewrite Ht. cbn. by repeat split.
  - by repeat split.
Qed.

Lemma reachable_cold (s : Sys) : reachable (number := number) s -> cold s.
Proof.
  intros [evs ->]. induction evs as [|e evs IH] using rev_ind.
  - intros _. cbn. repeat split. unfold unloaded_results. in_list.
  - rewrite run_snoc. by apply step_cold.
Qed.

Lemma run_detector (evs : list Event) (s : Sys) :
  detector (ui s) = true -> detector (ui (run (number := number) evs s)) = true.
Proof.
  intros Hd. induction evs as [|e evs IH] using rev_ind; [exact Hd|].
  rewrite run_snoc. by apply step_detector.
Qed.

(** X19 (lines 279-302, 313-317 and 468-474, second component).  While the
    detector is not loaded nothing can start: on every reachable page
    without a detector the countdown is [null], no timer and no answer is
    pending, both moves are "?" and both counters 0, the message is the
    initial one, one of the two load failures or the reset message, the
    overlay is hidden, the PLAY button is disabled and a click on it changes
    nothing.  Once loaded, the detector stays loaded. *)
Theorem nothing_starts_before_detector (s : Sys) :
  reachable (number := number) s ->
  (detector (ui s) = false ->
     countdown (ui s) = None /\ timers s = [] /\ awaiting s = 0%nat
     /\ playerMove (ui s) = "?" /\ aiMove (ui s) = "?"
     /\ playerScore (ui s) = 0%nat /\ aiScore (ui s) = 0%nat
     /\ result (ui s) ∈ unloaded_results
     /\ View.overlay (ui s) = View.Hidden /\ View.playDisabled (ui s) = true
     /\ step (number := number) ClickPlay s = s)
  /\ (detector (ui s) = true ->
      forall evs : list Event, detector (ui (run evs s)) = true).
Proof.
  intros Hr. split.
  - intros Hd. destruct (reachable_cold s Hr Hd) as (Hcd & Ht & Ha & Hpm & Ham & Hps & Has & Hres).
    repeat (split; [assumption|]).
    split; [unfold View.overlay; by rewrite Hcd|].
    split; [unfold View.playDisabled, View.isReady; by rewrite Hd|].
    cbn [step]. unfold playRound. rewrite Hd, orb_true_r. apply commit_same.
  - intros Hd evs. by apply run_detector.
Qed.
End Cold.

Lemma nothing_starts_before_detector_witness :
  Runtime.step (number := Z) Runtime.ClickPlay
    (Runtime.run (number := Z) [Runtime.ModelLoadFailed; Runtime.ClickReset] initialSys)
  = Runtime.run (number := Z) [Runtime.ModelLoadFailed; Runtime.ClickReset] initialSys.
Proof.
  refine (proj2 (proj2 (proj2 (proj2 (proj2 (proj2 (proj2 (proj2 (proj2 (proj2 (proj1
    (nothing_starts_before_detector (number := Z)
       (Runtime.run (number := Z) [Runtime.ModelLoadFailed; Runtime.ClickReset] initialSys) _)
    _))))))))))).
  - by exists [Runtime.ModelLoadFailed; Runtime.ClickReset].
  - reflexivity.
Defined.

(** * Reset and the timers of an abandoned round *)

Section TickId.
Import Handlers Runtime.
Context {number : Type} `{JsNum number}.

Lemma perform_tick_id (a : Action) (s : Sys) :
  fresh_ids s -> tick_id s -> tick_id (perform a s).
Proof.
  intros [_ Hlt] Hid k Hct. cbn [perform countdownTimer] in Hct.
  destruct (Hid k Hct) as [Hn Hticks].
  destruct a as [| | | | | | | | |cb delay|cleared| | |]; cbn [perform nextTimerId timers]; (split; [lia|]); try exact Hticks.
  - intros t Hin Ht. apply elem_of_app in Hin as [Hin | Hin]; [by apply Hticks|].
    apply list_elem_of_singleton in Hin. subst t. cbn in Ht. lia.
  - intros t Hin Ht. apply list_elem_of_filter in Hin as [_ Hin]. by apply Hticks.
Qed.

Lemma performAll_tick_id (acts : list Action) (s : Sys) :
  fresh_ids s -> tick_id s -> tick_id (performAll acts s).
Proof.
  revert s. induction acts as [|a acts IH]; intros s Hf Hid; [exact Hid|].
  apply (IH (perform a s)); [by apply perform_fresh | by apply perform_tick_id].
Qed.

Lemma countdownEffect_tick_id (s : Sys) :
  fresh_ids s -> tick_id s -> tick_id (countdownEffect s).
Proof.
  intros Hf Hid. unfold countdownEffect. cbv zeta.
  set (s1 := perform (ClearTimeout (countdownTimer s)) s).
  assert (Hf1 : fresh_ids s1) by (by apply perform_fresh).
  destruct (countdown (ui s1)) as [c|]; [destruct (0 <? c)%Z|].
  - intros k Hct. cbn in Hct. injection Hct as <-. split; [cbn; lia|].
    intros t Hin Ht. cbn [setCountdownTimer timers perform] in Hin.
    apply elem_of_app in Hin as [Hin | Hin].
    + destruct Hf1 as [_ Hlt]. apply Hlt in Hin. unfold s1 in *. cbn in *. lia.
    + apply list_elem_of_singleton in Hin. subst t. exact I.
  - intros k Hct. discriminate.
  - intros k Hct. discriminate.
Qed.

Lemma captureEffect_tick_id (s : Sys) :
  fresh_ids s -> tick_id s -> tick_id (captureEffect s).
Proof.
  intros Hf Hid. unfold captureEffect.
  destruct (countdown (ui s)) as [[| |]|]; [destruct (detector (ui s))|..];
    first [exact Hid | by apply performAll_tick_id].
Qed.

Lemma dispatch_tick_id (acts : list Action) (s : Sys) :
  fresh_ids s -> tick_id s -> tick_id (dispatch acts s).
Proof.
  intros Hf Hid. unfold dispatch, commit.
  pose proof (performAll_fresh acts s Hf) as Hf1.
  pose proof (performAll_tick_id acts s Hf Hid) as Hid1.
  destruct (bool_decide (countdown (ui s) <> _)), (bool_decide (detector (ui s) <> _));
    cbn [orb]; auto using countdownEffect_fresh, countdownEffect_tick_id, captureEffect_tick_id.
Qed.

Lemma fire_tick_id (t : Timer) (s : Sys) : tick_id s -> tick_id (fire t s).
Proof.
  intros Hid id Hct. destruct (Hid id Hct) as [Hn Hticks]. split; [exact Hn|].
  intros u Hin. apply list_elem_of_filter in Hin as [_ Hin]. by apply Hticks.
Qed.

Lemma step_tick_id (e : Event) (s : Sys) :
  fresh_ids s -> tick_id s -> tick_id (step (number := number) e s).
Proof.
  intros Hf Hid. destruct e; cbn [step]; try (by apply dispatch_tick_id).
  - destruct (awaiting s); [exact Hid|]. by apply dispatch_tick_id.
  - destruct (earliest (timers s)) as [t|]; [|exact Hid].
    apply dispatch_tick_id; [|by apply fire_tick_id].
    destruct Hf as [Hnd Hlt]. by apply filter_fresh.
  - exact Hid.
Qed.

Lemma reachable_tick_id (s : Sys) : reachable (number := number) s -> tick_id s.
Proof.
  intros [evs ->]. induction evs as [|e evs IH] using rev_ind; [intros id [=]|].
  rewrite run_snoc. apply step_tick_id; [|exact IH]. apply reachable_fresh. by exists evs.
Qed.

(** Reset leaves every timer that is not a countdown tick where it is. *)
Lemma reset_keeps (s : Sys) (t : Timer) :
  tick_id s -> t ∈ timers s -> ~ is_tick t -> t ∈ timers (dispatch resetScores s).
Proof.
  intros Hid Hin Hnt. unfold dispatch, commit.
  set (p := performAll resetScores s).
  assert (Htp : timers p = timers s) by reflexivity.
  assert (Hcp : countdownTimer p = countdownTimer s) by reflexivity.
  assert (Hcd : countdown (ui p) = None) by reflexivity.
  assert (Hkept : t ∈ timers (countdownEffect p)).
  { pose proof (countdownEffect_timers p) as Heff. cbv zeta in Heff. rewrite Hcd in Heff.
    destruct Heff as [-> _]. apply list_elem_of_filter. rewrite Htp, Hcp. split; [|exact Hin].
    intros E. symmetry in E. destruct (Hid _ E) as [_ Hticks]. by apply Hnt, Hticks. }
  destruct (bool_decide (countdown (ui s) <> _)), (bool_decide (detector (ui s) <> _));
    cbn [orb];
    rewrite ?(proj1 (captureEffect_frame _)); first [exact Hkept | by rewrite Htp].
Qed.

(** X20 (lines 340-372 and 476-483, second component).  Reset does not
    cancel the timers of the round it abandons.  On every reachable page, a
    reveal that is pending when Reset is clicked is still pending after it,
    with both counters at 0, both moves "?" and the countdown [null]; when
    it then fires it shows its AI move beside the "?" of the player and gives
    its point, so that a counter reads 1 although no round was played since
    the reset. *)
Theorem reset_keeps_pending_reveal (s : Sys) (t : Timer) (g : string) (r : Q) :
  reachable (number := number) s -> t ∈ timers s -> callback t = Reveal g ->
  let s1 := step (number := number) ClickReset s in
  t ∈ timers s1
  /\ playerScore (ui s1) = 0%nat /\ aiScore (ui s1) = 0%nat
  /\ playerMove (ui s1) = "?" /\ aiMove (ui s1) = "?" /\ countdown (ui s1) = None
  /\ (earliest (timers s1) = Some t ->
      let s2 := step (number := number) (TimerFires r) s1 in
      playerMove (ui s2) = "?" /\ aiMove (ui s2) = aiChoice r
      /\ result (ui s2) = winnerText (roundOutcome g (aiChoice r))
      /\ playerScore (ui s2) = (if decide (roundOutcome g (aiChoice r) = Win) then 1 else 0)%nat
      /\ aiScore (ui s2) = (if decide (roundOutcome g (aiChoice r) = Lose) then 1 else 0)%nat
      /\ countdown (ui s2) = None).
Proof.
  intros Hr Hin Hcb. cbv zeta. cbn [step].
  assert (Hui : ui (dispatch resetScores s) = setStates resetScores (ui s)).
  { by apply (proj2 (proj2 (proj2 (proj2 (proj2 (proj2 (ui_dispatch resetScores s))))))). }
  split.
  { apply reset_keeps; [by apply reachable_tick_id | exact Hin |].
    unfold is_tick. rewrite Hcb. tauto. }
  rewrite Hui. do 5 (split; [reflexivity|]).
  intros ->. rewrite Hcb. cbn [runCallback].
  set (s1 := fire t (dispatch resetScores s)).
  assert (Hui1 : ui s1 = setStates resetScores (ui s)) by exact Hui.
  destruct (reveal_no_tick g r (ui s1)) as [_ Hc].
  assert (Hui2 : ui (dispatch (reveal g r) s1) = setStates (reveal g r) (ui s1)).
  { apply (proj2 (proj2 (proj2 (proj2 (proj2 (proj2 (ui_dispatch (reveal g r) s1))))))).
    rewrite Hc, Hui1. discriminate. }
  rewrite Hui2, Hui1. unfold reveal, revealWith.
  destruct (roundOutcome g (aiChoice r)); cbn; repeat case_decide; try congruence;
    by repeat split.
Qed.
End TickId.

Lemma reset_keeps_pending_reveal_witness :
  {| timer_id := 3; due := 4200; callback := Reveal "Rock ✊" |}
    ∈ timers (Runtime.step (number := Z) Runtime.ClickReset revealing).
Proof.
  refine (proj1 (reset_keeps_pending_reveal (number := Z) revealing
                   {| timer_id := 3; due := 4200; callback := Reveal "Rock ✊" |}
                   "Rock ✊" 0 _ _ _)).
  - apply (reachable_run (number := Z)). by exists [Runtime.DetectorLoaded].
  - vm_compute. apply list_elem_of_here.
  - reflexivity.
Defined.
